(** * Vision service: capture engine, frame processor and session registry

    A shallow embedding of [vision-service/src]: [camera_manager.{h,cpp}],
    [frame_processor.{h,cpp}] and [vision_service.{h,cpp}].

    Conventions.
    - A C++ [int] is a [Z]; where the source does arithmetic on it the
      two's-complement wrap-around is written out ([wrap32], [wrap64],
      [to_size_t]).
    - A method of a class is a function on the record of the class's
      fields.  What the method needs from outside the process (the file
      system, the clock, the video backend, the thread library) is read
      from an explicit environment record.
    - [std::unordered_map<std::string, ...>] is a [gmap string _]. *)

From Stdlib Require Import ZArith String Ascii List Bool Lia.
From Stdlib Require Import Floats.
From stdpp Require Import gmap strings list fin_maps pretty.

Local Open Scope string_scope.
Local Open Scope Z_scope.

(** ** Machine integers *)

Definition INT_MAX : Z := 2147483647.
Definition INT_MIN : Z := -2147483648.

(** A value of type [int]. *)
Definition is_int (z : Z) : Prop := INT_MIN <= z <= INT_MAX.

(** Two's-complement reduction to 32 and 64 bits (signed). *)
Definition wrap32 (z : Z) : Z := (z + 2 ^ 31) mod 2 ^ 32 - 2 ^ 31.
Definition wrap64 (z : Z) : Z := (z + 2 ^ 63) mod 2 ^ 64 - 2 ^ 63.

(** Conversion of a signed value to [size_t] (64 bits, unsigned). *)
Definition to_size_t (z : Z) : Z := z mod 2 ^ 64.

(** ** Strings *)

(** [s.find(pat)]: the position of the first occurrence of [pat] in [s],
    [None] for [npos]. *)
Fixpoint string_find (s pat : string) : option nat :=
  if String.prefix pat s then Some 0%nat
  else match s with
       | EmptyString => None
       | String _ s' => option_map S (string_find s' pat)
       end.

(** [s.find(pat) == 0] *)
Definition found_at_start (s pat : string) : bool :=
  match string_find s pat with
  | Some 0%nat => true
  | _ => false
  end.

(** [s.size() >= ext.size() &&
     s.compare(s.size() - ext.size(), ext.size(), ext) == 0] *)
Definition ends_with (s ext : string) : bool :=
  (String.length ext <=? String.length s)%nat
  && String.eqb
       (String.substring (String.length s - String.length ext)
                         (String.length ext) s)
       ext.

(** ** Frames ([frame_processor.h]) *)

Module Frame.
Record t : Type := mk
  { data : list Byte.byte;
    width : Z;
    height : Z;
    format : string;
    timestamp : Z }.

(** [Frame()] *)
Definition empty : t :=
  {| data := []; width := 0; height := 0; format := "unknown";
     timestamp := 0 |}.
End Frame.

(** ** Byte buffers ([std::vector<uint8_t>]) *)

(** How a computation on a buffer ends: with a value; by an exception;
    or in undefined behaviour (an access past the end of a vector, a
    conversion whose result does not fit). *)
Inductive Result (A : Type) : Type :=
| Value (a : A)
| Exception (what : string)
| UndefinedBehaviour.
Arguments Value {A} a.
Arguments Exception {A} what.
Arguments UndefinedBehaviour {A}.

#[export] Instance Result_ret : MRet Result := @Value.

#[export] Instance Result_bind : MBind Result :=
  fun A B k r =>
    match r with
    | Value a => k a
    | Exception what => Exception what
    | UndefinedBehaviour => UndefinedBehaviour
    end.

(** [static_cast<uint8_t>(z)] of an integer, and the value of a byte. *)
Definition uint8 (z : Z) : Byte.byte :=
  default Byte.x00 (Byte.of_N (Z.to_N (z mod 256))).

Definition Z_of_uint8 (b : Byte.byte) : Z := Z.of_N (Byte.to_N b).

(** [data[idx] = v] and [data[idx]], for an index of type [size_t]. *)
Definition store (idx : Z) (v : Byte.byte) (data : list Byte.byte)
  : Result (list Byte.byte) :=
  if (0 <=? idx) && (idx <? Z.of_nat (length data))
  then Value (<[Z.to_nat idx := v]> data)
  else UndefinedBehaviour.

Definition load (idx : Z) (data : list Byte.byte) : Result Byte.byte :=
  if 0 <=? idx then
    match data !! Z.to_nat idx with
    | Some v => Value v
    | None => UndefinedBehaviour
    end
  else UndefinedBehaviour.

(** [std::vector<uint8_t>::max_size()] where [size_t] has 64 bits. *)
Definition VECTOR_MAX_SIZE : Z := 2 ^ 63 - 1.

(** [data.resize(n)]: beyond [max_size()] it throws; new elements are 0.
    Memory is taken to suffice for every size that [max_size()]
    allows. *)
Definition resize (n : Z) (data : list Byte.byte)
  : Result (list Byte.byte) :=
  if n >? VECTOR_MAX_SIZE then Exception "std::length_error"
  else Value (firstn (Z.to_nat n) data
              ++ repeat Byte.x00 (Z.to_nat n - length data))%list.

(** A loop whose counter runs through [range], in order. *)
Fixpoint for_each {S : Type} (range : list Z) (body : Z -> S -> Result S)
    (s : S) : Result S :=
  match range with
  | [] => Value s
  | i :: rest => s' ← body i s; for_each rest body s'
  end.

(** The values of [i] in [for (size_t i = 0; i < n; i += 3)]. *)
Definition every_third (n : Z) : list Z :=
  List.map (fun k => 3 * k) (seqZ 0 ((n + 2) / 3)).

Module FrameProcessorConstants.
Definition DEFAULT_MAX_DETECTIONS : Z := 10.
Definition MAX_FRAME_WIDTH : Z := 4096.
Definition MAX_FRAME_HEIGHT : Z := 4096.
Definition MIN_FRAME_WIDTH : Z := 32.
Definition MIN_FRAME_HEIGHT : Z := 32.
Definition DEFAULT_MIN_AREA : Z := 100.
Definition SUPPORTED_FORMATS : list string :=
  ["bgr"; "rgb"; "gray"; "jpeg"; "png"].
End FrameProcessorConstants.

Module FrameUtils.
(** [IsValidFormat]: [std::find] over [SUPPORTED_FORMATS]. *)
Definition IsValidFormat (format : string) : bool :=
  existsb (String.eqb format) FrameProcessorConstants.SUPPORTED_FORMATS.

(** [CalculateFrameSize].  The products are computed in [int] and the
    result is converted to [size_t]; signed overflow (undefined in C++)
    is modelled by wrap-around.  [/] on [int] truncates. *)
Definition CalculateFrameSize (width height : Z) (format : string) : Z :=
  if String.eqb format "bgr" || String.eqb format "rgb" then
    to_size_t (wrap32 (wrap32 (width * height) * 3))
  else if String.eqb format "gray" then
    to_size_t (wrap32 (width * height))
  else if String.eqb format "jpeg" || String.eqb format "png" then
    to_size_t (Z.quot (wrap32 (wrap32 (width * height) * 3)) 2)
  else 0.

(** [std::swap(data[i], data[j])] *)
Definition swap (i j : Z) (data : list Byte.byte)
  : Result (list Byte.byte) :=
  a ← load i data;
  b ← load j data;
  data' ← store i b data;
  store j a data'.

(** [FrameUtils::ConvertFormat]; the dimensions are not used. *)
Definition ConvertFormat (data : list Byte.byte) (width height : Z)
    (from_format to_format : string) : Result (list Byte.byte) :=
  if String.eqb from_format to_format then Value data
  else if String.eqb from_format "bgr" && String.eqb to_format "rgb" then
    let converted := data in
    for_each (every_third (Z.of_nat (length converted)))
             (fun i converted => swap i (i + 2) converted) converted
  else Value data.
End FrameUtils.

(** ** The file system, as [std::filesystem] sees it *)

(** [std::filesystem::file_type] of the status of a path ([none], the
    error value, apart: a failing [status] call is outside the model). *)
Inductive file_type : Type :=
| not_found | regular | directory | symlink | block | character | fifo
| socket | unknown.

Definition FileSystem : Type := string -> file_type.

(** [std::filesystem::exists(p)]: the status is known and its type is not
    [file_type::not_found]. *)
Definition fs_exists (fs : FileSystem) (p : string) : bool :=
  match fs p with
  | not_found => false
  | _ => true
  end.


(** ** Camera manager: types ([camera_manager.h]) *)

Inductive CameraType : Type :=
| UNKNOWN | FILE_VIDEO | WEBCAM | RTSP_STREAM | HTTP_STREAM | TEST_PATTERN.

Inductive CameraState : Type :=
| UNINITIALIZED | INITIALIZING | READY | CAPTURING | ERROR | DISCONNECTED
| RECONNECTING.

Module CameraManagerConstants.
Definition SUPPORTED_VIDEO_FORMATS : list string :=
  [".mp4"; ".avi"; ".mov"; ".mkv"; ".wmv"; ".flv"; ".webm"].
Definition RTSP_PREFIXES : list string := ["rtsp://"; "rtmp://"; "rtp://"].
Definition HTTP_PREFIXES : list string := ["http://"; "https://"].
Definition WEBCAM_PATTERNS : list string :=
  ["/dev/video"; "/dev/v4l/by-id/"].
End CameraManagerConstants.

(** [CameraManager::DetectCameraType] (static). *)
Definition DetectCameraType (fs : FileSystem) (url : string) : CameraType :=
  if String.eqb url "" then UNKNOWN
  else if String.eqb url "test://pattern" || found_at_start url "test://"
  then TEST_PATTERN
  else if existsb (found_at_start url) CameraManagerConstants.RTSP_PREFIXES
  then RTSP_STREAM
  else if existsb (found_at_start url) CameraManagerConstants.HTTP_PREFIXES
  then HTTP_STREAM
  else if existsb (found_at_start url) CameraManagerConstants.WEBCAM_PATTERNS
  then WEBCAM
  else if existsb (ends_with url)
                  CameraManagerConstants.SUPPORTED_VIDEO_FORMATS
  then FILE_VIDEO
  else if fs_exists fs url then FILE_VIDEO
  else UNKNOWN.

(** [CameraManager::IsValidCameraUrl] (static). *)
Definition IsValidCameraUrl (fs : FileSystem) (url : string) : bool :=
  match DetectCameraType fs url with
  | UNKNOWN => false
  | _ => true
  end.

(** [CameraManager::GetAvailableWebcams] (static): the loop over
    [/dev/video0] to [/dev/video9]. *)
Definition GetAvailableWebcams (fs : FileSystem) : list string :=
  fold_left
    (fun webcams i =>
       let device := "/dev/video" ++ pretty i in
       if fs_exists fs device then (webcams ++ [device])%list else webcams)
    (seqZ 0 10) [].

(** [CameraConfig], with the defaults of its member initialisers. *)
Module CameraConfig.
Record t : Type := mk
  { width : Z;
    height : Z;
    fps : Z;
    format : string;
    auto_reconnect : bool;
    reconnect_delay_ms : Z;
    max_reconnect_attempts : Z;
    frame_buffer_size : Z }.

(** [CameraConfig()] *)
Definition default : t :=
  {| width := 640; height := 480; fps := 15; format := "bgr";
     auto_reconnect := true; reconnect_delay_ms := 5000;
     max_reconnect_attempts := 3; frame_buffer_size := 30 |}.
End CameraConfig.

(** [CameraStats]: the counters are [std::atomic<int64_t>], the two time
    points are readings of the steady clock. *)
Module CameraStats.
Record t : Type := mk
  { frames_captured : Z;
    frames_dropped : Z;
    bytes_received : Z;
    reconnect_count : Z;
    start_time : Z;
    last_frame_time : Z }.

(** [CameraStats()], constructed when the clock reads [now]. *)
Definition init (now : Z) : t :=
  {| frames_captured := 0; frames_dropped := 0; bytes_received := 0;
     reconnect_count := 0; start_time := now; last_frame_time := 0 |}.
End CameraStats.

(** What a [FrameCallback] does when it is invoked, as far as the engine
    can tell: it returns, or an exception escapes it. *)
Inductive CallbackResult : Type :=
| CbReturns
| CbThrows (what : string)
| CbThrowsUnknown.

Definition FrameCallback : Type := Frame.t -> CallbackResult.

(** ** The environment of the capture engine *)

(** The body of [InitializeFileCapture], [InitializeWebcamCapture] or
    [InitializeRtspCapture], which depends on [HAVE_OPENCV] and on what
    [cv::VideoCapture] does: it returns [true], or it calls [SetError] with
    a message and returns [false], or an exception escapes it. *)
Inductive BackendInit : Type :=
| InitOk
| InitFails (error : string)
| InitThrows (what : string)
| InitThrowsUnknown.

(** The type-specific capture ([CaptureFileFrame], [CaptureWebcamFrame],
    [CaptureRtspFrame], [CaptureTestFrame]): a frame, possibly empty, or a
    [std::exception]. *)
Inductive BackendRead : Type :=
| ReadFrame (f : Frame.t)
| ReadThrows (what : string).

(** [std::make_unique<std::thread>(...)]. *)
Inductive ThreadCreate : Type :=
| ThreadStarted
| ThreadCreateThrows (what : string).

(** Locking a [std::mutex] that the calling thread already owns is
    undefined behaviour.  With the usual implementation the thread blocks
    for ever ([RelockDeadlocks]); [RelockIgnored] is the reading in which
    the nested [lock_guard] has no effect. *)
Inductive Relock : Type :=
| RelockDeadlocks
| RelockIgnored.

Record Env : Type := mkEnv
  { fs : FileSystem;
    steady_now : Z;
    backend_init : CameraType -> BackendInit;
    backend_read : CameraType -> BackendRead;
    thread_create : ThreadCreate;
    relock : Relock }.

(** ** Camera manager: state and effects *)

(** The fields of [CameraManager] that its methods read or write.
    [capture_thread_] records whether the [unique_ptr] holds a thread. *)
Record CameraManager : Type := mkCameraManager
  { camera_url_ : string;
    camera_type_ : CameraType;
    config_ : CameraConfig.t;
    state_ : CameraState;
    stats_ : CameraStats.t;
    last_error_ : string;
    capture_thread_ : bool;
    should_stop_ : bool;
    is_capturing_ : bool;
    frame_callback_ : option FrameCallback;
    reconnect_attempts_ : Z }.

(** What a method does besides updating the fields. *)
Inductive Event : Type :=
| EvStateChanged (from to : CameraState)
| EvError (msg : string)
| EvThreadStarted
| EvThreadJoined
| EvSleep (ms : Z)
| EvCallback (f : Frame.t) (r : CallbackResult).

(** State threaded through a method call: the object, whether the calling
    thread owns [config_mutex_], and the events so far (oldest first). *)
Record St : Type := mkSt
  { self : CameraManager;
    holds_config_mutex : bool;
    events : list Event }.

(** How a method call ends: it returns; or the thread blocks for ever on
    a mutex it owns; or [std::terminate] is called; or the model's bound
    on the recursion of [AttemptReconnect] is used up. *)
Inductive Outcome (A : Type) : Type :=
| Returns (a : A) (s : St)
| Deadlocked (s : St)
| Terminated (s : St)
| OutOfFuel.
Arguments Returns {A} a s.
Arguments Deadlocked {A} s.
Arguments Terminated {A} s.
Arguments OutOfFuel {A}.

Definition M (A : Type) : Type := St -> Outcome A.

Definition ret {A} (a : A) : M A := fun s => Returns a s.

Definition bind {A B} (m : M A) (k : A -> M B) : M B :=
  fun s =>
    match m s with
    | Returns a s' => k a s'
    | Deadlocked s' => Deadlocked s'
    | Terminated s' => Terminated s'
    | OutOfFuel => OutOfFuel
    end.

Notation "x <-- m ;;; k" := (bind m (fun x => k))
  (at level 20, m at level 99, k at level 200, only parsing).
Notation "m ;;; k" := (bind m (fun _ => k))
  (at level 100, k at level 200, only parsing, right associativity).

(** A call of a method on [cm] by a thread that owns no lock. *)
Definition call {A} (m : M A) (cm : CameraManager) : Outcome A :=
  m {| self := cm; holds_config_mutex := false; events := [] |}.

Definition get : M CameraManager := fun s => Returns (self s) s.

Definition modify (f : CameraManager -> CameraManager) : M unit :=
  fun s => Returns tt {| self := f (self s);
                         holds_config_mutex := holds_config_mutex s;
                         events := events s |}.

Definition emit (e : Event) : M unit :=
  fun s => Returns tt {| self := self s;
                         holds_config_mutex := holds_config_mutex s;
                         events := events s ++ [e] |}.

(** Field updates. *)
Definition set_state (v : CameraState) (cm : CameraManager) : CameraManager :=
  mkCameraManager (camera_url_ cm) (camera_type_ cm) (config_ cm) v
    (stats_ cm) (last_error_ cm) (capture_thread_ cm) (should_stop_ cm)
    (is_capturing_ cm) (frame_callback_ cm) (reconnect_attempts_ cm).

Definition set_config (v : CameraConfig.t) (cm : CameraManager)
  : CameraManager :=
  mkCameraManager (camera_url_ cm) (camera_type_ cm) v (state_ cm)
    (stats_ cm) (last_error_ cm) (capture_thread_ cm) (should_stop_ cm)
    (is_capturing_ cm) (frame_callback_ cm) (reconnect_attempts_ cm).

Definition set_stats (v : CameraStats.t) (cm : CameraManager) : CameraManager :=
  mkCameraManager (camera_url_ cm) (camera_type_ cm) (config_ cm) (state_ cm)
    v (last_error_ cm) (capture_thread_ cm) (should_stop_ cm)
    (is_capturing_ cm) (frame_callback_ cm) (reconnect_attempts_ cm).

Definition set_last_error (v : string) (cm : CameraManager) : CameraManager :=
  mkCameraManager (camera_url_ cm) (camera_type_ cm) (config_ cm) (state_ cm)
    (stats_ cm) v (capture_thread_ cm) (should_stop_ cm)
    (is_capturing_ cm) (frame_callback_ cm) (reconnect_attempts_ cm).

Definition set_capture_thread (v : bool) (cm : CameraManager) : CameraManager :=
  mkCameraManager (camera_url_ cm) (camera_type_ cm) (config_ cm) (state_ cm)
    (stats_ cm) (last_error_ cm) v (should_stop_ cm)
    (is_capturing_ cm) (frame_callback_ cm) (reconnect_attempts_ cm).

Definition set_should_stop (v : bool) (cm : CameraManager) : CameraManager :=
  mkCameraManager (camera_url_ cm) (camera_type_ cm) (config_ cm) (state_ cm)
    (stats_ cm) (last_error_ cm) (capture_thread_ cm) v
    (is_capturing_ cm) (frame_callback_ cm) (reconnect_attempts_ cm).

Definition set_is_capturing (v : bool) (cm : CameraManager) : CameraManager :=
  mkCameraManager (camera_url_ cm) (camera_type_ cm) (config_ cm) (state_ cm)
    (stats_ cm) (last_error_ cm) (capture_thread_ cm) (should_stop_ cm)
    v (frame_callback_ cm) (reconnect_attempts_ cm).

Definition set_frame_callback (v : option FrameCallback) (cm : CameraManager)
  : CameraManager :=
  mkCameraManager (camera_url_ cm) (camera_type_ cm) (config_ cm) (state_ cm)
    (stats_ cm) (last_error_ cm) (capture_thread_ cm) (should_stop_ cm)
    (is_capturing_ cm) v (reconnect_attempts_ cm).

Definition set_reconnect_attempts (v : Z) (cm : CameraManager)
  : CameraManager :=
  mkCameraManager (camera_url_ cm) (camera_type_ cm) (config_ cm) (state_ cm)
    (stats_ cm) (last_error_ cm) (capture_thread_ cm) (should_stop_ cm)
    (is_capturing_ cm) (frame_callback_ cm) v.

(** ** [config_mutex_] *)

(** [std::lock_guard<std::mutex> lock(config_mutex_)] around [body]. *)
Definition with_config_mutex {A} (env : Env) (body : M A) : M A :=
  fun s =>
    if holds_config_mutex s then
      match relock env with
      | RelockDeadlocks => Deadlocked s
      | RelockIgnored => body s
      end
    else
      match body {| self := self s; holds_config_mutex := true;
                    events := events s |} with
      | Returns a s' =>
          Returns a {| self := self s'; holds_config_mutex := false;
                       events := events s' |}
      | Deadlocked s' => Deadlocked s'
      | Terminated s' => Terminated s'
      | OutOfFuel => OutOfFuel
      end.

(** ** Camera manager: methods ([camera_manager.cpp]) *)

(** [CameraManager::CameraManager(camera_url)] *)
Definition new_CameraManager (env : Env) (camera_url : string)
  : CameraManager :=
  {| camera_url_ := camera_url;
     camera_type_ := DetectCameraType (fs env) camera_url;
     config_ := CameraConfig.default;
     state_ := UNINITIALIZED;
     stats_ := CameraStats.init (steady_now env);
     last_error_ := "";
     capture_thread_ := false;
     should_stop_ := false;
     is_capturing_ := false;
     frame_callback_ := None;
     reconnect_attempts_ := 0 |}.

(** [SetState]: the old and the new state go to the log. *)
Definition SetState (new_state : CameraState) : M unit :=
  cm <-- get ;;;
  emit (EvStateChanged (state_ cm) new_state) ;;;
  modify (set_state new_state).

(** [SetError]: takes [config_mutex_] itself. *)
Definition SetError (env : Env) (error : string) : M unit :=
  with_config_mutex env
    (modify (set_last_error error) ;;; emit (EvError error)).

(** The type-specific initialisers. *)
Definition InitializeTestPattern : M bool := ret true.

Definition InitializeBackend (env : Env) (ty : CameraType) : M bool :=
  match backend_init env ty with
  | InitOk => ret true
  | InitFails error => SetError env error ;;; ret false
  | InitThrows what =>
      SetError env ("Initialization exception: " ++ what) ;;; ret false
  | InitThrowsUnknown =>
      SetError env "Unknown exception during initialization" ;;; ret false
  end.

(** [Initialize(config)] *)
Definition Initialize (env : Env) (config : CameraConfig.t) : M bool :=
  if (CameraConfig.width config <=? 0)
     || (CameraConfig.height config <=? 0)
     || (CameraConfig.fps config <=? 0)
     || (CameraConfig.width config
           >? Z.quot INT_MAX (CameraConfig.height config))
  then
    SetError env "Invalid configuration parameters" ;;;
    SetState ERROR ;;;
    ret false
  else
    early <-- with_config_mutex env
                (cm <-- get ;;;
                 match state_ cm with
                 | UNINITIALIZED =>
                     SetState INITIALIZING ;;;
                     modify (set_config config) ;;;
                     ret None
                 | _ =>
                     SetError env "Already initialized" ;;;
                     ret (Some false)
                 end) ;;;
    match early with
    | Some r => ret r
    | None =>
        cm <-- get ;;;
        success <-- match camera_type_ cm with
                    | FILE_VIDEO => InitializeBackend env FILE_VIDEO
                    | WEBCAM => InitializeBackend env WEBCAM
                    | RTSP_STREAM => InitializeBackend env RTSP_STREAM
                    | TEST_PATTERN => InitializeTestPattern
                    | _ => SetError env "Unsupported camera type" ;;; ret false
                    end ;;;
        if success then
          SetState READY ;;;
          modify (fun cm =>
                    set_stats
                      (let st := stats_ cm in
                       CameraStats.mk (CameraStats.frames_captured st)
                         (CameraStats.frames_dropped st)
                         (CameraStats.bytes_received st)
                         (CameraStats.reconnect_count st)
                         (steady_now env)
                         (CameraStats.last_frame_time st)) cm) ;;;
          ret true
        else
          SetState ERROR ;;;
          ret false
    end.

(** [Initialize()] *)
Definition Initialize_default (env : Env) : M bool :=
  Initialize env CameraConfig.default.

(** [StartCapture].  A thread object that [capture_thread_] still holds
    was never joined (every join is followed by a reset), so assigning
    the new thread over it destroys a joinable [std::thread], which calls
    [std::terminate]. *)
Definition StartCapture (env : Env) : M bool :=
  early <-- with_config_mutex env
              (cm <-- get ;;;
               match state_ cm with
               | READY =>
                   if is_capturing_ cm then ret (Some true)
                   else modify (set_should_stop false) ;;; ret None
               | _ =>
                   SetError env "Camera not ready for capture" ;;;
                   ret (Some false)
               end) ;;;
  match early with
  | Some r => ret r
  | None =>
      cm <-- get ;;;
      match thread_create env with
      | ThreadStarted =>
          emit EvThreadStarted ;;;
          (if capture_thread_ cm then fun s => Terminated s
           else modify (set_capture_thread true)) ;;;
          modify (set_is_capturing true) ;;;
          SetState CAPTURING ;;;
          ret true
      | ThreadCreateThrows what =>
          with_config_mutex env
            (modify (set_should_stop true) ;;;
             modify (set_is_capturing false) ;;;
             SetState READY) ;;;
          SetError env ("Failed to start capture thread: " ++ what) ;;;
          (if capture_thread_ cm then emit EvThreadJoined else ret tt) ;;;
          modify (set_capture_thread false) ;;;
          ret false
      end
  end.

(** [StopCapture].  [from_capture_thread] says whether the caller is the
    capture thread; the join returns when the worker has left its loop,
    so the object passed in is the one the worker leaves behind. *)
Definition StopCapture (from_capture_thread : bool) : M bool :=
  cm <-- get ;;;
  if negb (is_capturing_ cm) then ret true
  else if capture_thread_ cm && from_capture_thread then ret false
  else
    modify (set_should_stop true) ;;;
    (if capture_thread_ cm then emit EvThreadJoined else ret tt) ;;;
    modify (set_capture_thread false) ;;;
    modify (set_is_capturing false) ;;;
    cm' <-- get ;;;
    match state_ cm' with
    | CAPTURING => SetState READY
    | _ => ret tt
    end ;;;
    ret true.

(** [Cleanup] *)
Definition Cleanup (env : Env) (from_capture_thread : bool) : M unit :=
  StopCapture from_capture_thread ;;;
  with_config_mutex env
    (modify (set_frame_callback None) ;;;
     SetState UNINITIALIZED).

Definition SetConfig (env : Env) (config : CameraConfig.t) : M unit :=
  with_config_mutex env (modify (set_config config)).

Definition SetFrameCallback (callback : FrameCallback) : M unit :=
  modify (set_frame_callback (Some callback)).

Definition ClearFrameCallback : M unit :=
  modify (set_frame_callback None).

Definition IsConnected (cm : CameraManager) : bool :=
  match state_ cm with
  | READY | CAPTURING => true
  | _ => false
  end.

(** *** The capture worker *)

(** [CameraManager::ValidateFrame].  The product is taken in [size_t]. *)
Definition CameraManager_ValidateFrame (frame : Frame.t) : bool :=
  match Frame.data frame with
  | [] => false
  | _ :: _ =>
      if (Frame.width frame <=? 0) || (Frame.height frame <=? 0) then false
      else
        let expected_min_size :=
          (to_size_t (Frame.width frame) * to_size_t (Frame.height frame))
            mod 2 ^ 64 in
        negb (Z.of_nat (length (Frame.data frame)) <? expected_min_size / 2)
  end.

(** [UpdateStats] *)
Definition UpdateStats (env : Env) (frame : Frame.t) : M unit :=
  modify (fun cm =>
            let st := stats_ cm in
            set_stats
              (CameraStats.mk
                 (wrap64 (CameraStats.frames_captured st + 1))
                 (CameraStats.frames_dropped st)
                 (wrap64 (CameraStats.bytes_received st
                          + Z.of_nat (length (Frame.data frame))))
                 (CameraStats.reconnect_count st)
                 (CameraStats.start_time st)
                 (steady_now env))
              cm).

(** [NotifyFrameAvailable]: whatever escapes the callback is caught. *)
Definition NotifyFrameAvailable (frame : Frame.t) : M unit :=
  cm <-- get ;;;
  match frame_callback_ cm with
  | Some cb => emit (EvCallback frame (cb frame))
  | None => ret tt
  end.

(** The outcome of [CaptureFrame]: its return value, or the
    [std::exception] that leaves it. *)
Inductive Captured : Type :=
| CaptureReturns (success : bool)
| CaptureThrows (what : string).

(** [!frame.data.empty()] *)
Definition nonempty (frame : Frame.t) : bool :=
  match Frame.data frame with
  | [] => false
  | _ :: _ => true
  end.

(** The [switch] of [CaptureFrame]: the frame and the [success] flag it
    leaves, or the exception of the backend. *)
Definition capture_switch (env : Env) (ty : CameraType)
  : string + Frame.t * bool :=
  match ty with
  | FILE_VIDEO =>
      match backend_read env FILE_VIDEO with
      | ReadFrame frame => inr (frame, nonempty frame)
      | ReadThrows what => inl what
      end
  | WEBCAM =>
      match backend_read env WEBCAM with
      | ReadFrame frame => inr (frame, nonempty frame)
      | ReadThrows what => inl what
      end
  | RTSP_STREAM =>
      match backend_read env RTSP_STREAM with
      | ReadFrame frame => inr (frame, nonempty frame)
      | ReadThrows what => inl what
      end
  | TEST_PATTERN =>
      match backend_read env TEST_PATTERN with
      | ReadFrame frame => inr (frame, true)
      | ReadThrows what => inl what
      end
  | _ => inr (Frame.empty, false)
  end.

(** [CaptureFrame] *)
Definition CaptureFrame (env : Env) : M Captured :=
  cm <-- get ;;;
  match capture_switch env (camera_type_ cm) with
  | inl what => ret (CaptureThrows what)
  | inr (frame, success) =>
      (if success && CameraManager_ValidateFrame frame then
         UpdateStats env frame ;;;
         NotifyFrameAvailable frame
       else ret tt) ;;;
      ret (CaptureReturns success)
  end.

(** [HandleCaptureError] *)
Definition HandleCaptureError (env : Env) (error : string) : M unit :=
  SetError env error ;;;
  cm <-- get ;;;
  if CameraConfig.auto_reconnect (config_ cm) then SetState DISCONNECTED
  else SetState ERROR.

(** [InitializeCapture] *)
Definition InitializeCapture : M bool :=
  modify (set_reconnect_attempts 0) ;;;
  ret true.

(** [ShouldAttemptReconnect] *)
Definition ShouldAttemptReconnect (cm : CameraManager) : bool :=
  CameraConfig.auto_reconnect (config_ cm)
  && (reconnect_attempts_ cm
        <? CameraConfig.max_reconnect_attempts (config_ cm)).

(** [AttemptReconnect].  The source calls itself after a failed
    reinitialisation; [fuel] bounds the depth of that recursion. *)
Fixpoint AttemptReconnect (env : Env) (fuel : nat) : M unit :=
  match fuel with
  | O => fun _ => OutOfFuel
  | S fuel' =>
      cm <-- get ;;;
      if reconnect_attempts_ cm
           >=? CameraConfig.max_reconnect_attempts (config_ cm)
      then
        SetError env "Maximum reconnect attempts exceeded" ;;;
        SetState ERROR
      else
        SetState RECONNECTING ;;;
        modify (fun cm =>
                  set_reconnect_attempts
                    (wrap32 (reconnect_attempts_ cm + 1)) cm) ;;;
        modify (fun cm =>
                  let st := stats_ cm in
                  set_stats
                    (CameraStats.mk
                       (CameraStats.frames_captured st)
                       (CameraStats.frames_dropped st)
                       (CameraStats.bytes_received st)
                       (wrap64 (CameraStats.reconnect_count st + 1))
                       (CameraStats.start_time st)
                       (CameraStats.last_frame_time st))
                    cm) ;;;
        emit (EvSleep (CameraConfig.reconnect_delay_ms (config_ cm))) ;;;
        ok <-- InitializeCapture ;;;
        if ok then
          SetState CAPTURING ;;;
          modify (set_reconnect_attempts 0)
        else
          cm' <-- get ;;;
          if ShouldAttemptReconnect cm' then AttemptReconnect env fuel'
          else SetState ERROR
  end.

(** One turn of the [while] loop of [CaptureLoop]: [true] when the loop
    goes on to test [should_stop_] again, [false] after [break]. *)
Definition CaptureLoop_body (env : Env) (fuel : nat) : M bool :=
  captured <-- CaptureFrame env ;;;
  match captured with
  | CaptureThrows what =>
      HandleCaptureError env ("Capture exception: " ++ what) ;;;
      ret true
  | CaptureReturns success =>
      cm <-- get ;;;
      let pace : M bool :=
        cm' <-- get ;;;
        emit (EvSleep
                (Z.quot 1000 (Z.max 1 (CameraConfig.fps (config_ cm'))))) ;;;
        ret true in
      if success then pace
      else if CameraConfig.auto_reconnect (config_ cm)
              && ShouldAttemptReconnect cm
      then AttemptReconnect env fuel ;;; pace
      else
        SetError env "Capture failed and reconnect disabled" ;;;
        SetState ERROR ;;;
        ret false
  end.

(** [CaptureLoop], run against the environments of its successive turns.
    [true]: the worker has left the loop and cleared [is_capturing_];
    [false]: the environments are used up and the loop is still going. *)
Fixpoint CaptureLoop (envs : list Env) (fuel : nat) : M bool :=
  cm <-- get ;;;
  if should_stop_ cm then modify (set_is_capturing false) ;;; ret true
  else
    match envs with
    | [] => ret false
    | env :: envs' =>
        continue <-- CaptureLoop_body env fuel ;;;
        if continue then CaptureLoop envs' fuel
        else modify (set_is_capturing false) ;;; ret true
    end.

(** ** The factory of engines ([CameraManagerFactory]) *)

Module CameraManagerFactory.


Definition DetectType (fs : FileSystem) (url : string) : CameraType :=
  DetectCameraType fs url.

Definition GetTypeString (type : CameraType) : string :=
  match type with
  | FILE_VIDEO => "FILE_VIDEO"
  | WEBCAM => "WEBCAM"
  | RTSP_STREAM => "RTSP_STREAM"
  | HTTP_STREAM => "HTTP_STREAM"
  | TEST_PATTERN => "TEST_PATTERN"
  | UNKNOWN => "UNKNOWN"
  end.



End CameraManagerFactory.

(** ** Detections and detectors ([frame_processor.h]) *)

Module BoundingBox.
Record t : Type := mk { x : Z; y : Z; width : Z; height : Z }.
End BoundingBox.

(** The [Detection] message, with the fields the source sets.  The
    confidence is a binary32 value in the source; here it is carried as
    the environment hands it over. *)
Module Detection.
Record t : Type := mk
  { id : string;
    type : string;
    confidence : float;
    timestamp : Z;
    bbox : BoundingBox.t;
    metadata : gmap string string }.
End Detection.

(** What a detector's [Detect] reads from outside: the draw of
    [HasSignificantChange] compared with 0.3, the confidence computed from
    [rand()] and its [std::to_string], and the system clock. *)
Record DetectEnv : Type := mkDetectEnv
  { draw_below_threshold : bool;
    confidence_sample : float;
    confidence_text : string;
    system_now_ms : Z;
    system_now_us : Z }.

Inductive DetectResult : Type :=
| Detected (detections : list Detection.t)
| DetectThrows (what : string).

(** The abstract class [Detector]: an implementation over a state type,
    and an object of some implementation. *)
Module Detector.
Class Impl (S : Type) : Type :=
  { Detect : DetectEnv -> Frame.t -> S -> DetectResult * S;
    GetName : S -> string;
    Initialize : S -> bool * S;
    Cleanup : S -> S }.

Record t : Type := mk
  { state : Type;
    impl : Impl state;
    this : state }.

Definition detect (env : DetectEnv) (frame : Frame.t) (d : t)
  : DetectResult * t :=
  let '(r, s) := @Detect _ (impl d) env frame (this d) in
  (r, mk (state d) (impl d) s).

Definition name (d : t) : string := @GetName _ (impl d) (this d).

Definition initialize (d : t) : bool * t :=
  let '(ok, s) := @Initialize _ (impl d) (this d) in
  (ok, mk (state d) (impl d) s).

Definition cleanup (d : t) : t :=
  mk (state d) (impl d) (@Cleanup _ (impl d) (this d)).
End Detector.

(** [BasicMotionDetector] *)
Module BasicMotionDetector.
Record t : Type := mk
  { initialized_ : bool;
    previous_frame_ : Frame.t;
    detection_counter_ : Z }.

(** [BasicMotionDetector()] *)
Definition new : t :=
  {| initialized_ := false; previous_frame_ := Frame.empty;
     detection_counter_ := 0 |}.

Definition Initialize (d : t) : bool * t :=
  (true, {| initialized_ := true;
            previous_frame_ := previous_frame_ d;
            detection_counter_ := 0 |}).

Definition Cleanup (d : t) : t :=
  {| initialized_ := false; previous_frame_ := Frame.empty;
     detection_counter_ := detection_counter_ d |}.

Definition HasSignificantChange (env : DetectEnv)
    (current previous : Frame.t) : bool :=
  if negb (length (Frame.data current) =? length (Frame.data previous))%nat
  then true
  else draw_below_threshold env.

Definition GenerateDetectionId (env : DetectEnv) (d : t) : string :=
  "motion_" ++ pretty (system_now_us env) ++ "_"
    ++ pretty (detection_counter_ d).

Definition CreateMotionDetection (env : DetectEnv) (d : t)
    (x y width height : Z) : Detection.t :=
  {| Detection.id := GenerateDetectionId env d;
     Detection.type := "motion";
     Detection.confidence := confidence_sample env;
     Detection.timestamp := system_now_ms env;
     Detection.bbox := BoundingBox.mk x y width height;
     Detection.metadata :=
       <["confidence_str" := confidence_text env]>
         (<["algorithm" := "simulated"]>
            (<["detector" := "BasicMotionDetector"]> ∅)) |}.

Definition Detect (env : DetectEnv) (frame : Frame.t) (d : t)
  : DetectResult * t :=
  if negb (initialized_ d) then (Detected [], d)
  else
    match Frame.data (previous_frame_ d) with
    | [] =>
        (Detected [],
         {| initialized_ := initialized_ d; previous_frame_ := frame;
            detection_counter_ := detection_counter_ d |})
    | _ :: _ =>
        if HasSignificantChange env frame (previous_frame_ d) then
          let n := detection_counter_ d in
          let x := 100 + Z.rem n 400 in
          let y := 100 + Z.rem (Z.quot n 10) 200 in
          let width := 80 + Z.rem n 40 in
          let height := 60 + Z.rem n 30 in
          (Detected [CreateMotionDetection env d x y width height],
           {| initialized_ := initialized_ d; previous_frame_ := frame;
              detection_counter_ := wrap32 (n + 1) |})
        else
          (Detected [],
           {| initialized_ := initialized_ d; previous_frame_ := frame;
              detection_counter_ := detection_counter_ d |})
    end.

#[export] Instance impl : Detector.Impl t :=
  {| Detector.Detect := Detect;
     Detector.GetName := fun _ => "BasicMotionDetector";
     Detector.Initialize := Initialize;
     Detector.Cleanup := Cleanup |}.

(** A [BasicMotionDetector] behind a [Detector] pointer. *)
Definition as_detector (d : t) : Detector.t := Detector.mk t impl d.
End BasicMotionDetector.

(** ** Frame processor ([frame_processor.cpp]) *)

(** Conversion of an unsigned integer to [double], rounding to nearest. *)
Definition double_of_Z (n : Z) : float :=
  SF2Prim (binary_normalize FloatOps.prec FloatOps.emax n 0 false).

(** The [double] nearest to 0.8 and to 0.9, as the compiler reads the
    literals of the source. *)
Definition double_0_8 : float := 0x1.999999999999ap-1%float.
Definition double_0_9 : float := 0x1.ccccccccccccdp-1%float.

(** [ProcessingResult] *)
Module ProcessingResult.
Record t : Type := mk
  { detections : list Detection.t;
    processing_time_ms : Z;
    success : bool;
    error_message : string }.

(** [ProcessingResult()] *)
Definition new : t :=
  {| detections := []; processing_time_ms := 0; success := true;
     error_message := "" |}.

Definition set_processing_time_ms (v : Z) (r : t) : t :=
  mk (detections r) v (success r) (error_message r).
End ProcessingResult.

(** What one [ProcessFrame] call reads from outside: the steady-clock time
    between its start and its end, in whole milliseconds, and the
    environment of each detector, by its position in [detectors_]. *)
Record ProcessEnv : Type := mkProcessEnv
  { elapsed_ms : Z;
    detect_env : nat -> DetectEnv }.

Module FrameProcessor.
Import FrameProcessorConstants.

(** The fields of [FrameProcessor]; [motion_threshold_], a [double] that
    is written by its setter and never read, is left out.  [detectors_]
    holds no null pointer: [Initialize] and [AddDetector], the only
    writers, push non-null pointers, so the null tests of the source are
    not modelled. *)
Record t : Type := mk
  { detectors_ : list Detector.t;
    initialized_ : bool;
    total_frames_processed_ : Z;
    total_detections_ : Z;
    total_processing_time_ : Z;
    min_detection_area_ : Z;
    max_detections_per_frame_ : Z }.

(** [FrameProcessor()] *)
Definition new : t :=
  {| detectors_ := []; initialized_ := false;
     total_frames_processed_ := 0; total_detections_ := 0;
     total_processing_time_ := 0;
     min_detection_area_ := DEFAULT_MIN_AREA;
     max_detections_per_frame_ := DEFAULT_MAX_DETECTIONS |}.

Definition set_detectors (v : list Detector.t) (p : t) : t :=
  mk v (initialized_ p) (total_frames_processed_ p) (total_detections_ p)
     (total_processing_time_ p) (min_detection_area_ p)
     (max_detections_per_frame_ p).

Definition set_initialized (v : bool) (p : t) : t :=
  mk (detectors_ p) v (total_frames_processed_ p) (total_detections_ p)
     (total_processing_time_ p) (min_detection_area_ p)
     (max_detections_per_frame_ p).

(** [Initialize] *)
Definition Initialize (p : t) : bool * t :=
  if initialized_ p then (true, p)
  else
    let '(ok, motion_detector) :=
      BasicMotionDetector.Initialize BasicMotionDetector.new in
    if negb ok then (false, p)
    else
      (true,
       set_initialized true
         (set_detectors
            (detectors_ p
               ++ [BasicMotionDetector.as_detector motion_detector]) p)).

(** [Cleanup] *)
Definition Cleanup (p : t) : t :=
  set_initialized false (set_detectors [] p).

(** [AddDetector], for a non-null [detector]. *)
Definition AddDetector (detector : Detector.t) (p : t) : t :=
  let '(ok, detector') := Detector.initialize detector in
  if ok then set_detectors (detectors_ p ++ [detector']) p else p.

(** [RemoveDetector] *)
Definition RemoveDetector (detector_name : string) (p : t) : t :=
  set_detectors
    (List.filter (fun d => negb (String.eqb (Detector.name d) detector_name))
                 (detectors_ p)) p.

(** [GetDetectorNames] *)
Definition GetDetectorNames (p : t) : list string :=
  List.map Detector.name (detectors_ p).

(** [SetMinDetectionArea] *)
Definition SetMinDetectionArea (area : Z) (p : t) : t :=
  mk (detectors_ p) (initialized_ p) (total_frames_processed_ p)
     (total_detections_ p) (total_processing_time_ p) (Z.max 1 area)
     (max_detections_per_frame_ p).

(** [SetMaxDetectionsPerFrame] *)
Definition SetMaxDetectionsPerFrame (max_detections : Z) (p : t) : t :=
  mk (detectors_ p) (initialized_ p) (total_frames_processed_ p)
     (total_detections_ p) (total_processing_time_ p)
     (min_detection_area_ p) (Z.max 1 max_detections).

(** [ValidateFrame].  The last test compares [data.size()] with
    [expected_size * 0.8] in [double]. *)
Definition ValidateFrame (frame : Frame.t) : bool :=
  match Frame.data frame with
  | [] => false
  | _ :: _ =>
      if (Frame.width frame <? MIN_FRAME_WIDTH)
         || (Frame.width frame >? MAX_FRAME_WIDTH)
         || (Frame.height frame <? MIN_FRAME_HEIGHT)
         || (Frame.height frame >? MAX_FRAME_HEIGHT)
      then false
      else if String.eqb (Frame.format frame) "" then false
      else
        let expected_size :=
          FrameUtils.CalculateFrameSize (Frame.width frame)
            (Frame.height frame) (Frame.format frame) in
        if (0 <? expected_size)
           && PrimFloat.ltb
                (double_of_Z (Z.of_nat (length (Frame.data frame))))
                (PrimFloat.mul (double_of_Z expected_size) double_0_8)
        then false
        else true
  end.

(** [CreateErrorResult] *)
Definition CreateErrorResult (error : string) : ProcessingResult.t :=
  {| ProcessingResult.detections := [];
     ProcessingResult.processing_time_ms := 0;
     ProcessingResult.success := false;
     ProcessingResult.error_message := error |}.

(** [UpdateStatistics]; the counters are [std::atomic<int64_t>]. *)
Definition UpdateStatistics (processing_time detections_count : Z) (p : t)
  : t :=
  mk (detectors_ p) (initialized_ p)
     (wrap64 (total_frames_processed_ p + 1))
     (wrap64 (total_detections_ p + detections_count))
     (wrap64 (total_processing_time_ p + processing_time))
     (min_detection_area_ p) (max_detections_per_frame_ p).

(** The inner loop of [ProcessFrame]: the detections of one detector are
    pushed onto the result while its size is below the cap, and the loop
    is left at the first one that does not fit. *)
Fixpoint append_capped (cap : Z) (result detections : list Detection.t)
  : list Detection.t :=
  match detections with
  | [] => result
  | detection :: rest =>
      if Z.of_nat (length result) <? to_size_t cap
      then append_capped cap (result ++ [detection]) rest
      else result
  end.

(** The outer loop of [ProcessFrame], from the detector at position [i]:
    the detections gathered, or the [what()] of the [std::exception] that
    ended the loop, and the detectors as their [Detect] calls leave
    them. *)
Fixpoint run_detectors (env : ProcessEnv) (frame : Frame.t) (cap : Z)
    (i : nat) (detectors : list Detector.t) (result : list Detection.t)
  : (string + list Detection.t) * list Detector.t :=
  match detectors with
  | [] => (inr result, [])
  | detector :: rest =>
      match Detector.detect (detect_env env i) frame detector with
      | (Detected detections, detector') =>
          let '(r, rest') :=
            run_detectors env frame cap (S i) rest
              (append_capped cap result detections) in
          (r, detector' :: rest')
      | (DetectThrows what, detector') => (inl what, detector' :: rest)
      end
  end.

(** [ProcessFrame(const Frame&)] *)
Definition ProcessFrame (env : ProcessEnv) (frame : Frame.t) (p : t)
  : ProcessingResult.t * t :=
  if negb (initialized_ p) then
    (CreateErrorResult "FrameProcessor not initialized", p)
  else if negb (ValidateFrame frame) then
    (CreateErrorResult "Invalid frame data", p)
  else
    let '(outcome, detectors') :=
      run_detectors env frame (max_detections_per_frame_ p) 0
        (detectors_ p) [] in
    let result :=
      match outcome with
      | inr detections =>
          {| ProcessingResult.detections := detections;
             ProcessingResult.processing_time_ms := 0;
             ProcessingResult.success := true;
             ProcessingResult.error_message := "" |}
      | inl what => CreateErrorResult ("Processing error: " ++ what)
      end in
    let result :=
      ProcessingResult.set_processing_time_ms (elapsed_ms env) result in
    (result,
     UpdateStatistics (ProcessingResult.processing_time_ms result)
       (wrap32 (Z.of_nat (length (ProcessingResult.detections result))))
       (set_detectors detectors' p)).

(** [ProcessFrame(frame_data, width, height, format)] *)
Definition ProcessFrame_raw (env : ProcessEnv) (now : Z)
    (frame_data : list Byte.byte) (width height : Z) (format : string)
    (p : t) : ProcessingResult.t * t :=
  ProcessFrame env (Frame.mk frame_data width height format now) p.

Definition GetTotalFramesProcessed (p : t) : Z := total_frames_processed_ p.
Definition GetTotalDetections (p : t) : Z := total_detections_ p.

(** The processors a client can hold: a constructed one, and what the
    public methods make of one. *)
Inductive constructed : t -> Prop :=
| cons_new : constructed new
| cons_Initialize p : constructed p -> constructed (snd (Initialize p))
| cons_Cleanup p : constructed p -> constructed (Cleanup p)
| cons_AddDetector d p : constructed p -> constructed (AddDetector d p)
| cons_RemoveDetector n p : constructed p -> constructed (RemoveDetector n p)
| cons_SetMinDetectionArea a p :
    constructed p -> constructed (SetMinDetectionArea a p)
| cons_SetMaxDetectionsPerFrame m p :
    is_int m -> constructed p -> constructed (SetMaxDetectionsPerFrame m p)
| cons_ProcessFrame env frame p :
    constructed p -> constructed (snd (ProcessFrame env frame p)).
End FrameProcessor.

(** ** Test frames and test patterns ([frame_processor.cpp],
       [camera_manager.cpp]) *)

(** The value of a finite [double] with its fraction cut off. *)
Definition truncate (d : float) : option Z :=
  match Prim2SF d with
  | S754_zero _ => Some 0
  | S754_finite negative m e =>
      let magnitude :=
        if 0 <=? e then Z.pos m * 2 ^ e else Z.pos m / 2 ^ (- e) in
      Some (if negative then - magnitude else magnitude)
  | _ => None
  end.

(** [static_cast<uint8_t>(d)] of a [double]: undefined unless the value,
    with its fraction cut off, is one of [uint8_t]. *)
Definition uint8_of_double (d : float) : Result Byte.byte :=
  match truncate d with
  | Some z => if (0 <=? z) && (z <=? 255) then Value (uint8 z)
              else UndefinedBehaviour
  | None => UndefinedBehaviour
  end.

(** The [double]s nearest to the weights 0.299, 0.587 and 0.114. *)
Definition double_0_299 : float := 0x1.322d0e5604189p-2%float.
Definition double_0_587 : float := 0x1.2c8b439581062p-1%float.
Definition double_0_114 : float := 0x1.d2f1a9fbe76c9p-4%float.

(** [static_cast<uint8_t>(0.299 * r + 0.587 * g + 0.114 * b)], each
    operation rounded to [double]. *)
Definition gray_of (r g b : Byte.byte) : Result Byte.byte :=
  uint8_of_double
    (PrimFloat.add
       (PrimFloat.add
          (PrimFloat.mul double_0_299 (double_of_Z (Z_of_uint8 r)))
          (PrimFloat.mul double_0_587 (double_of_Z (Z_of_uint8 g))))
       (PrimFloat.mul double_0_114 (double_of_Z (Z_of_uint8 b)))).

(** [data[idx] = b0; data[idx + 1] = b1; data[idx + 2] = b2], the sums
    taken in [size_t]. *)
Definition store_pixel (idx : Z) (b0 b1 b2 : Byte.byte)
    (data : list Byte.byte) : Result (list Byte.byte) :=
  data ← store idx b0 data;
  data ← store (to_size_t (idx + 1)) b1 data;
  store (to_size_t (idx + 2)) b2 data.

(** [FrameUtils::CreateTestFrame], at the clock reading [now]. *)
Definition CreateTestFrame (now : Z) (width height : Z) (format : string)
  : Result Frame.t :=
  let frame_size := FrameUtils.CalculateFrameSize width height format in
  data ← resize frame_size [];
  data ←
    (if String.eqb format "bgr" || String.eqb format "rgb" then
       for_each (seqZ 0 height)
         (fun y =>
            for_each (seqZ 0 width)
              (fun x data =>
                 let idx :=
                   to_size_t (wrap32 (wrap32 (wrap32 (y * width) + x) * 3)) in
                 if to_size_t (idx + 2) <? Z.of_nat (length data) then
                   store_pixel idx
                     (uint8 (Z.quot (wrap32 (x * 255)) width))
                     (uint8 (Z.quot (wrap32 (y * 255)) height))
                     (uint8 128) data
                 else Value data))
         data
     else if String.eqb format "gray" then
       for_each (seqZ 0 height)
         (fun y =>
            for_each (seqZ 0 width)
              (fun x data =>
                 let idx := to_size_t (wrap32 (wrap32 (y * width) + x)) in
                 if idx <? Z.of_nat (length data) then
                   store idx (uint8 (Z.rem (wrap32 (x + y)) 256)) data
                 else Value data))
         data
     else Value data);
  Value (Frame.mk data width height format now).

(** [FrameUtils::CreateColorFrame], at the clock reading [now]. *)
Definition CreateColorFrame (now : Z) (width height : Z)
    (r g b : Byte.byte) (format : string) : Result Frame.t :=
  let frame_size := FrameUtils.CalculateFrameSize width height format in
  data ← resize frame_size [];
  data ←
    (if String.eqb format "bgr" then
       for_each (every_third (Z.of_nat (length data)))
                (fun i data => store_pixel i b g r data) data
     else if String.eqb format "rgb" then
       for_each (every_third (Z.of_nat (length data)))
                (fun i data => store_pixel i r g b data) data
     else if String.eqb format "gray" then
       gray ← gray_of r g b;
       Value (List.map (fun _ => gray) data)
     else Value data);
  Value (Frame.mk data width height format now).

(** [TestPatternGenerator] *)
Module TestPatternGenerator.
Record t : Type := mk
  { width_ : Z;
    height_ : Z;
    frame_counter_ : Z;
    start_time_ : Z }.

(** [TestPatternGenerator(width, height)], at the clock reading [now]. *)
Definition new (now : Z) (width height : Z) : t :=
  {| width_ := width; height_ := height; frame_counter_ := 0;
     start_time_ := now |}.

(** The table [colors] of [GenerateColorBars]: white, yellow, cyan,
    green, magenta, red, blue and black, each as B, G, R. *)
Definition colors : list (Z * Z * Z) :=
  [(255, 255, 255); (0, 255, 255); (255, 255, 0); (0, 255, 0);
   (255, 0, 255); (0, 0, 255); (255, 0, 0); (0, 0, 0)].

(** [size_t idx = (static_cast<size_t>(y) * width_ + x) * 3] *)
Definition pixel_index (g : t) (x y : Z) : Z :=
  to_size_t (to_size_t (to_size_t (to_size_t y * to_size_t (width_ g))
                        + to_size_t x) * 3).

(** [static_cast<size_t>(width_) * static_cast<size_t>(height_) * 3] *)
Definition frame_size (g : t) : Z :=
  to_size_t (to_size_t (to_size_t (width_ g) * to_size_t (height_ g)) * 3).

(** [GenerateColorBars], at the clock reading [now]. *)
Definition GenerateColorBars (now : Z) (g : t) : Result Frame.t :=
  data ← resize (frame_size g) [];
  let bar_width := Z.max 1 (Z.quot (width_ g) 8) in
  data ←
    for_each (seqZ 0 (height_ g))
      (fun y =>
         for_each (seqZ 0 (width_ g))
           (fun x data =>
              let bar := Z.quot x bar_width in
              let bar := if bar >=? 8 then 7 else bar in
              match colors !! Z.to_nat bar with
              | Some (c0, c1, c2) =>
                  if 0 <=? bar then
                    store_pixel (pixel_index g x y) (uint8 c0) (uint8 c1)
                                (uint8 c2) data
                  else UndefinedBehaviour
              | None => UndefinedBehaviour
              end))
      data;
  Value (Frame.mk data (width_ g) (height_ g) "bgr" now).

(** [GenerateCheckerboard], at the clock reading [now]. *)
Definition GenerateCheckerboard (now : Z) (g : t) : Result Frame.t :=
  data ← resize (frame_size g) [];
  let square_size := 32 in
  data ←
    for_each (seqZ 0 (height_ g))
      (fun y =>
         for_each (seqZ 0 (width_ g))
           (fun x data =>
              let is_white :=
                Z.rem (wrap32 (Z.quot x square_size + Z.quot y square_size))
                      2 =? 0 in
              let color := uint8 (if is_white then 255 else 0) in
              store_pixel (pixel_index g x y) color color color data))
      data;
  Value (Frame.mk data (width_ g) (height_ g) "bgr" now).

(** [SetSize] and [SetFrameCounter] *)
Definition SetSize (width height : Z) (g : t) : t :=
  {| width_ := width; height_ := height;
     frame_counter_ := frame_counter_ g; start_time_ := start_time_ g |}.

Definition SetFrameCounter (counter : Z) (g : t) : t :=
  {| width_ := width_ g; height_ := height_ g; frame_counter_ := counter;
     start_time_ := start_time_ g |}.
End TestPatternGenerator.

(** ** Session registry and RPC surface ([vision_service.{h,cpp}]) *)

Module VisionServiceConstants.
Definition MAX_CONCURRENT_STREAMS : Z := 10.
Definition STREAM_TIMEOUT_SEC : Z := 300.
Definition STATUS_SUCCESS : string := "success".
Definition STATUS_ERROR : string := "error".
Definition STATUS_STARTING : string := "starting".
Definition STATUS_ACTIVE : string := "active".
Definition STATUS_STOPPING : string := "stopping".
Definition STATUS_STOPPED : string := "stopped".
Definition HEALTH_HEALTHY : string := "healthy".
Definition HEALTH_DEGRADED : string := "degraded".
Definition HEALTH_UNHEALTHY : string := "unhealthy".
End VisionServiceConstants.

(** [grpc::Status], with the two codes the service returns. *)
Inductive StatusCode : Type := OK | INVALID_ARGUMENT.

Record Status : Type := mkStatus
  { error_code : StatusCode;
    error_message : string }.

Definition Status_OK : Status := mkStatus OK "".

Definition ok (s : Status) : bool :=
  match error_code s with
  | OK => true
  | INVALID_ARGUMENT => false
  end.

(** The request and response messages. *)
Record StreamRequest : Type := mkStreamRequest
  { sreq_camera_id : string;
    sreq_camera_url : string }.

Record StreamResponse : Type := mkStreamResponse
  { sresp_status : string;
    sresp_message : string;
    sresp_stream_id : string }.

Record StopRequest : Type := mkStopRequest { preq_camera_id : string }.

Record StopResponse : Type := mkStopResponse
  { presp_status : string;
    presp_message : string }.

Record StatusRequest : Type := mkStatusRequest { treq_camera_id : string }.

Record StreamStats : Type := mkStreamStats
  { stat_frames_processed : Z;
    stat_detections_count : Z;
    stat_fps_actual : float;
    stat_uptime_seconds : Z;
    stat_last_frame_timestamp : Z }.

(** [tresp_stats] is [None] as long as [mutable_stats()] was not called
    ([has_stats()] is false). *)
Record StatusResponse : Type := mkStatusResponse
  { tresp_camera_id : string;
    tresp_status : string;
    tresp_message : string;
    tresp_stats : option StreamStats }.

Record HealthResponse : Type := mkHealthResponse
  { hresp_status : string;
    hresp_message : string;
    hresp_active_streams : Z;
    hresp_uptime_seconds : Z;
    hresp_version : string }.

Record FrameRequest : Type := mkFrameRequest
  { freq_camera_id : string;
    freq_timestamp : Z }.

Record FrameResponse : Type := mkFrameResponse
  { fresp_camera_id : string;
    fresp_timestamp : Z;
    fresp_processing_time_ms : Z;
    fresp_detections_count : Z;
    fresp_cpu_usage : float;
    fresp_memory_usage_mb : Z }.

(** The messages as the RPC runtime hands them to a handler. *)
Definition empty_StreamResponse : StreamResponse := mkStreamResponse "" "" "".
Definition empty_StopResponse : StopResponse := mkStopResponse "" "".
Definition empty_StatusResponse : StatusResponse :=
  mkStatusResponse "" "" "" None.

(** [StreamState]; the two [unique_ptr]s are [None] when null. *)
Module StreamState.
Record t : Type := mk
  { camera_id : string;
    camera_url : string;
    status : string;
    start_time : Z;
    frames_processed : Z;
    detections_count : Z;
    camera_manager : option CameraManager;
    frame_processor : option FrameProcessor.t }.

(** [StreamState(cam_id, cam_url)], constructed when the steady clock
    reads [now]. *)
Definition new (now : Z) (cam_id cam_url : string) : t :=
  {| camera_id := cam_id; camera_url := cam_url;
     status := "starting"; start_time := now;
     frames_processed := 0; detections_count := 0;
     camera_manager := None; frame_processor := None |}.

Definition set_status (v : string) (st : t) : t :=
  mk (camera_id st) (camera_url st) v (start_time st) (frames_processed st)
     (detections_count st) (camera_manager st) (frame_processor st).

Definition set_camera_manager (v : option CameraManager) (st : t) : t :=
  mk (camera_id st) (camera_url st) (status st) (start_time st)
     (frames_processed st) (detections_count st) v (frame_processor st).

Definition set_frame_processor (v : option FrameProcessor.t) (st : t) : t :=
  mk (camera_id st) (camera_url st) (status st) (start_time st)
     (frames_processed st) (detections_count st) (camera_manager st) v.
End StreamState.

(** [ServiceMetrics], the process-wide singleton. *)
Module ServiceMetrics.
Record t : Type := mk
  { streams_started_ : Z;
    frames_processed_ : Z;
    detections_ : Z;
    total_processing_time_ : Z;
    processing_samples_ : Z }.

Definition new : t := mk 0 0 0 0 0.

Definition IncrementStreamsStarted (m : t) : t :=
  mk (wrap64 (streams_started_ m + 1)) (frames_processed_ m) (detections_ m)
     (total_processing_time_ m) (processing_samples_ m).

Definition IncrementFramesProcessed (m : t) : t :=
  mk (streams_started_ m) (wrap64 (frames_processed_ m + 1)) (detections_ m)
     (total_processing_time_ m) (processing_samples_ m).
End ServiceMetrics.

(** What a handler reads from outside: the environment of the capture
    engine it drives (file system, steady clock in nanoseconds, video
    backend, thread library) and the system clock in milliseconds. *)
Record ServiceEnv : Type := mkServiceEnv
  { engine : Env;
    system_clock_ms : Z }.

Module VisionServiceImpl.
Import VisionServiceConstants.

(** The fields of [VisionServiceImpl], and the metrics singleton its
    handlers write. *)
Record t : Type := mk
  { active_streams_ : gmap string StreamState.t;
    service_start_time_ : Z;
    total_streams_started_ : Z;
    total_frames_processed_ : Z;
    total_detections_ : Z;
    metrics : ServiceMetrics.t }.

(** [VisionServiceImpl()] *)
Definition new (now : Z) (metrics : ServiceMetrics.t) : t :=
  {| active_streams_ := ∅; service_start_time_ := now;
     total_streams_started_ := 0; total_frames_processed_ := 0;
     total_detections_ := 0; metrics := metrics |}.

Definition set_active_streams (v : gmap string StreamState.t) (sv : t) : t :=
  mk v (service_start_time_ sv) (total_streams_started_ sv)
     (total_frames_processed_ sv) (total_detections_ sv) (metrics sv).

(** [GetActiveStreamsCount] *)
Definition GetActiveStreamsCount (sv : t) : Z :=
  wrap32 (Z.of_nat (size (active_streams_ sv))).

(** [IsValidCameraUrl] *)
Definition IsValidCameraUrl (env : ServiceEnv) (url : string) : bool :=
  if String.eqb url "" then false
  else IsValidCameraUrl (fs (engine env)) url.

(** [GenerateStreamId] *)
Definition GenerateStreamId (env : ServiceEnv) (camera_id : string) : string :=
  camera_id ++ "_" ++ pretty (system_clock_ms env).

Definition GetServiceVersion : string := "1.0.0-phase2.1".

(** [ValidateStreamRequest] *)
Definition ValidateStreamRequest (env : ServiceEnv) (request : StreamRequest)
  : Status :=
  if String.eqb (sreq_camera_id request) "" then
    mkStatus INVALID_ARGUMENT "Camera ID cannot be empty"
  else if String.eqb (sreq_camera_url request) "" then
    mkStatus INVALID_ARGUMENT "Camera URL cannot be empty"
  else if negb (IsValidCameraUrl env (sreq_camera_url request)) then
    mkStatus INVALID_ARGUMENT "Invalid camera URL format"
  else Status_OK.

(** [ValidateStopRequest] *)
Definition ValidateStopRequest (request : StopRequest) : Status :=
  if String.eqb (preq_camera_id request) "" then
    mkStatus INVALID_ARGUMENT "Camera ID cannot be empty"
  else Status_OK.

(** [ValidateStatusRequest] *)
Definition ValidateStatusRequest (request : StatusRequest) : Status :=
  if String.eqb (treq_camera_id request) "" then
    mkStatus INVALID_ARGUMENT "Camera ID cannot be empty"
  else Status_OK.

Definition stream_error (message : string) (response : StreamResponse)
  : StreamResponse :=
  mkStreamResponse STATUS_ERROR message (sresp_stream_id response).

(** The two tests that [StartStream] makes when it has taken
    [streams_mutex_]: the message of the rejection, if any. *)
Definition admission_error (camera_id : string) (sv : t) : option string :=
  match active_streams_ sv !! camera_id with
  | Some _ => Some ("Stream already active for camera " ++ camera_id)
  | None =>
      if to_size_t MAX_CONCURRENT_STREAMS
           <=? Z.of_nat (size (active_streams_ sv))
      then Some "Maximum number of concurrent streams reached"
      else None
  end.

(** The [try] block of [StartStream]: the session is built, its engine
    initialised and started, and the session inserted.  [None]: a call
    into the capture engine does not come back. *)
Definition open_stream (env : ServiceEnv) (request : StreamRequest)
    (response : StreamResponse) (sv : t)
  : option (Status * StreamResponse * t) :=
  let camera_id := sreq_camera_id request in
  let camera_url := sreq_camera_url request in
  let stream_state :=
    StreamState.new (steady_now (engine env)) camera_id camera_url in
  let camera_manager := new_CameraManager (engine env) camera_url in
  let frame_processor := FrameProcessor.new in
  match call (Initialize_default (engine env)) camera_manager with
  | Returns false _ =>
      Some (Status_OK,
            stream_error ("Failed to initialize camera for " ++ camera_id)
                         response,
            sv)
  | Returns true s1 =>
      match call (StartCapture (engine env)) (self s1) with
      | Returns false _ =>
          Some (Status_OK,
                stream_error ("Failed to start capture for " ++ camera_id)
                             response,
                sv)
      | Returns true s2 =>
          let stream_state :=
            StreamState.set_status STATUS_ACTIVE
              (StreamState.set_frame_processor (Some frame_processor)
                 (StreamState.set_camera_manager (Some (self s2))
                    stream_state)) in
          let stream_id := GenerateStreamId env camera_id in
          Some (Status_OK,
                mkStreamResponse STATUS_SUCCESS
                  "Stream started successfully" stream_id,
                mk (<[camera_id := stream_state]> (active_streams_ sv))
                   (service_start_time_ sv)
                   (wrap64 (total_streams_started_ sv + 1))
                   (total_frames_processed_ sv)
                   (total_detections_ sv)
                   (ServiceMetrics.IncrementStreamsStarted (metrics sv)))
      | _ => None
      end
  | _ => None
  end.

(** [StartStream], run without interruption: the validation, then, from
    [LockStreams()] to the return, the two tests and the [try] block. *)
Definition StartStream (env : ServiceEnv) (request : StreamRequest)
    (response : StreamResponse) (sv : t)
  : option (Status * StreamResponse * t) :=
  let validation_status := ValidateStreamRequest env request in
  if negb (ok validation_status) then Some (validation_status, response, sv)
  else
    match admission_error (sreq_camera_id request) sv with
    | Some message => Some (Status_OK, stream_error message response, sv)
    | None => open_stream env request response sv
    end.

(** [StopStream].  The stream state is updated in place, its engine is
    stopped from the handler's thread, and the entry is erased. *)
Definition StopStream (request : StopRequest) (response : StopResponse)
    (sv : t) : option (Status * StopResponse * t) :=
  let validation_status := ValidateStopRequest request in
  if negb (ok validation_status) then Some (validation_status, response, sv)
  else
    let camera_id := preq_camera_id request in
    match active_streams_ sv !! camera_id with
    | None =>
        Some (Status_OK,
              mkStopResponse STATUS_ERROR
                ("No active stream found for camera " ++ camera_id),
              sv)
    | Some stream_state =>
        let stream_state :=
          StreamState.set_status STATUS_STOPPING stream_state in
        let stopped :=
          match StreamState.camera_manager stream_state with
          | Some camera_manager =>
              match call (StopCapture false) camera_manager with
              | Returns _ s => Some (Some (self s))
              | _ => None
              end
          | None => Some None
          end in
        match stopped with
        | None => None
        | Some camera_manager' =>
            let stream_state :=
              StreamState.set_camera_manager camera_manager' stream_state in
            Some (Status_OK,
                  mkStopResponse STATUS_SUCCESS "Stream stopped successfully",
                  set_active_streams
                    (delete camera_id
                       (<[camera_id := stream_state]> (active_streams_ sv)))
                    sv)
        end
    end.

(** Conversion of an [int64_t] to [double]. *)
Definition double_of_int64 (z : Z) : float := double_of_Z z.

(** [duration_cast<seconds>] of a steady-clock difference in
    nanoseconds. *)
Definition to_seconds (ns : Z) : Z := Z.quot ns 1000000000.

(** [GetStreamStatus], at steady-clock time [now]. *)
Definition GetStreamStatus (now : Z) (request : StatusRequest)
    (response : StatusResponse) (sv : t) : Status * StatusResponse * t :=
  let camera_id := treq_camera_id request in
  match active_streams_ sv !! camera_id with
  | None =>
      (Status_OK,
       mkStatusResponse camera_id STATUS_STOPPED "No active stream"
         (tresp_stats response),
       sv)
  | Some stream_state =>
      let uptime := to_seconds (now - StreamState.start_time stream_state) in
      let fps_actual :=
        if 0 <? uptime then
          PrimFloat.div
            (double_of_int64 (StreamState.frames_processed stream_state))
            (double_of_int64 uptime)
        else 0%float in
      (Status_OK,
       mkStatusResponse camera_id (StreamState.status stream_state)
         "Stream active"
         (Some (mkStreamStats
                  (StreamState.frames_processed stream_state)
                  (StreamState.detections_count stream_state)
                  fps_actual uptime (to_seconds now))),
       sv)
  end.

(** [GetHealth], at steady-clock time [now]. *)
Definition GetHealth (now : Z) (sv : t) : Status * HealthResponse * t :=
  let uptime := to_seconds (now - service_start_time_ sv) in
  let active_streams_count :=
    wrap32 (Z.of_nat (size (active_streams_ sv))) in
  let '(health_status, health_message) :=
    if bool_decide
         (map_Exists (fun _ st => StreamState.status st = "error")
                     (active_streams_ sv))
    then (HEALTH_DEGRADED, "One or more streams in error state")
    else (HEALTH_HEALTHY, "Service is healthy") in
  let '(health_status, health_message) :=
    if PrimFloat.leb
         (PrimFloat.mul (double_of_Z MAX_CONCURRENT_STREAMS) double_0_9)
         (double_of_Z active_streams_count)
    then (HEALTH_DEGRADED, "Approaching maximum concurrent streams")
    else (health_status, health_message) in
  (Status_OK,
   mkHealthResponse health_status health_message active_streams_count
     uptime GetServiceVersion,
   sv).

(** [ProcessFrames], over the requests read from the stream, each with
    whether the [Write] of its response succeeds. *)
Fixpoint ProcessFrames (stream : list (FrameRequest * bool)) (sv : t)
  : list FrameResponse * t :=
  match stream with
  | [] => ([], sv)
  | (request, written) :: rest =>
      let response :=
        mkFrameResponse (freq_camera_id request) (freq_timestamp request)
                        10 0 15.5%float 128 in
      if negb written then ([], sv)
      else
        let '(responses, sv') :=
          ProcessFrames rest
            (mk (active_streams_ sv) (service_start_time_ sv)
                (total_streams_started_ sv)
                (wrap64 (total_frames_processed_ sv + 1))
                (total_detections_ sv)
                (ServiceMetrics.IncrementFramesProcessed (metrics sv))) in
        (response :: responses, sv')
  end.

(** The capture worker of the session [camera_id] takes one turn of its
    loop: the engine of that session changes, nothing else does. *)
Definition worker_turn (env : Env) (fuel : nat) (camera_id : string) (sv : t)
  : option t :=
  match active_streams_ sv !! camera_id with
  | Some stream_state =>
      match StreamState.camera_manager stream_state with
      | Some camera_manager =>
          match call (CaptureLoop_body env fuel) camera_manager with
          | Returns _ s =>
              Some (set_active_streams
                      (<[camera_id :=
                           StreamState.set_camera_manager (Some (self s))
                             stream_state]> (active_streams_ sv))
                      sv)
          | _ => None
          end
      | None => None
      end
  | None => None
  end.

End VisionServiceImpl.

(** *** Handler threads and [streams_mutex_] *)

(** Where a thread that is inside [StartStream] stands: with the request
    validated, about to call [LockStreams()]; or past the two tests,
    about to enter the [try] block. *)
Inductive HandlerPc : Type :=
| StartAtLock (env : ServiceEnv) (request : StreamRequest)
              (response : StreamResponse)
| StartAdmitted (env : ServiceEnv) (request : StreamRequest)
                (response : StreamResponse).

(** The service with its handler threads: the object, the thread that
    owns [streams_mutex_], if any, and where the threads that are inside
    [StartStream] stand (a thread that is not in the map is idle). *)
Record System : Type := mkSystem
  { service : VisionServiceImpl.t;
    streams_mutex_ : option nat;
    handlers : gmap nat HandlerPc }.

(** A service just constructed, its handler threads idle. *)
Definition boot (now : Z) (metrics : ServiceMetrics.t) : System :=
  {| service := VisionServiceImpl.new now metrics;
     streams_mutex_ := None;
     handlers := ∅ |}.

(** One step of one thread.  A handler that needs [streams_mutex_] moves
    only when the mutex is free; [StartStream] is cut where another
    thread could run while it owns the mutex, between its tests and its
    [try] block.  The other handlers take and release the mutex within
    their step.  [ProcessFrames] and the capture workers do not take
    it. *)
Inductive step : System -> System -> Prop :=
| step_StartStream_enter t env request response sys :
    handlers sys !! t = None ->
    step sys
      (if ok (VisionServiceImpl.ValidateStreamRequest env request)
       then mkSystem (service sys) (streams_mutex_ sys)
              (<[t := StartAtLock env request response]> (handlers sys))
       else sys)
| step_StartStream_lock t env request response sys :
    handlers sys !! t = Some (StartAtLock env request response) ->
    streams_mutex_ sys = None ->
    step sys
      (match VisionServiceImpl.admission_error (sreq_camera_id request)
               (service sys) with
       | Some _ => mkSystem (service sys) None (delete t (handlers sys))
       | None =>
           mkSystem (service sys) (Some t)
             (<[t := StartAdmitted env request response]> (handlers sys))
       end)
| step_StartStream_try t env request response sys status response' sv' :
    handlers sys !! t = Some (StartAdmitted env request response) ->
    VisionServiceImpl.open_stream env request response (service sys)
    = Some (status, response', sv') ->
    step sys (mkSystem sv' None (delete t (handlers sys)))
| step_StopStream t request response sys status response' sv' :
    handlers sys !! t = None ->
    streams_mutex_ sys = None ->
    VisionServiceImpl.StopStream request response (service sys)
    = Some (status, response', sv') ->
    step sys (mkSystem sv' None (handlers sys))
| step_GetStreamStatus t now request response sys :
    handlers sys !! t = None ->
    streams_mutex_ sys = None ->
    step sys
      (mkSystem
         (snd (VisionServiceImpl.GetStreamStatus now request response
                 (service sys)))
         None (handlers sys))
| step_GetHealth t now sys :
    handlers sys !! t = None ->
    streams_mutex_ sys = None ->
    step sys
      (mkSystem (snd (VisionServiceImpl.GetHealth now (service sys)))
                None (handlers sys))
| step_ProcessFrames t stream sys :
    handlers sys !! t = None ->
    step sys
      (mkSystem (snd (VisionServiceImpl.ProcessFrames stream (service sys)))
                (streams_mutex_ sys) (handlers sys))
| step_worker env fuel camera_id sys sv' :
    VisionServiceImpl.worker_turn env fuel camera_id (service sys)
    = Some sv' ->
    step sys (mkSystem sv' (streams_mutex_ sys) (handlers sys)).

(** The states the running service can be in. *)
Inductive running : System -> Prop :=
| running_boot now metrics : running (boot now metrics)
| running_step sys sys' : running sys -> step sys sys' -> running sys'.

(** ** The argument loop of [main] ([main.cpp]) *)

(** How the argument loop of [main] ends: the process exits with a
    status, or the server is to listen on an address. *)
Inductive Parsed : Type :=
| ParsedExit (status : Z)
| ParsedAddress (server_address : string).

(** [s.substr(pos)] *)
Definition substr_from (s : string) (pos : nat) : string :=
  String.substring pos (String.length s - pos) s.

(** The argument loop of [main], from [argv[i]] on.  An option that
    takes a value takes it from the next argument, whatever it is, and
    the loop goes on behind it; without a next argument the option is
    passed over. *)
Fixpoint parse_arguments (args : list string) (server_address : string)
  : Parsed :=
  match args with
  | [] => ParsedAddress server_address
  | arg :: rest =>
      if String.eqb arg "--help" || String.eqb arg "-h" then ParsedExit 0
      else if String.eqb arg "--version" || String.eqb arg "-v"
      then ParsedExit 0
      else
        match rest with
        | value :: rest' =>
            if String.eqb arg "--port" then
              parse_arguments rest' ("0.0.0.0:" ++ value)
            else if String.eqb arg "--host" then
              let host := value in
              let port :=
                match string_find server_address ":" with
                | Some colon_pos => substr_from server_address colon_pos
                | None => ":50051"
                end in
              parse_arguments rest' (host ++ port)
            else parse_arguments rest server_address
        | [] => parse_arguments rest server_address
        end
  end.

(** The address [main] listens on, for the arguments after [argv[0]]. *)
Definition main_arguments (args : list string) : Parsed :=
  parse_arguments args "0.0.0.0:50051".

(** * Vocabulary of the properties, and sample inputs *)

(** ** URL classification *)






(** ** Capture engine *)

(** Unfolds a call of an engine method down to its effect on the
    object. *)
Ltac engine_run :=
  cbv [call bind ret get modify emit SetState SetError with_config_mutex
       InitializeCapture InitializeTestPattern HandleCaptureError
       AttemptReconnect UpdateStats NotifyFrameAvailable];
  simpl.

(** The backend that [Initialize] selects for the engine succeeds: the
    test pattern always does, the file, webcam and stream backends when
    the video library opens the source; an engine of any other type has
    no backend. *)
Definition backend_succeeds (env : Env) (cm : CameraManager) : Prop :=
  match camera_type_ cm with
  | TEST_PATTERN => True
  | FILE_VIDEO => backend_init env FILE_VIDEO = InitOk
  | WEBCAM => backend_init env WEBCAM = InitOk
  | RTSP_STREAM => backend_init env RTSP_STREAM = InitOk
  | _ => False
  end.

(** An environment without a video library, in which threads start; a
    configuration with a zero width; and a fresh test-pattern engine. *)
Definition env_test (r : Relock) : Env :=
  {| fs := fun _ => not_found;
     steady_now := 1000;
     backend_init := fun _ => InitFails "OpenCV not available";
     backend_read := fun _ => ReadFrame Frame.empty;
     thread_create := ThreadStarted;
     relock := r |}.

Definition zero_width_config : CameraConfig.t :=
  CameraConfig.mk 0 480 15 "bgr" true 5000 3 30.

Definition test_engine : CameraManager :=
  new_CameraManager (env_test RelockDeadlocks) "test://pattern".

(** An engine that is capturing: a worker thread is running and the state
    is [CAPTURING]. *)
Definition capturing (cm : CameraManager) : CameraManager :=
  set_is_capturing true (set_capture_thread true (set_state CAPTURING cm)).

(** The camera types for which [CaptureFrame] calls a type-specific
    capture. *)
Definition has_backend (ty : CameraType) : bool :=
  match ty with
  | FILE_VIDEO | WEBCAM | RTSP_STREAM | TEST_PATTERN => true
  | _ => false
  end.

(** A webcam engine that is capturing, with automatic reconnection
    switched off, and two turns of its loop: in one the backend hands
    over a one-byte frame of 640 by 480, in the other an empty frame. *)
Definition no_reconnect_config : CameraConfig.t :=
  CameraConfig.mk 640 480 15 "bgr" false 5000 3 30.

Definition webcam_engine : CameraManager :=
  capturing
    (set_config no_reconnect_config
       (new_CameraManager (env_test RelockDeadlocks) "/dev/video0")).

Definition one_byte_frame : Frame.t :=
  Frame.mk [Byte.x00] 640 480 "bgr" 0.

Definition env_reading (frame : Frame.t) : Env :=
  {| fs := fun _ => not_found;
     steady_now := 2000;
     backend_init := fun _ => InitOk;
     backend_read := fun _ => ReadFrame frame;
     thread_create := ThreadStarted;
     relock := RelockDeadlocks |}.


(** The engine as [AttemptReconnect] has it when it calls
    [InitializeCapture]. *)
Definition reconnecting (cm : CameraManager) : CameraManager :=
  set_stats
    (CameraStats.mk
       (CameraStats.frames_captured (stats_ cm))
       (CameraStats.frames_dropped (stats_ cm))
       (CameraStats.bytes_received (stats_ cm))
       (CameraStats.reconnect_count (stats_ cm) + 1)
       (CameraStats.start_time (stats_ cm))
       (CameraStats.last_frame_time (stats_ cm)))
    (set_reconnect_attempts (reconnect_attempts_ cm + 1)
       (set_state RECONNECTING cm)).


(** ** Frame processor *)

(** A frame of 4096 by 4096 in a format the processor does not know,
    with one byte of data. *)
Definition yuv_frame : Frame.t := Frame.mk [Byte.x00] 4096 4096 "yuv" 0.

(** The three running totals of a processor. *)
Definition totals (p : FrameProcessor.t) : Z * Z * Z :=
  (FrameProcessor.total_frames_processed_ p,
   FrameProcessor.total_detections_ p,
   FrameProcessor.total_processing_time_ p).

(** An environment of [ProcessFrame], a valid frame of 32 by 32 in
    [gray], and the processor after [Initialize()]. *)
Definition process_env : ProcessEnv :=
  {| elapsed_ms := 3;
     detect_env := fun _ => mkDetectEnv true 0.75%float "0.750000" 5 5000 |}.

Definition gray_frame : Frame.t :=
  Frame.mk (repeat Byte.x00 1024) 32 32 "gray" 0.

Definition ready_processor : FrameProcessor.t :=
  snd (FrameProcessor.Initialize FrameProcessor.new).

(** What the detectors return for a frame, one list per detector in the
    order of [detectors_], up to the first [Detect] that throws. *)
Fixpoint detector_outputs (env : ProcessEnv) (frame : Frame.t) (i : nat)
    (detectors : list Detector.t) : list (list Detection.t) :=
  match detectors with
  | [] => []
  | detector :: rest =>
      match fst (Detector.detect (detect_env env i) frame detector) with
      | Detected detections =>
          detections :: detector_outputs env frame (S i) rest
      | DetectThrows _ => []
      end
  end.

(** A detector that reports as many detections per frame as its state
    says, and a processor that holds one behind the default motion
    detector, with the cap lowered to 2. *)
Definition burst_detection (k : nat) : Detection.t :=
  {| Detection.id := "burst_" ++ pretty k;
     Detection.type := "burst";
     Detection.confidence := 1%float;
     Detection.timestamp := 0;
     Detection.bbox := BoundingBox.mk 0 0 1 1;
     Detection.metadata := ∅ |}.

#[export] Instance burst_impl : Detector.Impl nat :=
  {| Detector.Detect :=
       fun _ _ n => (Detected (List.map burst_detection (seq 0 n)), n);
     Detector.GetName := fun _ => "Burst";
     Detector.Initialize := fun n => (true, n);
     Detector.Cleanup := fun n => n |}.

Definition burst (n : nat) : Detector.t := Detector.mk nat burst_impl n.

Definition capped_processor : FrameProcessor.t :=
  FrameProcessor.SetMaxDetectionsPerFrame 2
    (FrameProcessor.AddDetector (burst 3) ready_processor).

(** ** Session registry *)

(** What holds in every state of the running service: the registry is
    within the cap; and a thread between the tests and the [try] block of
    [StartStream] owns [streams_mutex_], with the tests still passing. *)
Definition registry_invariant (sys : System) : Prop :=
  (size (VisionServiceImpl.active_streams_ (service sys)) <= 10)%nat
  /\ forall t env request response,
       handlers sys !! t = Some (StartAdmitted env request response) ->
       streams_mutex_ sys = Some t
       /\ VisionServiceImpl.admission_error (sreq_camera_id request)
            (service sys) = None.

(** A service with ten test-pattern sessions, [cam0] to [cam9], all its
    handler threads idle. *)
Definition service_env : ServiceEnv :=
  {| engine := env_test RelockDeadlocks; system_clock_ms := 1700000000000 |}.

Definition test_request (camera_id : string) : StreamRequest :=
  mkStreamRequest camera_id "test://pattern".

Definition started (camera_id : string) (sv : VisionServiceImpl.t)
  : VisionServiceImpl.t :=
  match VisionServiceImpl.StartStream service_env (test_request camera_id)
          empty_StreamResponse sv with
  | Some (_, _, sv') => sv'
  | None => sv
  end.

Definition full_service : VisionServiceImpl.t :=
  fold_right started (VisionServiceImpl.new 0 ServiceMetrics.new)
    ["cam9"; "cam8"; "cam7"; "cam6"; "cam5"; "cam4"; "cam3"; "cam2"; "cam1";
     "cam0"].

Definition full_system : System := mkSystem full_service None ∅.

(** ** Capture engine: life cycle and worker *)

(** A configuration that [Initialize] accepts: positive dimensions and
    rate, and a product [width * height] that is an [int]. *)
Definition valid_config (config : CameraConfig.t) : Prop :=
  0 < CameraConfig.width config /\ 0 < CameraConfig.height config
  /\ 0 < CameraConfig.fps config
  /\ CameraConfig.width config * CameraConfig.height config <= INT_MAX.

(** The engine after [UpdateStats(frame)] at clock reading [now]. *)
Definition counted (now : Z) (frame : Frame.t) (cm : CameraManager)
  : CameraManager :=
  set_stats
    (CameraStats.mk
       (CameraStats.frames_captured (stats_ cm) + 1)
       (CameraStats.frames_dropped (stats_ cm))
       (CameraStats.bytes_received (stats_ cm)
        + Z.of_nat (length (Frame.data frame)))
       (CameraStats.reconnect_count (stats_ cm))
       (CameraStats.start_time (stats_ cm))
       now)
    cm.

(** What the worker does, besides updating the engine, in a turn that
    captures [frame]: the callback, if one is set, and the pacing sleep. *)
Definition turn_events (cm : CameraManager) (frame : Frame.t) : list Event :=
  match frame_callback_ cm with
  | Some cb => [EvCallback frame (cb frame)]
  | None => []
  end ++ [EvSleep (Z.quot 1000 (Z.max 1 (CameraConfig.fps (config_ cm))))].

(** In the turn of [env] the engine captures [frame], and the frame passes
    validation. *)
Definition delivers (cm : CameraManager) (env : Env) (frame : Frame.t)
  : Prop :=
  capture_switch env (camera_type_ cm) = inr (frame, true)
  /\ CameraManager_ValidateFrame frame = true.

(** The bytes of a list of frames. *)
Definition total_bytes (frames : list Frame.t) : Z :=
  fold_right (fun frame n => Z.of_nat (length (Frame.data frame)) + n) 0
             frames.

(** The engine after the worker has counted the frames of [turns]. *)
Definition counted_all (turns : list (Env * Frame.t)) (cm : CameraManager)
  : CameraManager :=
  fold_left (fun cm turn => counted (steady_now (fst turn)) (snd turn) cm)
            turns cm.

(** In the turn of [env] the capture of the engine fails: the backend hands
    over a frame without data, or the engine has no backend. *)
Definition capture_fails (cm : CameraManager) (env : Env) : Prop :=
  exists frame, capture_switch env (camera_type_ cm) = inr (frame, false).

(** The engine after a reconnection. *)
Definition reconnected (cm : CameraManager) : CameraManager :=
  set_reconnect_attempts 0 (set_state CAPTURING (reconnecting cm)).

(** An event that reports an error or a change to the state [ERROR]. *)
Definition reports_error (e : Event) : Prop :=
  match e with
  | EvError _ => True
  | EvStateChanged _ ERROR => True
  | _ => False
  end.

(** Where the frames of an engine come from and go to: its URL, the
    camera type detected from it, and the frame callback. *)
Definition wiring (cm : CameraManager)
  : string * CameraType * option FrameCallback :=
  (camera_url_ cm, camera_type_ cm, frame_callback_ cm).

(** A computation of the engine that, when it returns, has left the
    wiring as it was. *)
Definition keeps_wiring {A} (m : M A) : Prop :=
  forall s a s', m s = Returns a s' -> wiring (self s') = wiring (self s).

Create HintDb wiring.

(** A test-pattern engine whose initialisation has failed, and one that
    is ready. *)
Definition failed_engine : CameraManager := set_state ERROR test_engine.


(** A frame of 4 by 4 with 8 bytes, which the engine accepts, and one
    with 9 bytes. *)
Definition small_frame : Frame.t :=
  Frame.mk (repeat Byte.x00 8) 4 4 "bgr" 0.

Definition small_frame' : Frame.t :=
  Frame.mk (repeat Byte.x01 9) 4 4 "bgr" 0.

(** A webcam engine that is capturing, with the default configuration
    (automatic reconnection, at most 3 attempts), and one with a
    callback. *)
Definition reconnecting_engine : CameraManager :=
  capturing (new_CameraManager (env_test RelockDeadlocks) "/dev/video0").

Definition listening_engine : CameraManager :=
  set_frame_callback (Some (fun _ => CbThrows "callback failed"))
    reconnecting_engine.

(** The turn of an environment in which the backend throws. *)
Definition env_throwing (what : string) : Env :=
  {| fs := fun _ => not_found;
     steady_now := 3000;
     backend_init := fun _ => InitOk;
     backend_read := fun _ => ReadThrows what;
     thread_create := ThreadStarted;
     relock := RelockDeadlocks |}.

(** ** Frame processor: motion and channels *)

(** The box of a detection lies where the simulation puts it. *)
Definition in_motion_range (b : BoundingBox.t) : Prop :=
  100 <= BoundingBox.x b <= 499
  /\ 100 <= BoundingBox.y b <= 299
  /\ 80 <= BoundingBox.width b <= 119
  /\ 60 <= BoundingBox.height b <= 89.

(** A sequence of whole pixels with the first and the third byte of each
    exchanged. *)
Fixpoint exchanged (data : list Byte.byte) : list Byte.byte :=
  match data with
  | b0 :: b1 :: b2 :: rest => b2 :: b1 :: b0 :: exchanged rest
  | rest => rest
  end.

(** A second valid frame, one byte longer than [gray_frame]. *)
Definition gray_frame' : Frame.t :=
  Frame.mk (repeat Byte.x01 1025) 32 32 "gray" 0.

(** ** Test frames and test patterns *)

(** An image of [width] by [height] pixels, row by row: [pixel x y] is
    the bytes of the pixel in column [x] of row [y]. *)
Definition image (width height : Z) (pixel : Z -> Z -> list Byte.byte)
  : list Byte.byte :=
  flat_map (fun y => flat_map (fun x => pixel x y) (seqZ 0 width))
           (seqZ 0 height).

(** The colour bar that column [x] of a frame of the given width lies
    in, and its pixel. *)
Definition bar_of (width x : Z) : Z := Z.min 7 (x / Z.max 1 (width / 8)).

Definition bar_pixel (width x : Z) : list Byte.byte :=
  match TestPatternGenerator.colors !! Z.to_nat (bar_of width x) with
  | Some (c0, c1, c2) => [uint8 c0; uint8 c1; uint8 c2]
  | None => []
  end.

(** The pixel of a checkerboard of squares of 32 by 32, white at the
    origin. *)
Definition check_pixel (x y : Z) : list Byte.byte :=
  let color := if (x / 32 + y / 32) mod 2 =? 0 then Byte.xff else Byte.x00 in
  [color; color; color].

(** A generator of frames of 16 by 2. *)
Definition small_generator : TestPatternGenerator.t :=
  TestPatternGenerator.new 0 16 2.

(** ** Sessions *)

(** The engine that [StartStream] leaves in a session it has opened. *)
Definition session_engine (env : Env) (camera_url : string) : CameraManager :=
  let cm := new_CameraManager env camera_url in
  capturing
    (set_stats
       (CameraStats.mk
          (CameraStats.frames_captured (stats_ cm))
          (CameraStats.frames_dropped (stats_ cm))
          (CameraStats.bytes_received (stats_ cm))
          (CameraStats.reconnect_count (stats_ cm))
          (steady_now env)
          (CameraStats.last_frame_time (stats_ cm)))
       (set_config CameraConfig.default cm)).

(** The session that [StartStream] registers for a request. *)
Definition session (env : ServiceEnv) (request : StreamRequest)
  : StreamState.t :=
  {| StreamState.camera_id := sreq_camera_id request;
     StreamState.camera_url := sreq_camera_url request;
     StreamState.status := VisionServiceConstants.STATUS_ACTIVE;
     StreamState.start_time := steady_now (engine env);
     StreamState.frames_processed := 0;
     StreamState.detections_count := 0;
     StreamState.camera_manager :=
       Some (session_engine (engine env) (sreq_camera_url request));
     StreamState.frame_processor := Some FrameProcessor.new |}.

(** A session as the service keeps it: under its own identifier, active,
    its two counters at 0, its processor never initialised, and its
    engine on the URL of the session with no callback to hand frames
    to. *)
Definition session_as_opened (id : string) (st : StreamState.t) : Prop :=
  StreamState.camera_id st = id
  /\ StreamState.status st = "active"
  /\ StreamState.frames_processed st = 0
  /\ StreamState.detections_count st = 0
  /\ StreamState.frame_processor st = Some FrameProcessor.new
  /\ exists cm,
       StreamState.camera_manager st = Some cm
       /\ camera_url_ cm = StreamState.camera_url st
       /\ frame_callback_ cm = None.

(** Every session of the registry is as it was opened. *)
Definition sessions_as_opened (sv : VisionServiceImpl.t) : Prop :=
  map_Forall session_as_opened (VisionServiceImpl.active_streams_ sv).

(** The response that [ProcessFrames] writes for a request. *)
Definition simulated_response (request : FrameRequest) : FrameResponse :=
  mkFrameResponse (freq_camera_id request) (freq_timestamp request)
                  10 0 15.5%float 128.

(** The requests of a stream up to the first whose response cannot be
    written. *)
Fixpoint answered (stream : list (FrameRequest * bool))
  : list FrameRequest :=
  match stream with
  | [] => []
  | (request, written) :: rest =>
      if written then request :: answered rest else []
  end.

(** A service just constructed, and the service after [cam0] was
    started. *)
Definition fresh_service : VisionServiceImpl.t :=
  VisionServiceImpl.new 0 ServiceMetrics.new.

Definition one_stream_service : VisionServiceImpl.t :=
  started "cam0" fresh_service.

(** A stream of three frame requests, the response to the third of which
    cannot be written. *)
Definition frame_stream : list (FrameRequest * bool) :=
  [(mkFrameRequest "cam0" 10, true); (mkFrameRequest "cam1" 20, true);
   (mkFrameRequest "cam0" 30, false)].

(** * Properties *)

(** ** Strings *)

Lemma append_cons (c : ascii) (a b : string) :
  String c a ++ b = String c (a ++ b).
Proof. reflexivity. Qed.

Lemma append_nil (b : string) : "" ++ b = b.
Proof. reflexivity. Qed.


Lemma found_at_start_prefix (s p : string) :
  found_at_start s p = String.prefix p s.
Proof.
  unfold found_at_start.
  destruct s as [|c s]; unfold string_find; fold string_find.
  - destruct (String.prefix p ""); reflexivity.
  - destruct (String.prefix p (String c s)); [reflexivity|].
    destruct (string_find s p); reflexivity.
Qed.


Lemma string_length_app (a b : string) :
  String.length (a ++ b) = (String.length a + String.length b)%nat.
Proof.
  induction a as [|c a IH]; [reflexivity|].
  rewrite append_cons. simpl. congruence.
Qed.

Lemma substring_drop_app (a b : string) :
  String.substring (String.length a) (String.length b) (a ++ b) = b.
Proof.
  induction a as [|c a IH].
  - rewrite append_nil. simpl.
    induction b as [|d b IHb]; simpl; [reflexivity|].
    f_equal. exact IHb.
  - rewrite append_cons. simpl. exact IH.
Qed.




(** ** URL classification *)







(** ** Capture engine: configuration guard *)

Lemma quot_guard (w h : Z) :
  0 < w -> 0 < h -> (w >? Z.quot INT_MAX h) = true <-> INT_MAX < w * h.
Proof.
  intros Hw Hh. unfold INT_MAX in *.
  rewrite Z.quot_div_nonneg by lia.
  rewrite Z.gtb_lt.
  split; intros H.
  - apply Z.nle_gt. intros Hle.
    assert (w <= 2147483647 / h); [|lia].
    apply Z.div_le_lower_bound; lia.
  - apply Z.div_lt_upper_bound; lia.
Qed.

(** The test at the head of [Initialize] rejects exactly the
    configurations with a non-positive dimension or rate, or whose
    [width * height] is no [int]. *)
Lemma Initialize_guard (config : CameraConfig.t) :
  is_int (CameraConfig.width config) ->
  is_int (CameraConfig.height config) ->
  ((CameraConfig.width config <=? 0)
   || (CameraConfig.height config <=? 0)
   || (CameraConfig.fps config <=? 0)
   || (CameraConfig.width config
         >? Z.quot INT_MAX (CameraConfig.height config))) = true
  <-> (CameraConfig.width config <= 0
       \/ CameraConfig.height config <= 0
       \/ CameraConfig.fps config <= 0
       \/ ~ is_int (CameraConfig.width config * CameraConfig.height config)).
Proof.
  intros Hw Hh.
  destruct (Z.leb_spec (CameraConfig.width config) 0) as [H1|H1];
    [simpl; split; auto|].
  destruct (Z.leb_spec (CameraConfig.height config) 0) as [H2|H2];
    [simpl; split; auto|].
  destruct (Z.leb_spec (CameraConfig.fps config) 0) as [H3|H3];
    [simpl; split; auto|].
  simpl. rewrite quot_guard by lia.
  unfold is_int, INT_MIN, INT_MAX in *.
  split.
  - intros H. right. right. right. lia.
  - intros [H|[H|[H|H]]]; lia.
Qed.

(** C7.  A configuration with [width <= 0], [height <= 0], [fps <= 0] or
    a product [width * height] that overflows [int] makes [Initialize]
    return [false], record the last error and leave the state [ERROR]; a
    valid configuration on an [UNINITIALIZED] engine whose backend
    initialisation succeeds takes the engine through [INITIALIZING] to
    [READY] and records the start time. *)
Theorem Initialize_config (env : Env) (config : CameraConfig.t)
    (cm : CameraManager) :
  is_int (CameraConfig.width config) ->
  is_int (CameraConfig.height config) ->
  is_int (CameraConfig.fps config) ->
  ((CameraConfig.width config <= 0
    \/ CameraConfig.height config <= 0
    \/ CameraConfig.fps config <= 0
    \/ ~ is_int (CameraConfig.width config * CameraConfig.height config)) ->
   exists s,
     call (Initialize env config) cm = Returns false s
     /\ last_error_ (self s) = "Invalid configuration parameters"
     /\ state_ (self s) = ERROR)
  /\ (0 < CameraConfig.width config ->
      0 < CameraConfig.height config ->
      0 < CameraConfig.fps config ->
      is_int (CameraConfig.width config * CameraConfig.height config) ->
      state_ cm = UNINITIALIZED ->
      backend_succeeds env cm ->
      exists s,
        call (Initialize env config) cm = Returns true s
        /\ events s = [EvStateChanged UNINITIALIZED INITIALIZING;
                       EvStateChanged INITIALIZING READY]
        /\ state_ (self s) = READY
        /\ CameraStats.start_time (stats_ (self s)) = steady_now env
        /\ config_ (self s) = config).
Proof.
  intros Hw Hh Hf. split.
  - intros Hbad. apply (Initialize_guard config Hw Hh) in Hbad.
    unfold call, Initialize. rewrite Hbad.
    eexists. split; [reflexivity|]. split; reflexivity.
  - intros Pw Ph Pf Hprod Hst Hback.
    assert (Hgood :
      ((CameraConfig.width config <=? 0)
       || (CameraConfig.height config <=? 0)
       || (CameraConfig.fps config <=? 0)
       || (CameraConfig.width config
             >? Z.quot INT_MAX (CameraConfig.height config))) = false).
    { apply not_true_is_false. intros H.
      apply (Initialize_guard config Hw Hh) in H.
      destruct H as [H|[H|[H|H]]]; [lia|lia|lia|contradiction]. }
    unfold call, Initialize. rewrite Hgood.
    unfold backend_succeeds in Hback.
    unfold bind, with_config_mutex, get, SetState, modify, emit, ret, bind;
      simpl.
    rewrite Hst. simpl.
    destruct (camera_type_ cm) eqn:Hty; try contradiction;
      unfold InitializeBackend, InitializeTestPattern, ret;
      try rewrite Hback; simpl;
      (eexists; split; [reflexivity|]; simpl; rewrite ?Hst;
       repeat split; reflexivity).
Qed.

Lemma Initialize_config_witness :
  (exists s,
     call (Initialize (env_test RelockDeadlocks) zero_width_config)
          test_engine = Returns false s
     /\ last_error_ (self s) = "Invalid configuration parameters"
     /\ state_ (self s) = ERROR)
  /\ (exists s,
        call (Initialize (env_test RelockDeadlocks) CameraConfig.default)
             test_engine = Returns true s
        /\ events s = [EvStateChanged UNINITIALIZED INITIALIZING;
                       EvStateChanged INITIALIZING READY]
        /\ state_ (self s) = READY
        /\ CameraStats.start_time (stats_ (self s))
           = steady_now (env_test RelockDeadlocks)
        /\ config_ (self s) = CameraConfig.default).
Proof.
  split.
  - apply (Initialize_config (env_test RelockDeadlocks) zero_width_config
             test_engine);
      unfold is_int, INT_MIN, INT_MAX; simpl; lia.
  - apply (Initialize_config (env_test RelockDeadlocks) CameraConfig.default
             test_engine);
      unfold is_int, INT_MIN, INT_MAX; simpl; try lia; reflexivity.
Defined.

(** ** Capture engine: [StartCapture] on a capturing engine *)

(** C1 fails on the code.  On a capturing engine [StartCapture] takes the
    [state_ != READY] branch: it calls [SetError] while it owns
    [config_mutex_], which [SetError] locks again.  Where the second lock
    blocks, the call does not return; where it is ignored, the call
    returns [false] with the last error set.  In neither case does it
    return [true]; no thread is started and the state stays [CAPTURING].
    The same holds for the engine that [Initialize()] and [StartCapture()]
    make of a fresh test-pattern engine. *)
Theorem StartCapture_while_capturing
    (fs : FileSystem) (now : Z) (bi : CameraType -> BackendInit)
    (br : CameraType -> BackendRead) (tc : ThreadCreate)
    (cm : CameraManager) :
  call (StartCapture (mkEnv fs now bi br tc RelockDeadlocks)) (capturing cm)
  = Deadlocked {| self := capturing cm; holds_config_mutex := true;
                  events := [] |}
  /\ call (StartCapture (mkEnv fs now bi br tc RelockIgnored)) (capturing cm)
     = Returns false
         {| self := set_last_error "Camera not ready for capture"
                      (capturing cm);
            holds_config_mutex := false;
            events := [EvError "Camera not ready for capture"] |}
  /\ (exists cm0,
        call (ok1 <-- Initialize_default (env_test RelockDeadlocks) ;;;
              ok2 <-- StartCapture (env_test RelockDeadlocks) ;;;
              ret (ok1, ok2)) test_engine
        = Returns (true, true)
            {| self := capturing cm0; holds_config_mutex := false;
               events := [EvStateChanged UNINITIALIZED INITIALIZING;
                          EvStateChanged INITIALIZING READY;
                          EvThreadStarted;
                          EvStateChanged READY CAPTURING] |}
        /\ call (Initialize_default (env_test RelockDeadlocks) ;;;
                 StartCapture (env_test RelockDeadlocks) ;;;
                 StartCapture (env_test RelockDeadlocks)) test_engine
           = Deadlocked
               {| self := capturing cm0; holds_config_mutex := true;
                  events := [EvStateChanged UNINITIALIZED INITIALIZING;
                             EvStateChanged INITIALIZING READY;
                             EvThreadStarted;
                             EvStateChanged READY CAPTURING] |}
        /\ call (Initialize_default (env_test RelockIgnored) ;;;
                 StartCapture (env_test RelockIgnored) ;;;
                 StartCapture (env_test RelockIgnored)) test_engine
           = Returns false
               {| self := set_last_error "Camera not ready for capture"
                            (capturing cm0);
                  holds_config_mutex := false;
                  events := [EvStateChanged UNINITIALIZED INITIALIZING;
                             EvStateChanged INITIALIZING READY;
                             EvThreadStarted;
                             EvStateChanged READY CAPTURING;
                             EvError "Camera not ready for capture"] |}).
Proof.
  split; [reflexivity|]. split; [reflexivity|].
  exists (set_stats (CameraStats.init 1000) test_engine).
  split; [reflexivity|]. split; reflexivity.
Qed.

(** ** Capture engine: a frame that fails validation *)

(** C4, as amended.  When the type-specific capture yields a non-empty
    frame that fails validation, the statistics are not updated, the
    callback is not invoked and the reconnect counter is not reset; but
    [CaptureFrame] returns [true], so the turn is not a capture failure:
    the loop neither reconnects nor records an error nor changes the
    state.  The engine is left as it was, and the loop goes on to its
    pacing sleep. *)
Theorem CaptureLoop_invalid_frame (env : Env) (fuel : nat)
    (cm : CameraManager) (frame : Frame.t) :
  has_backend (camera_type_ cm) = true ->
  backend_read env (camera_type_ cm) = ReadFrame frame ->
  nonempty frame = true ->
  CameraManager_ValidateFrame frame = false ->
  call (CaptureFrame env) cm
  = Returns (CaptureReturns true)
            {| self := cm; holds_config_mutex := false; events := [] |}
  /\ call (CaptureLoop_body env fuel) cm
     = Returns true
         {| self := cm; holds_config_mutex := false;
            events :=
              [EvSleep (Z.quot 1000
                          (Z.max 1 (CameraConfig.fps (config_ cm))))] |}.
Proof.
  intros Hty Hread Hne Hval.
  unfold call, CaptureLoop_body, CaptureFrame, bind, get. simpl.
  assert (Hsw : capture_switch env (camera_type_ cm) = inr (frame, true)).
  { unfold capture_switch.
    destruct (camera_type_ cm); try discriminate Hty;
      rewrite Hread, ?Hne; reflexivity. }
  rewrite Hsw. simpl. rewrite Hval. simpl.
  split; reflexivity.
Qed.

Lemma CaptureLoop_invalid_frame_witness :
  call (CaptureFrame (env_reading one_byte_frame)) webcam_engine
  = Returns (CaptureReturns true)
            {| self := webcam_engine; holds_config_mutex := false;
               events := [] |}
  /\ call (CaptureLoop_body (env_reading one_byte_frame) 1) webcam_engine
     = Returns true
         {| self := webcam_engine; holds_config_mutex := false;
            events := [EvSleep 66] |}.
Proof.
  apply (CaptureLoop_invalid_frame (env_reading one_byte_frame) 1
           webcam_engine one_byte_frame); reflexivity.
Defined.

(** C4, as stated, fails: the one-byte frame is not empty and fails
    validation, yet the turn that reads it does not take the path of the
    turn that reads an empty frame.  The first leaves the engine
    [CAPTURING] with no error and continues the loop; the second records
    the error, sets [ERROR] and leaves the loop. *)
Lemma CaptureLoop_invalid_frame_not_failure :
  nonempty one_byte_frame = true
  /\ CameraManager_ValidateFrame one_byte_frame = false
  /\ call (CaptureLoop_body (env_reading one_byte_frame) 1) webcam_engine
     = Returns true
         {| self := webcam_engine; holds_config_mutex := false;
            events := [EvSleep 66] |}
  /\ call (CaptureLoop_body (env_reading Frame.empty) 1) webcam_engine
     = Returns false
         {| self := set_state ERROR
                      (set_last_error "Capture failed and reconnect disabled"
                         webcam_engine);
            holds_config_mutex := false;
            events := [EvError "Capture failed and reconnect disabled";
                       EvStateChanged CAPTURING ERROR] |}
  /\ call (CaptureLoop_body (env_reading one_byte_frame) 1) webcam_engine
     <> call (CaptureLoop_body (env_reading Frame.empty) 1) webcam_engine.
Proof.
  repeat split; try reflexivity.
  intros H. discriminate H.
Qed.

Lemma wrap32_id (z : Z) : is_int z -> wrap32 z = z.
Proof.
  unfold is_int, INT_MIN, INT_MAX, wrap32. intros H.
  rewrite Z.mod_small; lia.
Qed.




(** ** Frame processor *)

Lemma string_eqb_existsb_false (s : string) (l : list string) (x : string) :
  existsb (String.eqb s) l = false -> In x l -> String.eqb s x = false.
Proof.
  induction l as [|a l IH]; simpl; [contradiction|].
  intros H [->|Hin]; apply orb_false_iff in H as [Ha Hl]; auto.
Qed.

(** [CalculateFrameSize] is 0 for a format outside the supported list,
    whatever the dimensions. *)
Lemma CalculateFrameSize_unknown (width height : Z) (format : string) :
  FrameUtils.IsValidFormat format = false ->
  FrameUtils.CalculateFrameSize width height format = 0.
Proof.
  unfold FrameUtils.IsValidFormat, FrameProcessorConstants.SUPPORTED_FORMATS.
  intros H. unfold FrameUtils.CalculateFrameSize.
  rewrite (string_eqb_existsb_false _ _ "bgr" H) by (simpl; tauto).
  rewrite (string_eqb_existsb_false _ _ "rgb" H) by (simpl; tauto).
  rewrite (string_eqb_existsb_false _ _ "gray" H) by (simpl; tauto).
  rewrite (string_eqb_existsb_false _ _ "jpeg" H) by (simpl; tauto).
  rewrite (string_eqb_existsb_false _ _ "png" H) by (simpl; tauto).
  reflexivity.
Qed.

(** C10.  For a frame whose format is not empty and is none of [bgr],
    [rgb], [gray], [jpeg], [png], [CalculateFrameSize] is 0 and
    [ValidateFrame] skips the test on the length of the data: with
    non-empty data and both dimensions in [32, 4096] the frame is valid,
    however short its data. *)
Theorem ValidateFrame_unknown_format (frame : Frame.t) :
  Frame.format frame <> "" ->
  FrameUtils.IsValidFormat (Frame.format frame) = false ->
  FrameUtils.CalculateFrameSize (Frame.width frame) (Frame.height frame)
                                (Frame.format frame) = 0
  /\ (Frame.data frame <> [] ->
      32 <= Frame.width frame <= 4096 ->
      32 <= Frame.height frame <= 4096 ->
      FrameProcessor.ValidateFrame frame = true).
Proof.
  intros Hne Hfmt.
  pose proof (CalculateFrameSize_unknown (Frame.width frame)
                (Frame.height frame) _ Hfmt) as Hsize.
  split; [exact Hsize|].
  intros Hdata Hw Hh. unfold FrameProcessor.ValidateFrame.
  destruct (Frame.data frame) as [|b data]; [congruence|].
  unfold FrameProcessorConstants.MIN_FRAME_WIDTH,
    FrameProcessorConstants.MAX_FRAME_WIDTH,
    FrameProcessorConstants.MIN_FRAME_HEIGHT,
    FrameProcessorConstants.MAX_FRAME_HEIGHT.
  replace (Frame.width frame <? 32) with false by (symmetry; lia).
  replace (Frame.width frame >? 4096) with false by (symmetry; lia).
  replace (Frame.height frame <? 32) with false by (symmetry; lia).
  replace (Frame.height frame >? 4096) with false by (symmetry; lia).
  simpl.
  destruct (String.eqb (Frame.format frame) "") eqn:E.
  { apply String.eqb_eq in E. congruence. }
  rewrite Hsize. reflexivity.
Qed.

Lemma ValidateFrame_unknown_format_witness :
  FrameUtils.CalculateFrameSize 4096 4096 "yuv" = 0
  /\ FrameProcessor.ValidateFrame yuv_frame = true.
Proof.
  destruct (ValidateFrame_unknown_format yuv_frame) as [H1 H2];
    [discriminate|reflexivity|].
  split; [exact H1|].
  apply H2; simpl; [discriminate|lia|lia].
Defined.

(** C9.  When [ProcessFrame] rejects its input, the processor being
    uninitialised or the frame failing validation, the result has
    [success = false] and a non-empty [error_message], and the processor,
    its three totals included, is unchanged; the totals change only in a
    call on an initialised processor with a frame that passes
    validation. *)
Theorem ProcessFrame_rejects (env : ProcessEnv) (frame : Frame.t)
    (p : FrameProcessor.t) :
  (FrameProcessor.initialized_ p = false
   \/ FrameProcessor.ValidateFrame frame = false ->
   exists r,
     FrameProcessor.ProcessFrame env frame p = (r, p)
     /\ ProcessingResult.success r = false
     /\ ProcessingResult.error_message r <> ""
     /\ totals (snd (FrameProcessor.ProcessFrame env frame p)) = totals p)
  /\ (totals (snd (FrameProcessor.ProcessFrame env frame p)) <> totals p ->
      FrameProcessor.initialized_ p = true
      /\ FrameProcessor.ValidateFrame frame = true).
Proof.
  unfold FrameProcessor.ProcessFrame.
  destruct (FrameProcessor.initialized_ p) eqn:Hinit; simpl.
  - destruct (FrameProcessor.ValidateFrame frame) eqn:Hval; simpl.
    + split; [intros [H|H]; discriminate H | auto].
    + split.
      * intros _. eexists. split; [reflexivity|].
        repeat split; simpl; discriminate.
      * intros H. contradiction H. reflexivity.
  - split.
    + intros _. eexists. split; [reflexivity|].
      repeat split; simpl; discriminate.
    + intros H. contradiction H. reflexivity.
Qed.

Lemma ProcessFrame_rejects_witness :
  (exists r,
     FrameProcessor.ProcessFrame process_env gray_frame
       FrameProcessor.new = (r, FrameProcessor.new)
     /\ ProcessingResult.success r = false
     /\ ProcessingResult.error_message r = "FrameProcessor not initialized")
  /\ (exists r,
        FrameProcessor.ProcessFrame process_env Frame.empty
          ready_processor = (r, ready_processor)
        /\ ProcessingResult.success r = false
        /\ ProcessingResult.error_message r = "Invalid frame data")
  /\ FrameProcessor.ValidateFrame gray_frame = true.
Proof.
  split; [|split].
  - destruct (ProcessFrame_rejects process_env gray_frame
                FrameProcessor.new) as [H _].
    destruct H as [r [H1 [H2 _]]]; [left; reflexivity|].
    exists r. split; [exact H1|]. split; [exact H2|].
    inversion H1. reflexivity.
  - destruct (ProcessFrame_rejects process_env Frame.empty
                ready_processor) as [H _].
    destruct H as [r [H1 [H2 _]]]; [right; reflexivity|].
    exists r. split; [exact H1|]. split; [exact H2|].
    inversion H1. reflexivity.
  - destruct (ProcessFrame_rejects process_env gray_frame
                ready_processor) as [_ H].
    apply H. vm_compute. discriminate.
Defined.

(** *** The cap on the detections of a frame *)

Lemma append_capped_firstn (cap : Z) (result detections : list Detection.t) :
  FrameProcessor.append_capped cap result detections
  = (result
       ++ firstn (Z.to_nat (to_size_t cap) - length result) detections)%list.
Proof.
  revert result. induction detections as [|d rest IH]; intros result.
  - simpl. rewrite firstn_nil, app_nil_r. reflexivity.
  - simpl FrameProcessor.append_capped.
    destruct (Z.ltb_spec (Z.of_nat (length result)) (to_size_t cap)) as [H|H].
    + rewrite IH, length_app. simpl length.
      replace (Z.to_nat (to_size_t cap) - length result)%nat
        with (S (Z.to_nat (to_size_t cap) - (length result + 1)))%nat by lia.
      simpl. rewrite <- app_assoc. reflexivity.
    + replace (Z.to_nat (to_size_t cap) - length result)%nat with 0%nat
        by lia.
      simpl. rewrite app_nil_r. reflexivity.
Qed.

Lemma firstn_app_capped {A} (n : nat) (result a b : list A) :
  ((result ++ firstn (n - length result) a)
     ++ firstn (n - length (result ++ firstn (n - length result) a)) b
   = result ++ firstn (n - length result) (a ++ b))%list.
Proof.
  rewrite firstn_app, app_assoc, length_app, length_firstn.
  f_equal. f_equal.
  destruct (Nat.le_ge_cases (n - length result) (length a)) as [H|H].
  - rewrite Nat.min_l by exact H. lia.
  - rewrite Nat.min_r by exact H. lia.
Qed.

(** The outer loop gathers the first [cap] detections of what the
    detectors return, in their order. *)
Lemma run_detectors_firstn (env : ProcessEnv) (frame : Frame.t) (cap : Z)
    (detectors : list Detector.t) :
  forall (i : nat) (result detections : list Detection.t)
         (detectors' : list Detector.t),
    FrameProcessor.run_detectors env frame cap i detectors result
    = (inr detections, detectors') ->
    detections
    = (result ++ firstn (Z.to_nat (to_size_t cap) - length result)
                        (concat (detector_outputs env frame i detectors)))%list.
Proof.
  induction detectors as [|d rest IH]; intros i result detections detectors'.
  - simpl. intros H. inversion H. rewrite firstn_nil, app_nil_r.
    reflexivity.
  - simpl.
    destruct (Detector.detect (detect_env env i) frame d) as [[dets|what] d'];
      simpl; [|discriminate].
    destruct (FrameProcessor.run_detectors env frame cap (S i) rest
                (FrameProcessor.append_capped cap result dets))
      as [r rest'] eqn:Hrun.
    intros H. inversion H. subst r.
    apply IH in Hrun. rewrite Hrun, append_capped_firstn.
    apply firstn_app_capped.
Qed.

(** A constructed processor has a cap between 1 and [INT_MAX]. *)
Lemma constructed_cap (p : FrameProcessor.t) :
  FrameProcessor.constructed p ->
  1 <= FrameProcessor.max_detections_per_frame_ p <= INT_MAX.
Proof.
  induction 1 as [|p _ IH|p _ IH|d p _ IH|n p _ IH|a p _ IH|m p Hm _ IH
                 |env frame p _ IH]; simpl.
  - unfold FrameProcessorConstants.DEFAULT_MAX_DETECTIONS, INT_MAX. lia.
  - unfold FrameProcessor.Initialize.
    destruct (FrameProcessor.initialized_ p); simpl; exact IH.
  - exact IH.
  - unfold FrameProcessor.AddDetector.
    destruct (Detector.initialize d) as [[|] d']; simpl; exact IH.
  - exact IH.
  - exact IH.
  - unfold is_int, INT_MIN, INT_MAX in *. lia.
  - unfold FrameProcessor.ProcessFrame.
    destruct (FrameProcessor.initialized_ p); simpl; [|exact IH].
    destruct (FrameProcessor.ValidateFrame frame); simpl; [|exact IH].
    destruct (FrameProcessor.run_detectors env frame
                (FrameProcessor.max_detections_per_frame_ p) 0
                (FrameProcessor.detectors_ p) []) as [outcome ds].
    simpl. exact IH.
Qed.

(** C8.  A successful [ProcessFrame] of a constructed processor returns
    at most [max_detections_per_frame_] detections: they are the first
    [max_detections_per_frame_] of what the detectors return, taken in
    the order of registration, so nothing is appended once the cap is
    reached. *)
Theorem ProcessFrame_cap (env : ProcessEnv) (frame : Frame.t)
    (p : FrameProcessor.t) :
  FrameProcessor.constructed p ->
  ProcessingResult.success (fst (FrameProcessor.ProcessFrame env frame p))
  = true ->
  Z.of_nat
    (length (ProcessingResult.detections
               (fst (FrameProcessor.ProcessFrame env frame p))))
  <= FrameProcessor.max_detections_per_frame_ p
  /\ ProcessingResult.detections
       (fst (FrameProcessor.ProcessFrame env frame p))
     = firstn (Z.to_nat (FrameProcessor.max_detections_per_frame_ p))
              (concat (detector_outputs env frame 0
                         (FrameProcessor.detectors_ p))).
Proof.
  intros Hp. apply constructed_cap in Hp.
  unfold FrameProcessor.ProcessFrame.
  destruct (FrameProcessor.initialized_ p); simpl; [|discriminate].
  destruct (FrameProcessor.ValidateFrame frame); simpl; [|discriminate].
  destruct (FrameProcessor.run_detectors env frame
              (FrameProcessor.max_detections_per_frame_ p) 0
              (FrameProcessor.detectors_ p) []) as [[what|dets] ds] eqn:Hrun;
    simpl; [discriminate|].
  intros _.
  apply run_detectors_firstn in Hrun. simpl in Hrun.
  rewrite Nat.sub_0_r in Hrun.
  assert (Hcap : to_size_t (FrameProcessor.max_detections_per_frame_ p)
                 = FrameProcessor.max_detections_per_frame_ p).
  { unfold to_size_t, INT_MAX in *. apply Z.mod_small. lia. }
  rewrite Hcap in Hrun. subst dets.
  split; [|reflexivity].
  rewrite length_firstn. lia.
Qed.

Lemma ProcessFrame_cap_witness :
  Z.of_nat
    (length (ProcessingResult.detections
               (fst (FrameProcessor.ProcessFrame process_env gray_frame
                       capped_processor)))) <= 2
  /\ ProcessingResult.detections
       (fst (FrameProcessor.ProcessFrame process_env gray_frame
               capped_processor))
     = [burst_detection 0; burst_detection 1].
Proof.
  assert (Hc : FrameProcessor.constructed capped_processor).
  { apply FrameProcessor.cons_SetMaxDetectionsPerFrame.
    - unfold is_int, INT_MIN, INT_MAX. lia.
    - apply FrameProcessor.cons_AddDetector.
      apply (FrameProcessor.cons_Initialize FrameProcessor.new).
      apply FrameProcessor.cons_new. }
  destruct (ProcessFrame_cap process_env gray_frame capped_processor Hc)
    as [H1 H2]; [reflexivity|].
  split; [exact H1|].
  rewrite H2. reflexivity.
Defined.

(** ** Session registry *)

Lemma ProcessFrames_active_streams (stream : list (FrameRequest * bool))
    (sv : VisionServiceImpl.t) :
  VisionServiceImpl.active_streams_
    (snd (VisionServiceImpl.ProcessFrames stream sv))
  = VisionServiceImpl.active_streams_ sv.
Proof.
  revert sv. induction stream as [|[request written] rest IH]; intros sv;
    simpl; [reflexivity|].
  destruct written; simpl; [|reflexivity].
  destruct (VisionServiceImpl.ProcessFrames rest _) as [responses sv'] eqn:E.
  simpl. change sv' with (snd (responses, sv')). rewrite <- E, IH.
  reflexivity.
Qed.

Lemma GetHealth_service (now : Z) (sv : VisionServiceImpl.t) :
  snd (VisionServiceImpl.GetHealth now sv) = sv.
Proof.
  unfold VisionServiceImpl.GetHealth.
  destruct (bool_decide _); destruct (PrimFloat.leb _ _); reflexivity.
Qed.

Lemma GetStreamStatus_service (now : Z) (request : StatusRequest)
    (response : StatusResponse) (sv : VisionServiceImpl.t) :
  snd (VisionServiceImpl.GetStreamStatus now request response sv) = sv.
Proof.
  unfold VisionServiceImpl.GetStreamStatus.
  destruct (VisionServiceImpl.active_streams_ sv !! treq_camera_id request);
    reflexivity.
Qed.

(** The handlers always answer: the engine calls inside [StartStream]
    and [StopStream] come back. *)
Lemma open_stream_answers (env : ServiceEnv) (request : StreamRequest)
    (response : StreamResponse) (sv : VisionServiceImpl.t) :
  exists answer,
    VisionServiceImpl.open_stream env request response sv = Some answer.
Proof.
  unfold VisionServiceImpl.open_stream.
  unfold Initialize_default, Initialize, new_CameraManager. simpl.
  engine_run.
  destruct (DetectCameraType (fs (engine env)) (sreq_camera_url request));
    unfold InitializeBackend; engine_run;
    try (eexists; reflexivity);
    try (destruct (backend_init (engine env) _); engine_run;
         try (eexists; reflexivity));
    unfold StartCapture; engine_run;
    destruct (thread_create (engine env)); engine_run;
    eexists; reflexivity.
Qed.

Lemma StartStream_answers (env : ServiceEnv) (request : StreamRequest)
    (response : StreamResponse) (sv : VisionServiceImpl.t) :
  exists answer,
    VisionServiceImpl.StartStream env request response sv = Some answer.
Proof.
  unfold VisionServiceImpl.StartStream.
  destruct (negb (ok _)); [eexists; reflexivity|].
  destruct (VisionServiceImpl.admission_error _ sv);
    [eexists; reflexivity|].
  apply open_stream_answers.
Qed.

Lemma StopStream_answers (request : StopRequest) (response : StopResponse)
    (sv : VisionServiceImpl.t) :
  exists answer,
    VisionServiceImpl.StopStream request response sv = Some answer.
Proof.
  unfold VisionServiceImpl.StopStream.
  destruct (negb (ok _)); [eexists; reflexivity|].
  destruct (VisionServiceImpl.active_streams_ sv !! preq_camera_id request)
    as [st|]; [|eexists; reflexivity].
  simpl. destruct (StreamState.camera_manager st) as [cm|];
    [|eexists; reflexivity].
  unfold StopCapture. engine_run.
  destruct (is_capturing_ cm); simpl; [|eexists; reflexivity].
  destruct (capture_thread_ cm); simpl;
    destruct (state_ cm); simpl; eexists; reflexivity.
Qed.

(** The two tests read the registry only. *)
Lemma admission_error_none (camera_id : string) (sv : VisionServiceImpl.t) :
  VisionServiceImpl.admission_error camera_id sv = None
  <-> VisionServiceImpl.active_streams_ sv !! camera_id = None
      /\ (size (VisionServiceImpl.active_streams_ sv) < 10)%nat.
Proof.
  unfold VisionServiceImpl.admission_error.
  change (to_size_t VisionServiceConstants.MAX_CONCURRENT_STREAMS) with 10.
  destruct (VisionServiceImpl.active_streams_ sv !! camera_id).
  - split; [discriminate|]. intros [H _]. discriminate H.
  - destruct (Z.leb_spec 10
                (Z.of_nat (size (VisionServiceImpl.active_streams_ sv))))
      as [Hfull|Hroom].
    + split; [discriminate|]. intros [_ H]. lia.
    + split; [|reflexivity]. intros _. split; [reflexivity|lia].
Qed.

Lemma open_stream_size (env : ServiceEnv) (request : StreamRequest)
    (response : StreamResponse) (sv : VisionServiceImpl.t) status response'
    sv' :
  VisionServiceImpl.admission_error (sreq_camera_id request) sv = None ->
  VisionServiceImpl.open_stream env request response sv
  = Some (status, response', sv') ->
  (size (VisionServiceImpl.active_streams_ sv') <= 10)%nat.
Proof.
  intros Hadm Hopen. apply admission_error_none in Hadm as [Hlook Hroom].
  unfold VisionServiceImpl.open_stream in Hopen.
  destruct (call (Initialize_default (engine env)) _) as [[|] s1| | |];
    try discriminate Hopen; [|inversion Hopen; subst; lia].
  destruct (call (StartCapture (engine env)) _) as [[|] s2| | |];
    try discriminate Hopen; [|inversion Hopen; subst; lia].
  inversion Hopen; subst. simpl.
  rewrite map_size_insert_None by exact Hlook. lia.
Qed.

Lemma StopStream_registry (request : StopRequest) (response : StopResponse)
    (sv : VisionServiceImpl.t) status response' sv' :
  VisionServiceImpl.StopStream request response sv
  = Some (status, response', sv') ->
  (size (VisionServiceImpl.active_streams_ sv')
   <= size (VisionServiceImpl.active_streams_ sv))%nat.
Proof.
  unfold VisionServiceImpl.StopStream. intros Hstop.
  destruct (negb (ok (VisionServiceImpl.ValidateStopRequest request)));
    [inversion Hstop; subst; lia|].
  destruct (VisionServiceImpl.active_streams_ sv !! preq_camera_id request)
    as [stream_state|] eqn:Hlook; [|inversion Hstop; subst; lia].
  match type of Hstop with
  | match ?stopped with _ => _ end = _ =>
      destruct stopped as [cm'|]; [|discriminate Hstop]
  end.
  inversion Hstop; subst. simpl.
  rewrite delete_insert_eq, map_size_delete, Hlook. simpl. lia.
Qed.

Lemma worker_turn_registry (env : Env) (fuel : nat) (camera_id : string)
    (sv sv' : VisionServiceImpl.t) :
  VisionServiceImpl.worker_turn env fuel camera_id sv = Some sv' ->
  size (VisionServiceImpl.active_streams_ sv')
  = size (VisionServiceImpl.active_streams_ sv)
  /\ forall id,
       VisionServiceImpl.active_streams_ sv !! id = None ->
       VisionServiceImpl.active_streams_ sv' !! id = None.
Proof.
  unfold VisionServiceImpl.worker_turn. intros Hturn.
  destruct (VisionServiceImpl.active_streams_ sv !! camera_id)
    as [stream_state|] eqn:Hlook; [|discriminate Hturn].
  destruct (StreamState.camera_manager stream_state);
    [|discriminate Hturn].
  destruct (call (CaptureLoop_body env fuel) _) as [b s| | |];
    try discriminate Hturn.
  inversion Hturn; subst. simpl. split.
  - apply map_size_insert_Some. rewrite Hlook. eauto.
  - intros id Hid. rewrite lookup_insert_ne; [exact Hid|].
    intros ->. congruence.
Qed.

Lemma step_invariant (sys sys' : System) :
  registry_invariant sys -> step sys sys' -> registry_invariant sys'.
Proof.
  intros [Hsize Hown] Hstep.
  destruct Hstep as [t env request response sys Hidle
                    |t env request response sys Hpc Hfree
                    |t env request response sys status response' sv' Hpc Hopen
                    |t request response sys status response' sv' Hidle Hfree
                       Hstop
                    |t now request response sys Hidle Hfree
                    |t now sys Hidle Hfree
                    |t stream sys Hidle
                    |env fuel camera_id sys sv' Hturn].
  - destruct (ok _); [|split; assumption].
    split; [exact Hsize|]. simpl. intros t' env' request' response' H.
    destruct (decide (t = t')) as [->|Hne].
    + rewrite lookup_insert_eq in H. discriminate H.
    + rewrite lookup_insert_ne in H by exact Hne. eapply Hown. exact H.
  - destruct (VisionServiceImpl.admission_error _ _) eqn:Hadm.
    + split; [exact Hsize|]. simpl. intros t' env' request' response' H.
      apply lookup_delete_Some in H as [_ H'].
      apply Hown in H' as [Ho _]. congruence.
    + split; [exact Hsize|]. simpl. intros t' env' request' response' H.
      destruct (decide (t = t')) as [->|Hne].
      * rewrite lookup_insert_eq in H. inversion H; subst.
        split; [reflexivity|exact Hadm].
      * rewrite lookup_insert_ne in H by exact Hne.
        apply Hown in H as [Ho _]. congruence.
  - destruct (Hown _ _ _ _ Hpc) as [Howner Hadm].
    split; [exact (open_stream_size _ _ _ _ _ _ _ Hadm Hopen)|].
    simpl. intros t' env' request' response'' H.
    apply lookup_delete_Some in H as [Hne H'].
    apply Hown in H' as [Ho _]. congruence.
  - split.
    + simpl. pose proof (StopStream_registry _ _ _ _ _ _ Hstop). lia.
    + simpl. intros t' env' request' response'' H.
      apply Hown in H as [Ho _]. congruence.
  - split.
    + simpl. rewrite GetStreamStatus_service. exact Hsize.
    + simpl. intros t' env' request' response' H.
      apply Hown in H as [Ho _]. congruence.
  - split.
    + simpl. rewrite GetHealth_service. exact Hsize.
    + simpl. intros t' env' request' response' H.
      apply Hown in H as [Ho _]. congruence.
  - split.
    + simpl. rewrite ProcessFrames_active_streams. exact Hsize.
    + simpl. intros t' env' request' response' H.
      apply Hown in H as [H1 H2]. split; [exact H1|].
      apply admission_error_none in H2. apply admission_error_none.
      rewrite ProcessFrames_active_streams. exact H2.
  - destruct (worker_turn_registry _ _ _ _ _ Hturn) as [Hsame Hnone].
    split.
    + simpl. lia.
    + simpl. intros t' env' request' response' H.
      apply Hown in H as [H1 H2]. split; [exact H1|].
      apply admission_error_none in H2 as [H2 H3].
      apply admission_error_none. split; [auto|lia].
Qed.

Lemma running_invariant (sys : System) :
  running sys -> registry_invariant sys.
Proof.
  induction 1 as [now metrics|sys sys' _ IH Hstep].
  - split.
    + simpl. rewrite map_size_empty. lia.
    + simpl. intros t env request response H.
      rewrite lookup_empty in H. discriminate H.
  - exact (step_invariant _ _ IH Hstep).
Qed.

(** [StartStream], run by a thread while the others stand still, is the
    three steps of that thread. *)
Lemma running_StartStream (t : nat) (env : ServiceEnv)
    (request : StreamRequest) (response : StreamResponse)
    (sv : VisionServiceImpl.t) (h : gmap nat HandlerPc) status response' sv' :
  running (mkSystem sv None h) ->
  h !! t = None ->
  VisionServiceImpl.StartStream env request response sv
  = Some (status, response', sv') ->
  running (mkSystem sv' None h).
Proof.
  intros Hrun Hidle Hstart.
  pose proof (running_step _ _ Hrun
                (step_StartStream_enter t env request response
                   (mkSystem sv None h) Hidle)) as Henter.
  unfold VisionServiceImpl.StartStream in Hstart. simpl in Henter.
  destruct (ok (VisionServiceImpl.ValidateStreamRequest env request));
    simpl in Hstart; [|inversion Hstart; subst; exact Henter].
  pose proof (running_step _ _ Henter
                (step_StartStream_lock t env request response
                   (mkSystem sv None
                      (<[t := StartAtLock env request response]> h))
                   (lookup_insert_eq _ _ _) eq_refl)) as Hlock.
  simpl in Hlock.
  destruct (VisionServiceImpl.admission_error (sreq_camera_id request) sv).
  - inversion Hstart; subst.
    rewrite delete_insert_eq, delete_id in Hlock by exact Hidle.
    exact Hlock.
  - pose proof (running_step _ _ Hlock
                  (step_StartStream_try t env request response
                     (mkSystem sv (Some t)
                        (<[t := StartAdmitted env request response]>
                           (<[t := StartAtLock env request response]> h)))
                     _ _ _ (lookup_insert_eq _ _ _) Hstart)) as Htry.
    simpl in Htry.
    rewrite delete_insert_eq, delete_insert_eq, delete_id in Htry
      by exact Hidle.
    exact Htry.
Qed.

(** C2.  In every state of the running service the number of active
    sessions is at most [MAX_CONCURRENT_STREAMS], which is 10.  A thread
    of [StartStream] that has tested the count and has not yet inserted
    owns the registry lock, and the count it tested still holds.  When
    the count has reached the cap, [StartStream] with a request that
    passes validation answers OK with [status = error] in the body and
    leaves the service as it was. *)
Theorem registry_cap (sys : System) :
  running sys ->
  VisionServiceConstants.MAX_CONCURRENT_STREAMS = 10
  /\ Z.of_nat (size (VisionServiceImpl.active_streams_ (service sys)))
     <= VisionServiceConstants.MAX_CONCURRENT_STREAMS
  /\ (forall t env request response,
        handlers sys !! t = Some (StartAdmitted env request response) ->
        streams_mutex_ sys = Some t
        /\ Z.of_nat (size (VisionServiceImpl.active_streams_ (service sys)))
           < VisionServiceConstants.MAX_CONCURRENT_STREAMS)
  /\ (forall env request response,
        ok (VisionServiceImpl.ValidateStreamRequest env request) = true ->
        VisionServiceConstants.MAX_CONCURRENT_STREAMS
        <= Z.of_nat (size (VisionServiceImpl.active_streams_ (service sys))) ->
        exists response',
          VisionServiceImpl.StartStream env request response (service sys)
          = Some (Status_OK, response', service sys)
          /\ sresp_status response' = VisionServiceConstants.STATUS_ERROR).
Proof.
  intros Hrun. apply running_invariant in Hrun as [Hsize Hown].
  unfold VisionServiceConstants.MAX_CONCURRENT_STREAMS.
  split; [reflexivity|]. split; [lia|]. split.
  - intros t env request response H.
    apply Hown in H as [H1 H2]. split; [exact H1|].
    apply admission_error_none in H2. lia.
  - intros env request response Hvalid Hfull.
    unfold VisionServiceImpl.StartStream. rewrite Hvalid. simpl.
    destruct (VisionServiceImpl.admission_error _ _) eqn:Hadm.
    + eexists. split; reflexivity.
    + apply admission_error_none in Hadm. lia.
Qed.

Lemma running_started (camera_id : string) (sv : VisionServiceImpl.t) :
  running (mkSystem sv None ∅) ->
  running (mkSystem (started camera_id sv) None ∅).
Proof.
  intros H. unfold started.
  destruct (VisionServiceImpl.StartStream service_env
              (test_request camera_id) empty_StreamResponse sv)
    as [[[status response'] sv']|] eqn:E; [|exact H].
  exact (running_StartStream 0%nat _ _ _ _ _ _ _ _ H (lookup_empty _) E).
Qed.

Lemma running_full_system : running full_system.
Proof.
  unfold full_system, full_service. simpl fold_right.
  repeat apply running_started.
  apply (running_boot 0 ServiceMetrics.new).
Qed.

Lemma registry_cap_witness :
  Z.of_nat (size (VisionServiceImpl.active_streams_ (service full_system)))
  <= VisionServiceConstants.MAX_CONCURRENT_STREAMS
  /\ exists response',
       VisionServiceImpl.StartStream service_env (test_request "cam10")
         empty_StreamResponse (service full_system)
       = Some (Status_OK, response', service full_system)
       /\ sresp_status response' = VisionServiceConstants.STATUS_ERROR.
Proof.
  pose proof (registry_cap full_system running_full_system) as H.
  destruct H as [_ [Hsize [_ Hfull]]].
  split; [exact Hsize|].
  apply (Hfull service_env (test_request "cam10") empty_StreamResponse).
  - vm_compute. reflexivity.
  - vm_compute. discriminate.
Defined.

(** C5 fails on the code: [GetStreamStatus] never calls
    [ValidateStatusRequest].  Whatever the request, the empty id
    included, the RPC status is OK; for the empty id on a fresh service
    the body says [stopped], though [ValidateStatusRequest] rejects that
    request as an invalid argument.  The second half of the claim
    holds: an id that is not in the registry gets OK, [stopped], and no
    statistics. *)
Theorem GetStreamStatus_empty_id (now : Z) (sv : VisionServiceImpl.t)
    (request : StatusRequest) (start : Z) (metrics : ServiceMetrics.t) :
  error_code
    (fst (fst (VisionServiceImpl.GetStreamStatus now request
                 empty_StatusResponse sv))) = OK
  /\ VisionServiceImpl.GetStreamStatus now (mkStatusRequest "")
       empty_StatusResponse (VisionServiceImpl.new start metrics)
     = (Status_OK,
        mkStatusResponse "" "stopped" "No active stream" None,
        VisionServiceImpl.new start metrics)
  /\ error_code (VisionServiceImpl.ValidateStatusRequest (mkStatusRequest ""))
     = INVALID_ARGUMENT
  /\ match VisionServiceImpl.active_streams_ sv !! treq_camera_id request with
     | None =>
         VisionServiceImpl.GetStreamStatus now request empty_StatusResponse sv
         = (Status_OK,
            mkStatusResponse (treq_camera_id request) "stopped"
              "No active stream" None,
            sv)
     | Some _ => True
     end.
Proof.
  split; [|split; [|split]].
  - unfold VisionServiceImpl.GetStreamStatus.
    destruct (VisionServiceImpl.active_streams_ sv !! treq_camera_id request);
      reflexivity.
  - reflexivity.
  - reflexivity.
  - unfold VisionServiceImpl.GetStreamStatus.
    destruct (VisionServiceImpl.active_streams_ sv !! treq_camera_id request);
      [exact I|reflexivity].
Qed.

(** ** Capture engine: life cycle *)

(** A valid configuration passes the test at the head of [Initialize]. *)
Lemma Initialize_guard_valid (config : CameraConfig.t) :
  valid_config config ->
  ((CameraConfig.width config <=? 0)
   || (CameraConfig.height config <=? 0)
   || (CameraConfig.fps config <=? 0)
   || (CameraConfig.width config
         >? Z.quot INT_MAX (CameraConfig.height config))) = false.
Proof.
  intros (Hw & Hh & Hf & Hp).
  apply not_true_is_false. intros H.
  repeat (apply orb_true_iff in H as [H|H]); try (apply Z.leb_le in H; lia).
  apply quot_guard in H; lia.
Qed.

(** X1.  [Initialize] on an engine that is not [UNINITIALIZED], and
    [StartCapture] on an engine that is not [READY], report their error
    through [SetError] while they own [config_mutex_], which [SetError]
    locks again.  Where the second lock blocks, the call does not return
    and the engine is as it was; where it is ignored, the call returns
    [false] and has set the last error ([Already initialized],
    respectively [Camera not ready for capture]) and nothing else: the
    state is kept. *)
Theorem calls_in_the_wrong_state (fs : FileSystem) (now : Z)
    (bi : CameraType -> BackendInit) (br : CameraType -> BackendRead)
    (tc : ThreadCreate) (config : CameraConfig.t) (cm : CameraManager) :
  valid_config config ->
  (state_ cm <> UNINITIALIZED ->
   call (Initialize (mkEnv fs now bi br tc RelockDeadlocks) config) cm
   = Deadlocked {| self := cm; holds_config_mutex := true; events := [] |}
   /\ call (Initialize (mkEnv fs now bi br tc RelockIgnored) config) cm
      = Returns false
          {| self := set_last_error "Already initialized" cm;
             holds_config_mutex := false;
             events := [EvError "Already initialized"] |})
  /\ (state_ cm <> READY ->
      call (StartCapture (mkEnv fs now bi br tc RelockDeadlocks)) cm
      = Deadlocked {| self := cm; holds_config_mutex := true; events := [] |}
      /\ call (StartCapture (mkEnv fs now bi br tc RelockIgnored)) cm
         = Returns false
             {| self := set_last_error "Camera not ready for capture" cm;
                holds_config_mutex := false;
                events := [EvError "Camera not ready for capture"] |}).
Proof.
  intros Hcfg. split.
  - intros Hst. unfold call, Initialize.
    rewrite (Initialize_guard_valid _ Hcfg). engine_run.
    destruct (state_ cm); try contradiction; split; reflexivity.
  - intros Hst. unfold StartCapture. engine_run.
    destruct (state_ cm); try contradiction; split; reflexivity.
Qed.

Lemma calls_in_the_wrong_state_witness :
  call (Initialize (env_test RelockDeadlocks) CameraConfig.default)
       failed_engine
  = Deadlocked {| self := failed_engine; holds_config_mutex := true;
                  events := [] |}
  /\ call (StartCapture (env_test RelockIgnored)) failed_engine
     = Returns false
         {| self := set_last_error "Camera not ready for capture"
                      failed_engine;
            holds_config_mutex := false;
            events := [EvError "Camera not ready for capture"] |}.
Proof.
  destruct (calls_in_the_wrong_state (fun _ => not_found) 1000
              (fun _ => InitFails "OpenCV not available")
              (fun _ => ReadFrame Frame.empty) ThreadStarted
              CameraConfig.default failed_engine) as [Hinit Hstart].
  { unfold valid_config, INT_MAX. simpl. lia. }
  split.
  - apply Hinit. discriminate.
  - apply Hstart. discriminate.
Defined.




(** [Initialize] on an [UNINITIALIZED] engine, in any state of the call:
    what it returns and what it leaves. *)
Lemma Initialize_fresh (env : Env) (config : CameraConfig.t) (s : St) :
  valid_config config ->
  backend_succeeds env (self s) ->
  state_ (self s) = UNINITIALIZED ->
  holds_config_mutex s = false ->
  Initialize env config s
  = Returns true
      {| self :=
           set_stats
             (CameraStats.mk
                (CameraStats.frames_captured (stats_ (self s)))
                (CameraStats.frames_dropped (stats_ (self s)))
                (CameraStats.bytes_received (stats_ (self s)))
                (CameraStats.reconnect_count (stats_ (self s)))
                (steady_now env)
                (CameraStats.last_frame_time (stats_ (self s))))
             (set_state READY (set_config config (self s)));
         holds_config_mutex := false;
         events := events s ++ [EvStateChanged UNINITIALIZED INITIALIZING;
                                EvStateChanged INITIALIZING READY] |}.
Proof.
  intros Hcfg Hback Hst Hholds.
  destruct s as [cm holds evs]. simpl in *. subst holds.
  destruct cm as [url ty cfg st stats err th stop cap cb att].
  simpl in Hst. subst st.
  unfold backend_succeeds in Hback. simpl in Hback.
  unfold Initialize. rewrite (Initialize_guard_valid _ Hcfg).
  destruct ty; try contradiction;
    cbv [bind with_config_mutex get SetState modify emit ret self
         holds_config_mutex events set_state set_config set_stats
         camera_type_ state_ InitializeBackend InitializeTestPattern];
    try rewrite Hback; cbv beta iota;
    repeat rewrite <- app_assoc; reflexivity.
Qed.




(** ** Capture engine: the turns of the worker *)

(** The loop of the worker, unfolded by one turn. *)
Lemma CaptureLoop_nil (fuel : nat) (s : St) :
  should_stop_ (self s) = false -> CaptureLoop [] fuel s = Returns false s.
Proof.
  intros Hstop. simpl. cbv [bind get]. rewrite Hstop. reflexivity.
Qed.

Lemma CaptureLoop_cons (env : Env) (envs : list Env) (fuel : nat) (s : St) :
  should_stop_ (self s) = false ->
  CaptureLoop (env :: envs) fuel s
  = match CaptureLoop_body env fuel s with
    | Returns true s' => CaptureLoop envs fuel s'
    | Returns false s' =>
        Returns true {| self := set_is_capturing false (self s');
                        holds_config_mutex := holds_config_mutex s';
                        events := events s' |}
    | Deadlocked s' => Deadlocked s'
    | Terminated s' => Terminated s'
    | OutOfFuel => OutOfFuel
    end.
Proof.
  intros Hstop. simpl. unfold bind at 1. unfold get at 1. cbv beta iota.
  rewrite Hstop. unfold bind at 1.
  destruct (CaptureLoop_body env fuel s) as [[|] s'| | |]; reflexivity.
Qed.

(** An [int64_t] in range is not wrapped. *)
Lemma wrap64_id (z : Z) : - 2 ^ 63 <= z < 2 ^ 63 -> wrap64 z = z.
Proof. unfold wrap64. intros H. rewrite Z.mod_small; lia. Qed.

(** A turn in which a valid frame is captured. *)
Lemma CaptureLoop_body_delivers (env : Env) (fuel : nat) (frame : Frame.t)
    (s : St) :
  delivers (self s) env frame ->
  - 2 ^ 63 <= CameraStats.frames_captured (stats_ (self s)) < 2 ^ 63 - 1 ->
  - 2 ^ 63 <= CameraStats.bytes_received (stats_ (self s))
              + Z.of_nat (length (Frame.data frame)) < 2 ^ 63 ->
  CaptureLoop_body env fuel s
  = Returns true
      {| self := counted (steady_now env) frame (self s);
         holds_config_mutex := holds_config_mutex s;
         events := events s ++ turn_events (self s) frame |}.
Proof.
  intros [Hsw Hval] Hfc Hbr.
  destruct s as [cm holds evs].
  unfold CaptureLoop_body, CaptureFrame.
  cbv [bind get self]. simpl in *. rewrite Hsw, Hval.
  cbv [andb UpdateStats NotifyFrameAvailable bind modify get ret emit self
       holds_config_mutex events].
  rewrite wrap64_id by lia. rewrite wrap64_id by lia.
  unfold counted, turn_events.
  destruct cm as [url ty cfg st stats err th stop cap cb att]. simpl.
  destruct cb as [cb|]; simpl; rewrite <- ?app_assoc; reflexivity.
Qed.

Lemma total_bytes_nonneg (frames : list Frame.t) : 0 <= total_bytes frames.
Proof. induction frames as [|f frames IH]; simpl; lia. Qed.

Lemma CaptureLoop_delivers_from (fuel : nat) (turns : list (Env * Frame.t)) :
  forall s : St,
    should_stop_ (self s) = false ->
    Forall (fun turn => delivers (self s) (fst turn) (snd turn)) turns ->
    0 <= CameraStats.frames_captured (stats_ (self s)) ->
    0 <= CameraStats.bytes_received (stats_ (self s)) ->
    CameraStats.frames_captured (stats_ (self s)) + Z.of_nat (length turns)
    < 2 ^ 63 ->
    CameraStats.bytes_received (stats_ (self s))
    + total_bytes (map snd turns) < 2 ^ 63 ->
    CaptureLoop (map fst turns) fuel s
    = Returns false
        {| self := counted_all turns (self s);
           holds_config_mutex := holds_config_mutex s;
           events :=
             events s
             ++ concat (map (fun turn => turn_events (self s) (snd turn))
                            turns) |}.
Proof.
  induction turns as [|[env frame] turns IH]; intros s Hstop Hall Hfc Hbr Hn Hb.
  - destruct s as [cm holds evs]. simpl in *.
    cbv [bind get self]. simpl. rewrite Hstop.
    cbv [ret]. rewrite app_nil_r. reflexivity.
  - inversion Hall as [|? ? Hd Hrest]; subst. simpl in Hd.
    pose proof (total_bytes_nonneg (map snd turns)) as Hpos.
    simpl map in *. simpl total_bytes in Hb. simpl length in Hn.
    unfold CaptureLoop; fold CaptureLoop.
    unfold bind at 1. unfold get at 1. cbv beta iota.
    rewrite Hstop. unfold bind at 1.
    rewrite (CaptureLoop_body_delivers env fuel frame s Hd) by lia.
    rewrite IH; simpl self; simpl holds_config_mutex; simpl events.
    + simpl. rewrite <- app_assoc.
      destruct s as [cm holds evs]; destruct cm; reflexivity.
    + destruct s as [cm holds evs]; destruct cm; exact Hstop.
    + destruct s as [cm holds evs]; destruct cm; exact Hrest.
    + destruct s as [cm holds evs]; destruct cm; simpl in *; lia.
    + destruct s as [cm holds evs]; destruct cm; simpl in *; lia.
    + destruct s as [cm holds evs]; destruct cm; simpl in *; lia.
    + destruct s as [cm holds evs]; destruct cm; simpl in *; lia.
Qed.

Lemma counted_all_stats (turns : list (Env * Frame.t)) :
  forall cm : CameraManager,
    CameraStats.frames_captured (stats_ (counted_all turns cm))
    = CameraStats.frames_captured (stats_ cm) + Z.of_nat (length turns)
    /\ CameraStats.bytes_received (stats_ (counted_all turns cm))
       = CameraStats.bytes_received (stats_ cm) + total_bytes (map snd turns)
    /\ CameraStats.reconnect_count (stats_ (counted_all turns cm))
       = CameraStats.reconnect_count (stats_ cm)
    /\ (state_ (counted_all turns cm), last_error_ (counted_all turns cm),
        reconnect_attempts_ (counted_all turns cm),
        is_capturing_ (counted_all turns cm), config_ (counted_all turns cm))
       = (state_ cm, last_error_ cm, reconnect_attempts_ cm, is_capturing_ cm,
          config_ cm).
Proof.
  induction turns as [|[env frame] turns IH]; intros cm.
  - simpl. repeat split; lia.
  - simpl counted_all. unfold counted_all in *. simpl fold_left.
    destruct (IH (counted (steady_now env) frame cm)) as (H1 & H2 & H3 & H4).
    rewrite H1, H2, H3, H4. simpl. repeat split; lia.
Qed.

(** X5.  While frames come and pass validation, the worker counts each
    of them once in [frames_captured] and with its size in
    [bytes_received], hands each to the callback (if one is set) once
    and in order, whatever the callback does, and sleeps [1000 / fps]
    milliseconds after each; the state, the last error, the
    configuration and the reconnection counters are not touched. *)
Theorem CaptureLoop_counts_frames (fuel : nat) (turns : list (Env * Frame.t))
    (cm : CameraManager) :
  should_stop_ cm = false ->
  Forall (fun turn => delivers cm (fst turn) (snd turn)) turns ->
  0 <= CameraStats.frames_captured (stats_ cm) ->
  0 <= CameraStats.bytes_received (stats_ cm) ->
  CameraStats.frames_captured (stats_ cm) + Z.of_nat (length turns) < 2 ^ 63 ->
  CameraStats.bytes_received (stats_ cm) + total_bytes (map snd turns)
  < 2 ^ 63 ->
  exists s,
    call (CaptureLoop (map fst turns) fuel) cm = Returns false s
    /\ CameraStats.frames_captured (stats_ (self s))
       = CameraStats.frames_captured (stats_ cm) + Z.of_nat (length turns)
    /\ CameraStats.bytes_received (stats_ (self s))
       = CameraStats.bytes_received (stats_ cm) + total_bytes (map snd turns)
    /\ events s
       = concat (map (fun turn => turn_events cm (snd turn)) turns)
    /\ (state_ (self s), last_error_ (self s), reconnect_attempts_ (self s),
        is_capturing_ (self s), config_ (self s))
       = (state_ cm, last_error_ cm, reconnect_attempts_ cm, is_capturing_ cm,
          config_ cm)
    /\ CameraStats.reconnect_count (stats_ (self s))
       = CameraStats.reconnect_count (stats_ cm).
Proof.
  intros Hstop Hall Hfc Hbr Hn Hb.
  unfold call. rewrite CaptureLoop_delivers_from; try assumption.
  eexists. split; [reflexivity|]. simpl.
  destruct (counted_all_stats turns cm) as (H1 & H2 & H3 & H4).
  repeat split; assumption.
Qed.

Lemma CaptureLoop_counts_frames_witness :
  exists s,
    call (CaptureLoop [env_reading small_frame; env_reading small_frame'] 1)
         listening_engine
    = Returns false s
    /\ CameraStats.frames_captured (stats_ (self s)) = 2
    /\ CameraStats.bytes_received (stats_ (self s)) = 17
    /\ events s
       = [EvCallback small_frame (CbThrows "callback failed"); EvSleep 66;
          EvCallback small_frame' (CbThrows "callback failed"); EvSleep 66].
Proof.
  destruct (CaptureLoop_counts_frames 1
              [(env_reading small_frame, small_frame);
               (env_reading small_frame', small_frame')]
              listening_engine) as [s (H1 & H2 & H3 & H4 & _)].
  - reflexivity.
  - repeat constructor.
  - simpl. lia.
  - simpl. lia.
  - simpl. lia.
  - simpl. lia.
  - exists s. repeat split; assumption.
Defined.

(** A turn in which the capture fails and the engine reconnects. *)
Lemma CaptureLoop_body_reconnects (env : Env) (fuel : nat) (s : St) :
  capture_fails (self s) env ->
  CameraConfig.auto_reconnect (config_ (self s)) = true ->
  reconnect_attempts_ (self s) = 0 ->
  0 < CameraConfig.max_reconnect_attempts (config_ (self s)) ->
  - 2 ^ 63 <= CameraStats.reconnect_count (stats_ (self s)) < 2 ^ 63 - 1 ->
  CaptureLoop_body env (S fuel) s
  = Returns true
      {| self := reconnected (self s);
         holds_config_mutex := holds_config_mutex s;
         events :=
           events s
           ++ [EvStateChanged (state_ (self s)) RECONNECTING;
               EvSleep (CameraConfig.reconnect_delay_ms (config_ (self s)));
               EvStateChanged RECONNECTING CAPTURING;
               EvSleep (Z.quot 1000
                          (Z.max 1 (CameraConfig.fps (config_ (self s)))))] |}.
Proof.
  intros [frame Hsw] Hauto Hatt Hmax Hrc.
  destruct s as [cm holds evs].
  destruct cm as [url ty cfg st stats err th stop cap cb att].
  simpl in *. subst att.
  unfold CaptureLoop_body, CaptureFrame.
  cbv [bind get self camera_type_]. rewrite Hsw.
  cbv [andb ret bind get self config_ ShouldAttemptReconnect
       reconnect_attempts_].
  rewrite Hauto.
  replace (0 <? CameraConfig.max_reconnect_attempts cfg) with true
    by (symmetry; apply Z.ltb_lt; exact Hmax).
  cbv [andb AttemptReconnect bind get self reconnect_attempts_ config_].
  replace (0 >=? CameraConfig.max_reconnect_attempts cfg) with false
    by (symmetry; apply not_true_is_false; intros H;
        apply Z.geb_le in H; lia).
  cbv [SetState bind get emit modify self holds_config_mutex events
       InitializeCapture ret set_state set_reconnect_attempts set_stats
       state_ reconnect_attempts_ stats_ config_ camera_url_ camera_type_
       last_error_ capture_thread_ should_stop_ is_capturing_
       frame_callback_].
  rewrite wrap64_id by lia.
  unfold reconnected, reconnecting. simpl.
  repeat rewrite <- app_assoc. reflexivity.
Qed.

Lemma reconnected_iter (n : nat) :
  forall cm : CameraManager,
    reconnect_attempts_ cm = 0 ->
    let cm' := Nat.iter n reconnected cm in
    CameraStats.reconnect_count (stats_ cm')
    = CameraStats.reconnect_count (stats_ cm) + Z.of_nat n
    /\ reconnect_attempts_ cm' = 0
    /\ (n <> 0%nat -> state_ cm' = CAPTURING)
    /\ (camera_type_ cm', config_ cm', should_stop_ cm', last_error_ cm',
        is_capturing_ cm', CameraStats.frames_captured (stats_ cm'))
       = (camera_type_ cm, config_ cm, should_stop_ cm, last_error_ cm,
          is_capturing_ cm, CameraStats.frames_captured (stats_ cm)).
Proof.
  induction n as [|n IH]; intros cm Hatt; simpl.
  - repeat split; try lia; assumption.
  - destruct (IH cm Hatt) as (H1 & H2 & H3 & H4).
    simpl in *. rewrite H1. inversion H4.
    repeat split; try lia; try reflexivity.
Qed.

Lemma CaptureLoop_reconnects_from (fuel : nat) (envs : list Env) :
  forall s : St,
    should_stop_ (self s) = false ->
    Forall (capture_fails (self s)) envs ->
    CameraConfig.auto_reconnect (config_ (self s)) = true ->
    reconnect_attempts_ (self s) = 0 ->
    0 < CameraConfig.max_reconnect_attempts (config_ (self s)) ->
    0 <= CameraStats.reconnect_count (stats_ (self s)) ->
    CameraStats.reconnect_count (stats_ (self s)) + Z.of_nat (length envs)
    < 2 ^ 63 ->
    exists evs,
      CaptureLoop envs (S fuel) s
      = Returns false
          {| self := Nat.iter (length envs) reconnected (self s);
             holds_config_mutex := holds_config_mutex s;
             events := events s ++ evs |}
      /\ Forall (fun e => ~ reports_error e) evs.
Proof.
  induction envs as [|env envs IH];
    intros s Hstop Hall Hauto Hatt Hmax Hrc Hn.
  - exists []. split; [|constructor].
    destruct s as [cm holds evs]. simpl in *.
    cbv [bind get self]. simpl. rewrite Hstop.
    cbv [ret]. rewrite app_nil_r. reflexivity.
  - inversion Hall as [|? ? Hfail Hrest]; subst.
    simpl length in *.
    unfold CaptureLoop; fold CaptureLoop.
    unfold bind at 1. unfold get at 1. cbv beta iota.
    rewrite Hstop. unfold bind at 1.
    rewrite (CaptureLoop_body_reconnects env fuel s Hfail Hauto Hatt Hmax)
      by lia.
    destruct s as [cm holds evs0].
    destruct cm as [url ty cfg st stats err th stop cap cb att].
    simpl in *.
    match goal with
    | |- context [CaptureLoop envs _ ?s1] =>
        destruct (IH s1) as [evs [Hrun Hev]];
          [exact Hstop | exact Hrest | exact Hauto | reflexivity | exact Hmax
          | simpl; lia | simpl; lia |]
    end.
    rewrite Hrun. eexists. split.
    + simpl. rewrite <- app_assoc.
      match goal with
      | |- context [reconnected (Nat.iter ?n reconnected ?x)] =>
          change (reconnected (Nat.iter n reconnected x))
            with (Nat.iter (S n) reconnected x)
      end.
      rewrite Nat.iter_succ_r. reflexivity.
    + repeat (constructor; [simpl; tauto|]). exact Hev.
Qed.

(** X6.  With automatic reconnection and a positive cap, a camera whose
    every capture fails is reconnected turn after turn without end:
    [AttemptReconnect] succeeds in each turn and resets
    [reconnect_attempts_] to 0, so the cap is never reached.  The worker
    stays in its loop and reports no error; after each turn the state is
    [CAPTURING] and the last error is as it was; [reconnect_count] has
    grown by the number of turns and [frames_captured] not at all. *)
Theorem CaptureLoop_reconnects_for_ever (fuel : nat) (envs : list Env)
    (cm : CameraManager) :
  should_stop_ cm = false ->
  Forall (capture_fails cm) envs ->
  CameraConfig.auto_reconnect (config_ cm) = true ->
  reconnect_attempts_ cm = 0 ->
  0 < CameraConfig.max_reconnect_attempts (config_ cm) ->
  0 <= CameraStats.reconnect_count (stats_ cm) ->
  CameraStats.reconnect_count (stats_ cm) + Z.of_nat (length envs) < 2 ^ 63 ->
  exists s,
    call (CaptureLoop envs (S fuel)) cm = Returns false s
    /\ Forall (fun e => ~ reports_error e) (events s)
    /\ last_error_ (self s) = last_error_ cm
    /\ (envs <> [] -> state_ (self s) = CAPTURING)
    /\ reconnect_attempts_ (self s) = 0
    /\ CameraStats.reconnect_count (stats_ (self s))
       = CameraStats.reconnect_count (stats_ cm) + Z.of_nat (length envs)
    /\ CameraStats.frames_captured (stats_ (self s))
       = CameraStats.frames_captured (stats_ cm).
Proof.
  intros Hstop Hall Hauto Hatt Hmax Hrc Hn.
  destruct (CaptureLoop_reconnects_from fuel envs
              {| self := cm; holds_config_mutex := false; events := [] |}
              Hstop Hall Hauto Hatt Hmax Hrc Hn) as [evs [Hrun Hev]].
  unfold call. rewrite Hrun. eexists. split; [reflexivity|]. simpl.
  destruct (reconnected_iter (length envs) cm Hatt) as (H1 & H2 & H3 & H4).
  simpl in H1, H2, H3, H4. inversion H4.
  repeat split; try assumption.
  intros Hne. apply H3. destruct envs; [contradiction|discriminate].
Qed.

Lemma CaptureLoop_reconnects_for_ever_witness :
  exists s,
    call (CaptureLoop [env_reading Frame.empty; env_reading Frame.empty;
                       env_reading Frame.empty; env_reading Frame.empty] 1)
         reconnecting_engine
    = Returns false s
    /\ state_ (self s) = CAPTURING
    /\ reconnect_attempts_ (self s) = 0
    /\ CameraStats.reconnect_count (stats_ (self s)) = 4
    /\ last_error_ (self s) = "".
Proof.
  destruct (CaptureLoop_reconnects_for_ever 0
              [env_reading Frame.empty; env_reading Frame.empty;
               env_reading Frame.empty; env_reading Frame.empty]
              reconnecting_engine) as [s (H1 & _ & H3 & H4 & H5 & H6 & _)].
  - reflexivity.
  - repeat constructor; exists Frame.empty; reflexivity.
  - reflexivity.
  - reflexivity.
  - simpl. lia.
  - simpl. lia.
  - simpl. lia.
  - exists s. split; [exact H1|]. split; [apply H4; discriminate|].
    split; [exact H5|]. split; [exact H6|exact H3].
Defined.

(** A turn in which the capture throws. *)
Lemma CaptureLoop_body_throws (env : Env) (fuel : nat) (what : string)
    (s : St) :
  capture_switch env (camera_type_ (self s)) = inl what ->
  holds_config_mutex s = false ->
  let state' :=
    if CameraConfig.auto_reconnect (config_ (self s))
    then DISCONNECTED else ERROR in
  CaptureLoop_body env fuel s
  = Returns true
      {| self := set_state state'
                   (set_last_error ("Capture exception: " ++ what) (self s));
         holds_config_mutex := false;
         events := events s
                   ++ [EvError ("Capture exception: " ++ what);
                       EvStateChanged (state_ (self s)) state'] |}.
Proof.
  intros Hsw Hholds state'. subst state'.
  destruct s as [cm holds evs]. simpl in *. subst holds.
  unfold CaptureLoop_body, CaptureFrame.
  cbv [bind get self]. rewrite Hsw.
  cbv [ret bind HandleCaptureError SetError with_config_mutex
       holds_config_mutex modify emit get self events].
  destruct cm as [url ty cfg st stats err th stop cap cb att]. simpl.
  destruct (CameraConfig.auto_reconnect cfg);
    cbv [SetState bind get emit modify self holds_config_mutex events];
    simpl; rewrite <- ?app_assoc; reflexivity.
Qed.

(** X7.  An exception thrown by the capture of a turn does not end the
    loop: the turn records [Capture exception: ] followed by the
    message as the last error, sets the state to [DISCONNECTED] (with
    automatic reconnection) or [ERROR] (without), and skips the pacing
    sleep.  The state is not reset by what follows: when the next turn
    delivers a valid frame, the frame is counted and the worker goes on,
    with the state still [DISCONNECTED] or [ERROR]. *)
Theorem CaptureLoop_exception (env : Env) (fuel : nat)
    (cm : CameraManager) (what : string) :
  capture_switch env (camera_type_ cm) = inl what ->
  let state' :=
    if CameraConfig.auto_reconnect (config_ cm) then DISCONNECTED else ERROR in
  call (CaptureLoop_body env fuel) cm
  = Returns true
      {| self := set_state state'
                   (set_last_error ("Capture exception: " ++ what) cm);
         holds_config_mutex := false;
         events := [EvError ("Capture exception: " ++ what);
                    EvStateChanged (state_ cm) state'] |}
  /\ forall env' frame,
       delivers cm env' frame ->
       should_stop_ cm = false ->
       0 <= CameraStats.frames_captured (stats_ cm) < 2 ^ 63 - 1 ->
       0 <= CameraStats.bytes_received (stats_ cm)
            + Z.of_nat (length (Frame.data frame)) < 2 ^ 63 ->
       exists s,
         call (CaptureLoop [env; env'] fuel) cm = Returns false s
         /\ state_ (self s) = state'
         /\ CameraStats.frames_captured (stats_ (self s))
            = CameraStats.frames_captured (stats_ cm) + 1.
Proof.
  intros Hsw state'.
  split; [exact (CaptureLoop_body_throws env fuel what
                   (mkSt cm false []) Hsw eq_refl)|].
  intros env' frame Hd Hstop Hfc Hbr.
  unfold call.
  rewrite CaptureLoop_cons by exact Hstop.
  rewrite (CaptureLoop_body_throws env fuel what (mkSt cm false []) Hsw
             eq_refl).
  rewrite CaptureLoop_cons by (destruct cm; exact Hstop).
  rewrite (CaptureLoop_body_delivers env' fuel frame);
    [| destruct cm; exact Hd | destruct cm; simpl in *; lia
     | destruct cm; simpl in *; lia ].
  rewrite CaptureLoop_nil by (destruct cm; exact Hstop).
  eexists. split; [reflexivity|].
  destruct cm; split; reflexivity.
Qed.

Lemma CaptureLoop_exception_witness :
  call (CaptureLoop_body (env_throwing "device lost") 1) reconnecting_engine
  = Returns true
      {| self := set_state DISCONNECTED
                   (set_last_error "Capture exception: device lost"
                      reconnecting_engine);
         holds_config_mutex := false;
         events := [EvError "Capture exception: device lost";
                    EvStateChanged CAPTURING DISCONNECTED] |}.
Proof.
  apply (CaptureLoop_exception (env_throwing "device lost") 1
           reconnecting_engine "device lost").
  reflexivity.
Defined.

(** A turn in which the capture fails and reconnection is off. *)
Lemma CaptureLoop_body_gives_up (env : Env) (fuel : nat) (s : St) :
  capture_fails (self s) env ->
  CameraConfig.auto_reconnect (config_ (self s)) = false ->
  holds_config_mutex s = false ->
  CaptureLoop_body env fuel s
  = Returns false
      {| self := set_state ERROR
                   (set_last_error "Capture failed and reconnect disabled"
                      (self s));
         holds_config_mutex := false;
         events := events s
                   ++ [EvError "Capture failed and reconnect disabled";
                       EvStateChanged (state_ (self s)) ERROR] |}.
Proof.
  intros [frame Hsw] Hauto Hholds.
  destruct s as [cm holds evs]. simpl in *. subst holds.
  unfold CaptureLoop_body, CaptureFrame.
  cbv [bind get self]. rewrite Hsw.
  cbv [andb ret bind get self]. rewrite Hauto.
  cbv [andb ret bind SetError with_config_mutex
       holds_config_mutex modify emit get self events SetState].
  destruct cm as [url ty cfg st stats err th stop cap cb att]. simpl.
  rewrite <- ?app_assoc; reflexivity.
Qed.

(** X8.  A worker that leaves its loop by itself (a failed capture with
    automatic reconnection off) clears [is_capturing_] but stays
    joinable.  [StopCapture] then does nothing, so the thread is never
    joined; and after [Cleanup] and [Initialize], which both succeed,
    [StartCapture] starts a new thread and replaces [capture_thread_],
    whose old thread is still joinable: its destruction calls
    [std::terminate]. *)
Theorem restart_after_worker_exit (env : Env) (fuel : nat)
    (config : CameraConfig.t) (cm : CameraManager) :
  is_capturing_ cm = true ->
  capture_thread_ cm = true ->
  should_stop_ cm = false ->
  capture_fails cm env ->
  CameraConfig.auto_reconnect (config_ cm) = false ->
  valid_config config ->
  backend_succeeds env cm ->
  thread_create env = ThreadStarted ->
  exists s1 s2,
    call (CaptureLoop [env] fuel) cm = Returns true s1
    /\ state_ (self s1) = ERROR
    /\ last_error_ (self s1) = "Capture failed and reconnect disabled"
    /\ is_capturing_ (self s1) = false
    /\ capture_thread_ (self s1) = true
    /\ call (StopCapture false) (self s1)
       = Returns true {| self := self s1; holds_config_mutex := false;
                         events := [] |}
    /\ call (Cleanup env false ;;; Initialize env config ;;; StartCapture env)
            (self s1)
       = Terminated s2
    /\ events s2 = [EvStateChanged ERROR UNINITIALIZED;
                    EvStateChanged UNINITIALIZED INITIALIZING;
                    EvStateChanged INITIALIZING READY;
                    EvThreadStarted].
Proof.
  intros Hcap Hth Hstop Hfail Hauto Hcfg Hback Htc.
  unfold call at 1.
  rewrite CaptureLoop_cons by exact Hstop.
  rewrite (CaptureLoop_body_gives_up env fuel (mkSt cm false []) Hfail Hauto
             eq_refl).
  destruct cm as [url ty cfg st stats err th stop cap cb att].
  simpl in Hcap, Hth, Hstop, Hauto. subst cap th stop.
  eexists. eexists. split; [reflexivity|]. simpl self.
  repeat (split; [reflexivity|]).
  unfold call, bind.
  match goal with
  | |- context [Cleanup env false ?s] =>
      let r := eval vm_compute in (Cleanup env false s) in
      replace (Cleanup env false s) with r by (vm_compute; reflexivity)
  end.
  rewrite Initialize_fresh; [|exact Hcfg|exact Hback|reflexivity|reflexivity].
  unfold StartCapture. cbv [bind with_config_mutex get self holds_config_mutex].
  simpl. rewrite Htc. simpl.
  split; reflexivity.
Qed.

Lemma restart_after_worker_exit_witness :
  exists s1 s2,
    call (CaptureLoop [env_reading Frame.empty] 1) webcam_engine
    = Returns true s1
    /\ is_capturing_ (self s1) = false
    /\ capture_thread_ (self s1) = true
    /\ call (Cleanup (env_reading Frame.empty) false ;;;
             Initialize (env_reading Frame.empty) CameraConfig.default ;;;
             StartCapture (env_reading Frame.empty)) (self s1)
       = Terminated s2.
Proof.
  destruct (restart_after_worker_exit (env_reading Frame.empty) 1
              CameraConfig.default webcam_engine)
    as [s1 [s2 (H1 & _ & _ & H4 & H5 & _ & H7 & _)]].
  - reflexivity.
  - reflexivity.
  - reflexivity.
  - exists Frame.empty. reflexivity.
  - reflexivity.
  - unfold valid_config, INT_MAX. simpl. lia.
  - reflexivity.
  - reflexivity.
  - exists s1, s2. repeat split; assumption.
Defined.

(** ** Capture engine: what no method changes *)

(** The wiring is kept by the primitives of the engine's monad, and by
    every method put together from them. *)
Lemma keeps_ret {A} (a : A) : keeps_wiring (ret a).
Proof. intros s a' s' H. inversion H. reflexivity. Qed.

Lemma keeps_bind {A B} (m : M A) (k : A -> M B) :
  keeps_wiring m -> (forall a, keeps_wiring (k a)) -> keeps_wiring (bind m k).
Proof.
  intros Hm Hk s b s' H. unfold bind in H.
  destruct (m s) as [a s1| | |] eqn:E; try discriminate H.
  rewrite (Hk a _ _ _ H). exact (Hm _ _ _ E).
Qed.

Lemma keeps_get : keeps_wiring get.
Proof. intros s a s' H. inversion H. reflexivity. Qed.

Lemma keeps_emit (e : Event) : keeps_wiring (emit e).
Proof. intros s a s' H. inversion H. reflexivity. Qed.

Lemma keeps_modify (f : CameraManager -> CameraManager) :
  (forall cm, wiring (f cm) = wiring cm) -> keeps_wiring (modify f).
Proof. intros Hf s a s' H. inversion H. simpl. apply Hf. Qed.

Lemma keeps_with_config_mutex {A} (env : Env) (body : M A) :
  keeps_wiring body -> keeps_wiring (with_config_mutex env body).
Proof.
  intros Hb s a s' H. unfold with_config_mutex in H.
  destruct (holds_config_mutex s).
  - destruct (relock env); [discriminate H|]. exact (Hb _ _ _ H).
  - match type of H with
    | match body ?s0 with _ => _ end = _ =>
        destruct (body s0) as [a0 s1| | |] eqn:E; try discriminate H;
          inversion H; subst; exact (Hb _ _ _ E)
    end.
Qed.

Lemma keeps_no_return {A} (f : St -> Outcome A) :
  (forall s a s', f s <> Returns a s') -> keeps_wiring f.
Proof. intros Hf s a s' H. exfalso. exact (Hf _ _ _ H). Qed.

#[export] Hint Resolve keeps_ret keeps_get keeps_emit keeps_bind
  keeps_with_config_mutex : wiring.
#[export] Hint Extern 1 (keeps_wiring (modify _)) =>
  apply keeps_modify; intros []; reflexivity : wiring.
#[export] Hint Extern 1 (keeps_wiring (fun _ => Terminated _)) =>
  apply keeps_no_return; discriminate : wiring.
#[export] Hint Extern 1 (keeps_wiring (fun _ => OutOfFuel)) =>
  apply keeps_no_return; discriminate : wiring.
#[export] Hint Extern 2 (keeps_wiring (match ?x with _ => _ end)) =>
  destruct x : wiring.

Lemma keeps_SetState (st : CameraState) : keeps_wiring (SetState st).
Proof. unfold SetState. auto 10 with wiring. Qed.

Lemma keeps_SetError (env : Env) (error : string) :
  keeps_wiring (SetError env error).
Proof. unfold SetError. auto 10 with wiring. Qed.

#[export] Hint Resolve keeps_SetState keeps_SetError : wiring.

Lemma keeps_Initialize (env : Env) (config : CameraConfig.t) :
  keeps_wiring (Initialize env config).
Proof.
  unfold Initialize, InitializeBackend, InitializeTestPattern.
  auto 30 with wiring.
Qed.

Lemma keeps_StartCapture (env : Env) : keeps_wiring (StartCapture env).
Proof. unfold StartCapture. auto 30 with wiring. Qed.

Lemma keeps_StopCapture (b : bool) : keeps_wiring (StopCapture b).
Proof. unfold StopCapture. auto 30 with wiring. Qed.

Lemma keeps_AttemptReconnect (env : Env) (fuel : nat) :
  keeps_wiring (AttemptReconnect env fuel).
Proof.
  induction fuel as [|fuel IH]; simpl.
  - auto with wiring.
  - unfold InitializeCapture. auto 40 with wiring.
Qed.

#[export] Hint Resolve keeps_AttemptReconnect : wiring.

Lemma keeps_CaptureLoop_body (env : Env) (fuel : nat) :
  keeps_wiring (CaptureLoop_body env fuel).
Proof.
  unfold CaptureLoop_body, CaptureFrame, HandleCaptureError, UpdateStats,
    NotifyFrameAvailable.
  auto 40 with wiring.
Qed.

Lemma keeps_CaptureLoop (fuel : nat) (envs : list Env) :
  keeps_wiring (CaptureLoop envs fuel).
Proof.
  induction envs as [|e envs IH]; cbn [CaptureLoop].
  - auto 20 with wiring.
  - pose proof (keeps_CaptureLoop_body e fuel). auto 20 with wiring.
Qed.

(** X9.  No method of the engine's life cycle changes where its frames
    come from or go to: whenever [Initialize], [StartCapture],
    [StopCapture], [SetConfig], [AttemptReconnect], a turn of the
    capture loop or the whole loop returns, the URL, the camera type
    detected from it at construction and the frame callback are the
    ones from before the call. *)
Theorem engine_keeps_wiring (env : Env) (config : CameraConfig.t)
    (fuel : nat) (from_capture_thread : bool) :
  keeps_wiring (Initialize env config)
  /\ keeps_wiring (StartCapture env)
  /\ keeps_wiring (StopCapture from_capture_thread)
  /\ keeps_wiring (SetConfig env config)
  /\ keeps_wiring (AttemptReconnect env fuel)
  /\ keeps_wiring (CaptureLoop_body env fuel)
  /\ (forall envs, keeps_wiring (CaptureLoop envs fuel)).
Proof.
  split; [apply keeps_Initialize|]. split; [apply keeps_StartCapture|].
  split; [apply keeps_StopCapture|].
  split; [unfold SetConfig; auto with wiring|].
  split; [apply keeps_AttemptReconnect|].
  split; [apply keeps_CaptureLoop_body|].
  intros envs. apply keeps_CaptureLoop.
Qed.

(** ** Capture engine: webcams and the factory *)

(** A loop that pushes the elements that pass a test is a filter. *)
Lemma fold_left_push_if {A B} (p : B -> bool) (f : A -> B) (l : list A) :
  forall acc : list B,
    fold_left (fun acc x => if p (f x) then (acc ++ [f x])%list else acc) l acc
    = (acc ++ List.filter p (List.map f l))%list.
Proof.
  induction l as [|x l IH]; intros acc; simpl.
  - rewrite app_nil_r. reflexivity.
  - rewrite IH. destruct (p (f x)); [|reflexivity].
    rewrite <- app_assoc. reflexivity.
Qed.

Lemma GetAvailableWebcams_filter (fs : FileSystem) :
  GetAvailableWebcams fs
  = List.filter (fs_exists fs)
      ["/dev/video0"; "/dev/video1"; "/dev/video2"; "/dev/video3";
       "/dev/video4"; "/dev/video5"; "/dev/video6"; "/dev/video7";
       "/dev/video8"; "/dev/video9"].
Proof.
  unfold GetAvailableWebcams.
  rewrite (fold_left_push_if (fs_exists fs)
             (fun i : Z => "/dev/video" ++ pretty i)).
  reflexivity.
Qed.

(** X10.  [GetAvailableWebcams] lists exactly the paths [/dev/video0] to
    [/dev/video9] that exist, each once, so at most ten; every path it
    lists is classified as [WEBCAM] and is a valid camera URL. *)
Theorem GetAvailableWebcams_devices (fs : FileSystem) :
  (forall device,
     In device (GetAvailableWebcams fs)
     <-> (exists i : Z,
            0 <= i < 10 /\ device = "/dev/video" ++ pretty i
            /\ fs_exists fs device = true))
  /\ (forall device,
        In device (GetAvailableWebcams fs) ->
        DetectCameraType fs device = WEBCAM
        /\ IsValidCameraUrl fs device = true)
  /\ List.NoDup (GetAvailableWebcams fs)
  /\ (length (GetAvailableWebcams fs) <= 10)%nat.
Proof.
  rewrite GetAvailableWebcams_filter.
  split; [|split; [|split]].
  - intros device. rewrite filter_In. split.
    + intros [Hin Hex]. simpl in Hin.
      destruct Hin as [<-|[<-|[<-|[<-|[<-|[<-|[<-|[<-|[<-|[<-|[]]]]]]]]]]];
        [exists 0|exists 1|exists 2|exists 3|exists 4|exists 5|exists 6
        |exists 7|exists 8|exists 9];
        (split; [lia|split; [reflexivity|exact Hex]]).
    + intros [i [Hi [-> Hex]]]. split; [|exact Hex].
      assert (i = 0 \/ i = 1 \/ i = 2 \/ i = 3 \/ i = 4 \/ i = 5 \/ i = 6
              \/ i = 7 \/ i = 8 \/ i = 9) as Hcases by lia.
      repeat (destruct Hcases as [->|Hcases]; [vm_compute; tauto|]).
      subst i. vm_compute. tauto.
  - intros device Hin. apply filter_In in Hin as [Hin _]. simpl in Hin.
    repeat (destruct Hin as [<-|Hin]; [split; reflexivity|]).
    contradiction.
  - apply List.NoDup_filter.
    repeat (constructor; [simpl; intuition discriminate|]). constructor.
  - etransitivity; [apply List.filter_length_le|]. simpl. lia.
Qed.




(** ** Frame processor: detectors and totals *)

(** Removing detectors by name, seen on the list of names. *)
Lemma map_filter_names (n : string) (ds : list Detector.t) :
  List.map Detector.name
    (List.filter (fun d => negb (String.eqb (Detector.name d) n)) ds)
  = List.filter (fun m => negb (String.eqb m n)) (List.map Detector.name ds).
Proof.
  induction ds as [|d ds IH]; simpl; [reflexivity|].
  destruct (negb (String.eqb (Detector.name d) n)); simpl; congruence.
Qed.

Lemma filter_absent (n : string) (names : list string) :
  ~ In n names ->
  List.filter (fun m => negb (String.eqb m n)) names = names.
Proof.
  induction names as [|m names IH]; simpl; [reflexivity|].
  intros Hn. destruct (String.eqb_spec m n) as [->|Hne]; simpl.
  - exfalso. apply Hn. left. reflexivity.
  - f_equal. apply IH. intros H. apply Hn. right. exact H.
Qed.

(** X12.  [AddDetector] appends the name of a detector whose
    [Initialize] succeeds and is without effect otherwise;
    [RemoveDetector] removes every detector of the given name and keeps
    the others in their order; so adding a detector under a name not yet
    in use and removing that name again gives back the list of names. *)
Theorem detector_names (p : FrameProcessor.t) (d : Detector.t) (n : string) :
  FrameProcessor.GetDetectorNames (FrameProcessor.AddDetector d p)
  = (if fst (Detector.initialize d)
     then FrameProcessor.GetDetectorNames p
            ++ [Detector.name (snd (Detector.initialize d))]
     else FrameProcessor.GetDetectorNames p)%list
  /\ FrameProcessor.GetDetectorNames (FrameProcessor.RemoveDetector n p)
     = List.filter (fun m => negb (String.eqb m n))
                   (FrameProcessor.GetDetectorNames p)
  /\ ~ In n (FrameProcessor.GetDetectorNames
               (FrameProcessor.RemoveDetector n p))
  /\ (forall m, m <> n ->
        In m (FrameProcessor.GetDetectorNames p) ->
        In m (FrameProcessor.GetDetectorNames
                (FrameProcessor.RemoveDetector n p)))
  /\ (~ In (Detector.name (snd (Detector.initialize d)))
           (FrameProcessor.GetDetectorNames p) ->
      FrameProcessor.GetDetectorNames
        (FrameProcessor.RemoveDetector
           (Detector.name (snd (Detector.initialize d)))
           (FrameProcessor.AddDetector d p))
      = FrameProcessor.GetDetectorNames p).
Proof.
  assert (Hadd :
    FrameProcessor.GetDetectorNames (FrameProcessor.AddDetector d p)
    = (if fst (Detector.initialize d)
       then FrameProcessor.GetDetectorNames p
              ++ [Detector.name (snd (Detector.initialize d))]
       else FrameProcessor.GetDetectorNames p)%list).
  { unfold FrameProcessor.AddDetector, FrameProcessor.GetDetectorNames.
    destruct (Detector.initialize d) as [[|] d']; simpl; [|reflexivity].
    rewrite map_app. reflexivity. }
  assert (Hrem : forall n q,
    FrameProcessor.GetDetectorNames (FrameProcessor.RemoveDetector n q)
    = List.filter (fun m => negb (String.eqb m n))
                  (FrameProcessor.GetDetectorNames q)).
  { clear n. intros n q. unfold FrameProcessor.RemoveDetector,
                FrameProcessor.GetDetectorNames. simpl.
    apply map_filter_names. }
  split; [exact Hadd|]. split; [apply Hrem|]. split; [|split].
  - rewrite Hrem. intros H. apply filter_In in H as [_ H].
    rewrite String.eqb_refl in H. discriminate H.
  - intros m Hne Hin. rewrite Hrem. apply filter_In. split; [exact Hin|].
    destruct (String.eqb_spec m n); [contradiction|reflexivity].
  - intros Hfresh. rewrite Hrem, Hadd.
    destruct (Detector.initialize d) as [[|] d']; simpl in *.
    + rewrite List.filter_app. simpl. rewrite String.eqb_refl. simpl.
      rewrite app_nil_r. apply filter_absent. exact Hfresh.
    + apply filter_absent. exact Hfresh.
Qed.

(** X13.  [FrameProcessor::Initialize] always returns [true], and a
    second call changes nothing.  The first call on a processor appends
    the default motion detector to its detectors; after [Cleanup] the
    motion detector is the only one.  On an initialised processor from
    which the motion detector was removed, [Initialize] does not bring
    it back.  The totals are not touched. *)
Theorem Initialize_once (p : FrameProcessor.t) :
  fst (FrameProcessor.Initialize p) = true
  /\ FrameProcessor.initialized_ (snd (FrameProcessor.Initialize p)) = true
  /\ FrameProcessor.Initialize (snd (FrameProcessor.Initialize p))
     = (true, snd (FrameProcessor.Initialize p))
  /\ FrameProcessor.GetDetectorNames (snd (FrameProcessor.Initialize p))
     = (if FrameProcessor.initialized_ p
        then FrameProcessor.GetDetectorNames p
        else FrameProcessor.GetDetectorNames p ++ ["BasicMotionDetector"])%list
  /\ FrameProcessor.GetDetectorNames
       (snd (FrameProcessor.Initialize (FrameProcessor.Cleanup p)))
     = ["BasicMotionDetector"]
  /\ (FrameProcessor.initialized_ p = true ->
      FrameProcessor.GetDetectorNames
        (snd (FrameProcessor.Initialize
                (FrameProcessor.RemoveDetector "BasicMotionDetector" p)))
      = List.filter (fun m => negb (String.eqb m "BasicMotionDetector"))
                    (FrameProcessor.GetDetectorNames p))
  /\ totals (snd (FrameProcessor.Initialize p)) = totals p.
Proof.
  unfold FrameProcessor.Initialize, FrameProcessor.GetDetectorNames,
    FrameProcessor.Cleanup, FrameProcessor.RemoveDetector, totals.
  destruct p as [ds init n1 n2 n3 area cap]. simpl.
  destruct init; simpl; repeat split; try reflexivity;
    try (rewrite map_app; reflexivity);
    try discriminate.
  intros _. apply map_filter_names.
Qed.

(** X14.  [BasicMotionDetector::Detect] does not throw and returns at
    most one detection: none when the detector is not initialised or
    has no previous frame, one whenever the size of the frame's data
    differs from that of the previous frame.  An initialised detector
    remembers the frame as the previous one; the counter goes up
    exactly when a detection is made.  A detection has the type
    [motion], an identifier made of the clock and the counter, the
    detector's name in its metadata and, for a counter that is not
    negative, a box with [x] in 100..499, [y] in 100..299, a width in
    80..119 and a height in 60..89. *)
Theorem Detect_motion (env : DetectEnv) (frame : Frame.t)
    (d : BasicMotionDetector.t) :
  exists detections,
    fst (BasicMotionDetector.Detect env frame d) = Detected detections
    /\ (length detections <= 1)%nat
    /\ (BasicMotionDetector.initialized_ d = false
        \/ Frame.data (BasicMotionDetector.previous_frame_ d) = [] ->
        detections = [])
    /\ (BasicMotionDetector.initialized_ d = true ->
        Frame.data (BasicMotionDetector.previous_frame_ d) <> [] ->
        length (Frame.data frame)
        <> length (Frame.data (BasicMotionDetector.previous_frame_ d)) ->
        length detections = 1%nat)
    /\ (BasicMotionDetector.initialized_ d = true ->
        BasicMotionDetector.previous_frame_
          (snd (BasicMotionDetector.Detect env frame d)) = frame)
    /\ BasicMotionDetector.detection_counter_
         (snd (BasicMotionDetector.Detect env frame d))
       = (match detections with
          | [] => BasicMotionDetector.detection_counter_ d
          | _ :: _ => wrap32 (BasicMotionDetector.detection_counter_ d + 1)
          end)
    /\ forall detection,
         In detection detections ->
         Detection.type detection = "motion"
         /\ Detection.id detection
            = "motion_" ++ pretty (system_now_us env) ++ "_"
              ++ pretty (BasicMotionDetector.detection_counter_ d)
         /\ Detection.metadata detection !! "detector"
            = Some "BasicMotionDetector"
         /\ (0 <= BasicMotionDetector.detection_counter_ d ->
             in_motion_range (Detection.bbox detection)).
Proof.
  assert (Hbox : forall n, 0 <= n ->
            in_motion_range
              (BoundingBox.mk (100 + Z.rem n 400)
                 (100 + Z.rem (Z.quot n 10) 200)
                 (80 + Z.rem n 40) (60 + Z.rem n 30))).
  { intros n Hn. unfold in_motion_range. simpl.
    pose proof (Z.rem_bound_pos n 400 Hn ltac:(lia)).
    pose proof (Z.rem_bound_pos n 40 Hn ltac:(lia)).
    pose proof (Z.rem_bound_pos n 30 Hn ltac:(lia)).
    pose proof (Z.rem_bound_pos (Z.quot n 10) 200
                  ltac:(apply Z.quot_pos; lia) ltac:(lia)).
    lia. }
  unfold BasicMotionDetector.Detect.
  destruct d as [init prev n]. simpl.
  destruct init; simpl.
  2:{ exists []. repeat split; try reflexivity; try (simpl; lia);
        try discriminate; try contradiction. }
  destruct (Frame.data prev) as [|b data] eqn:Hprev; simpl.
  { exists []. repeat split; try reflexivity; try (simpl; lia);
      try contradiction. }
  unfold BasicMotionDetector.HasSignificantChange. rewrite Hprev.
  destruct (negb (length (Frame.data frame) =? length (b :: data))%nat)
    eqn:Hlen; simpl.
  - eexists. split; [reflexivity|].
    split; [simpl; lia|]. split; [intros [H|H]; discriminate H|].
    split; [reflexivity|]. split; [reflexivity|]. split; [reflexivity|].
    intros detection [<-|[]].
    split; [reflexivity|]. split; [reflexivity|]. split; [reflexivity|].
    apply Hbox.
  - apply negb_false_iff, Nat.eqb_eq in Hlen.
    destruct (draw_below_threshold env); simpl.
    + eexists. split; [reflexivity|].
      split; [simpl; lia|]. split; [intros [H|H]; discriminate H|].
      split; [reflexivity|]. split; [reflexivity|]. split; [reflexivity|].
      intros detection [<-|[]].
      split; [reflexivity|]. split; [reflexivity|]. split; [reflexivity|].
      apply Hbox.
    + exists []. repeat split; try reflexivity; try (simpl; lia);
        try contradiction.
Qed.

(** A frame that the processor accepts has data. *)
Lemma ValidateFrame_nonempty (frame : Frame.t) :
  FrameProcessor.ValidateFrame frame = true -> Frame.data frame <> [].
Proof.
  unfold FrameProcessor.ValidateFrame.
  destruct (Frame.data frame); [discriminate|]. intros _. discriminate.
Qed.

(** X15.  A processor fresh from [Initialize] finds nothing in its first
    valid frame and, when the second valid frame has another size than
    the first, exactly one detection in the second: of type [motion],
    with the box (100, 100, 80, 60) and the clock of the call as its
    time.  The totals are then 2 frames and 1 detection, and the sum of
    the two processing times. *)
Theorem ProcessFrame_motion (env1 env2 : ProcessEnv) (frame1 frame2 : Frame.t) :
  FrameProcessor.ValidateFrame frame1 = true ->
  FrameProcessor.ValidateFrame frame2 = true ->
  length (Frame.data frame1) <> length (Frame.data frame2) ->
  let p0 := snd (FrameProcessor.Initialize FrameProcessor.new) in
  let r1 := FrameProcessor.ProcessFrame env1 frame1 p0 in
  let r2 := FrameProcessor.ProcessFrame env2 frame2 (snd r1) in
  ProcessingResult.success (fst r1) = true
  /\ ProcessingResult.detections (fst r1) = []
  /\ ProcessingResult.success (fst r2) = true
  /\ (exists detection,
        ProcessingResult.detections (fst r2) = [detection]
        /\ Detection.type detection = "motion"
        /\ Detection.bbox detection = BoundingBox.mk 100 100 80 60
        /\ Detection.timestamp detection
           = system_now_ms (detect_env env2 0%nat))
  /\ FrameProcessor.GetTotalFramesProcessed (snd r2) = 2
  /\ FrameProcessor.GetTotalDetections (snd r2) = 1
  /\ FrameProcessor.total_processing_time_ (snd r2)
     = wrap64 (wrap64 (elapsed_ms env1) + elapsed_ms env2).
Proof.
  intros Hv1 Hv2 Hlen p0 r1 r2.
  pose proof (ValidateFrame_nonempty _ Hv1) as Hne1.
  assert (H1 : r1
               = (ProcessingResult.mk [] (elapsed_ms env1) true "",
                  FrameProcessor.mk
                    [BasicMotionDetector.as_detector
                       (BasicMotionDetector.mk true frame1 0)]
                    true 1 0 (wrap64 (elapsed_ms env1))
                    FrameProcessorConstants.DEFAULT_MIN_AREA
                    FrameProcessorConstants.DEFAULT_MAX_DETECTIONS)).
  { subst r1 p0. unfold FrameProcessor.ProcessFrame. simpl. rewrite Hv1.
    reflexivity. }
  subst r2. rewrite H1. clear H1 r1 p0. simpl fst. simpl snd.
  unfold FrameProcessor.ProcessFrame. simpl. rewrite Hv2. simpl.
  unfold Detector.detect. simpl.
  unfold BasicMotionDetector.Detect. simpl.
  destruct (Frame.data frame1) as [|b data] eqn:Hd1; [congruence|].
  unfold BasicMotionDetector.HasSignificantChange. simpl. rewrite Hd1.
  replace (length (Frame.data frame2) =? length (b :: data))%nat with false
    by (symmetry; apply Nat.eqb_neq; congruence).
  simpl.
  repeat split; try reflexivity.
  eexists. repeat split; reflexivity.
Qed.

Lemma ProcessFrame_motion_witness :
  ProcessingResult.detections
    (fst (FrameProcessor.ProcessFrame process_env gray_frame ready_processor))
  = []
  /\ exists detection,
       ProcessingResult.detections
         (fst (FrameProcessor.ProcessFrame process_env gray_frame'
                 (snd (FrameProcessor.ProcessFrame process_env gray_frame
                         ready_processor))))
       = [detection]
       /\ Detection.type detection = "motion".
Proof.
  destruct (ProcessFrame_motion process_env process_env gray_frame gray_frame')
    as (_ & H2 & _ & [detection (H4 & H5 & _)] & _).
  - reflexivity.
  - reflexivity.
  - unfold gray_frame, gray_frame'. cbn [Frame.data].
    rewrite !repeat_length. lia.
  - split; [exact H2|]. exists detection. split; assumption.
Defined.




(** ** Frame utilities: the order of the channels *)

(** The counters of a loop, unfolded by one turn. *)
Lemma seqZ_S (m : Z) (n : nat) :
  seqZ m (Z.of_nat (S n)) = m :: seqZ (m + 1) (Z.of_nat n).
Proof.
  rewrite seqZ_cons by lia. f_equal. f_equal; lia.
Qed.

(** A store at the position behind [pre]. *)
Lemma store_app (pre post : list Byte.byte) (old v : Byte.byte) (idx : Z) :
  idx = Z.of_nat (length pre) ->
  store idx v (pre ++ old :: post)%list = Value (pre ++ v :: post)%list.
Proof.
  intros ->. unfold store.
  rewrite length_app. simpl length.
  replace ((0 <=? Z.of_nat (length pre))
           && (Z.of_nat (length pre)
               <? Z.of_nat (length pre + S (length post))))
    with true by (symmetry; apply andb_true_iff; split;
                  [apply Z.leb_le|apply Z.ltb_lt]; lia).
  rewrite Nat2Z.id.
  rewrite insert_app_r_alt by lia. rewrite Nat.sub_diag. reflexivity.
Qed.

(** A load at the position behind [pre], and one past the end. *)
Lemma load_app (pre post : list Byte.byte) (v : Byte.byte) (idx : Z) :
  idx = Z.of_nat (length pre) ->
  load idx (pre ++ v :: post)%list = Value v.
Proof.
  intros ->. unfold load.
  replace (0 <=? Z.of_nat (length pre)) with true
    by (symmetry; apply Z.leb_le; lia).
  rewrite Nat2Z.id, lookup_app_r by lia.
  rewrite Nat.sub_diag. reflexivity.
Qed.

Lemma load_past (data : list Byte.byte) (idx : Z) :
  Z.of_nat (length data) <= idx -> load idx data = UndefinedBehaviour.
Proof.
  intros H. unfold load.
  destruct (0 <=? idx); [|reflexivity].
  rewrite lookup_ge_None_2 by lia. reflexivity.
Qed.

(** [std::swap] on the first and the third byte of the pixel at [i]. *)
Lemma swap_app (pre post : list Byte.byte) (a b c : Byte.byte) (i : Z) :
  i = Z.of_nat (length pre) ->
  FrameUtils.swap i (i + 2) (pre ++ a :: b :: c :: post)%list
  = Value (pre ++ c :: b :: a :: post)%list.
Proof.
  intros Hi. unfold FrameUtils.swap.
  rewrite (load_app pre _ a i Hi). cbn [mbind Result_bind].
  change (pre ++ a :: b :: c :: post)%list
    with (pre ++ [a; b] ++ c :: post)%list.
  rewrite app_assoc.
  rewrite (load_app (pre ++ [a; b]) _ c (i + 2))
    by (rewrite length_app; simpl; lia).
  cbn [mbind Result_bind].
  rewrite <- app_assoc. simpl app.
  rewrite (store_app pre _ a c i Hi). cbn [mbind Result_bind].
  change (pre ++ c :: b :: c :: post)%list
    with (pre ++ [c; b] ++ c :: post)%list.
  rewrite app_assoc.
  rewrite (store_app (pre ++ [c; b]) _ c a (i + 2))
    by (rewrite length_app; simpl; lia).
  rewrite <- app_assoc. reflexivity.
Qed.

(** Exchanging the outer bytes of each pixel keeps the size, moves the
    bytes as it says, and undoes itself. *)
Lemma exchanged_length (data : list Byte.byte) :
  length (exchanged data) = length data.
Proof.
  assert (H : forall n data, (length data <= n)%nat ->
                length (exchanged data) = length data).
  { clear data. induction n as [|n IH]; intros data Hn.
    - destruct data; [reflexivity|simpl in Hn; lia].
    - destruct data as [|b0 [|b1 [|b2 rest]]]; try reflexivity.
      simpl. rewrite IH; [reflexivity|]. simpl in Hn. lia. }
  exact (H _ _ (Nat.le_refl _)).
Qed.

Lemma exchanged_lookup (k : nat) :
  forall data : list Byte.byte,
    (3 * k + 2 < length data)%nat ->
    exchanged data !! (3 * k)%nat = data !! (3 * k + 2)%nat
    /\ exchanged data !! (3 * k + 1)%nat = data !! (3 * k + 1)%nat
    /\ exchanged data !! (3 * k + 2)%nat = data !! (3 * k)%nat.
Proof.
  induction k as [|k IH]; intros data Hlen.
  - destruct data as [|b0 [|b1 [|b2 rest]]]; try (simpl in Hlen; lia).
    repeat split; reflexivity.
  - destruct data as [|b0 [|b1 [|b2 rest]]]; try (simpl in Hlen; lia).
    replace (3 * S k)%nat with (S (S (S (3 * k)))) by lia.
    simpl. apply IH. simpl in Hlen. lia.
Qed.

Lemma exchanged_involutive (data : list Byte.byte) :
  exchanged (exchanged data) = data.
Proof.
  assert (H : forall n data, (length data <= n)%nat ->
                exchanged (exchanged data) = data).
  { clear data. induction n as [|n IH]; intros data Hn.
    - destruct data; [reflexivity|simpl in Hn; lia].
    - destruct data as [|b0 [|b1 [|b2 rest]]]; try reflexivity.
      simpl. rewrite IH; [reflexivity|]. simpl in Hn. lia. }
  exact (H _ _ (Nat.le_refl _)).
Qed.

(** The loop of [ConvertFormat] on data of whole pixels, and on data
    with one or two bytes left over. *)
Lemma swap_loop_whole (n : nat) :
  forall (k0 : Z) (pre rest : list Byte.byte),
    length rest = (3 * n)%nat ->
    Z.of_nat (length pre) = 3 * k0 ->
    for_each (seqZ k0 (Z.of_nat n))
             (fun k converted => FrameUtils.swap (3 * k) (3 * k + 2) converted)
             (pre ++ rest)%list
    = Value (pre ++ exchanged rest)%list.
Proof.
  induction n as [|n IH]; intros k0 pre rest Hrest Hpre.
  - destruct rest; [|discriminate Hrest]. reflexivity.
  - destruct rest as [|a [|b [|c rest]]]; try (simpl in Hrest; lia).
    rewrite seqZ_S. cbn [for_each].
    rewrite (swap_app pre rest a b c (3 * k0)) by lia.
    cbn [mbind Result_bind exchanged].
    change (pre ++ c :: b :: a :: rest)%list
      with (pre ++ [c; b; a] ++ rest)%list.
    change (pre ++ c :: b :: a :: exchanged rest)%list
      with (pre ++ [c; b; a] ++ exchanged rest)%list.
    rewrite !(app_assoc pre [c; b; a]).
    rewrite (IH (k0 + 1) (pre ++ [c; b; a])%list rest).
    + reflexivity.
    + simpl in Hrest. lia.
    + rewrite length_app. simpl. lia.
Qed.

Lemma swap_loop_ragged (n : nat) :
  forall (k0 : Z) (pre rest : list Byte.byte),
    (length rest = 3 * n + 1 \/ length rest = 3 * n + 2)%nat ->
    Z.of_nat (length pre) = 3 * k0 ->
    for_each (seqZ k0 (Z.of_nat (S n)))
             (fun k converted => FrameUtils.swap (3 * k) (3 * k + 2) converted)
             (pre ++ rest)%list
    = UndefinedBehaviour.
Proof.
  induction n as [|n IH]; intros k0 pre rest Hrest Hpre.
  - rewrite seqZ_S. cbn [for_each]. unfold FrameUtils.swap.
    destruct rest as [|a [|b [|c rest]]]; try (simpl in Hrest; lia).
    + rewrite (load_app pre [] a (3 * k0)) by lia. cbn [mbind Result_bind].
      rewrite load_past; [reflexivity|]. rewrite length_app. simpl. lia.
    + rewrite (load_app pre [b] a (3 * k0)) by lia. cbn [mbind Result_bind].
      rewrite load_past; [reflexivity|]. rewrite length_app. simpl. lia.
  - destruct rest as [|a [|b [|c rest]]]; try (simpl in Hrest; lia).
    rewrite seqZ_S. cbn [for_each].
    rewrite (swap_app pre rest a b c (3 * k0)) by lia.
    cbn [mbind Result_bind].
    change (pre ++ c :: b :: a :: rest)%list
      with (pre ++ [c; b; a] ++ rest)%list.
    rewrite (app_assoc pre [c; b; a]).
    apply (IH (k0 + 1) (pre ++ [c; b; a])%list rest).
    + simpl in Hrest. lia.
    + rewrite length_app. simpl. lia.
Qed.

(** The counter of a loop in steps of 3 over whole pixels. *)
Lemma every_third_whole (n : nat) :
  every_third (Z.of_nat (3 * n))
  = List.map (fun k => 3 * k) (seqZ 0 (Z.of_nat n)).
Proof.
  unfold every_third. do 2 f_equal.
  replace (Z.of_nat (3 * n) + 2) with (2 + Z.of_nat n * 3) by lia.
  rewrite Z.div_add by lia. reflexivity.
Qed.

(** A loop whose counter is a function of another counter. *)
Lemma for_each_map {S : Type} (f : Z -> Z) (body : Z -> S -> Result S)
    (range : list Z) :
  forall s : S,
    for_each (List.map f range) body s
    = for_each range (fun i => body (f i)) s.
Proof.
  induction range as [|i range IH]; intros s; simpl; [reflexivity|].
  destruct (body (f i) s); simpl; [apply IH|reflexivity|reflexivity].
Qed.

(** [ConvertFormat] from [bgr] to [rgb]. *)
Lemma ConvertFormat_whole (data : list Byte.byte) (width height : Z) :
  (length data mod 3 = 0)%nat ->
  FrameUtils.ConvertFormat data width height "bgr" "rgb"
  = Value (exchanged data).
Proof.
  intros Hwhole. unfold FrameUtils.ConvertFormat. simpl.
  pose proof (Nat.div_mod_eq (length data) 3) as Hdiv.
  replace (length data) with (3 * (length data / 3))%nat at 1 by lia.
  rewrite every_third_whole, for_each_map.
  apply (swap_loop_whole (length data / 3) 0 [] data); [lia|reflexivity].
Qed.

Lemma ConvertFormat_ragged (data : list Byte.byte) (width height : Z) :
  (length data mod 3 <> 0)%nat ->
  FrameUtils.ConvertFormat data width height "bgr" "rgb" = UndefinedBehaviour.
Proof.
  intros Hragged. unfold FrameUtils.ConvertFormat. simpl.
  pose proof (Nat.div_mod_eq (length data) 3) as Hdiv.
  pose proof (Nat.mod_upper_bound (length data) 3 ltac:(lia)) as Hmod.
  unfold every_third.
  replace ((Z.of_nat (length data) + 2) / 3)
    with (Z.of_nat (S (length data / 3))).
  - rewrite for_each_map.
    apply (swap_loop_ragged (length data / 3) 0 [] data); [lia|reflexivity].
  - apply Z.div_unique with
      (r := Z.of_nat (length data mod 3) - 1); lia.
Qed.

(** X17.  [ConvertFormat] converts from [bgr] to [rgb] and nothing else:
    for any other pair of formats, [rgb] to [bgr] among them, it returns
    the data as they are.  From [bgr] to [rgb], data of whole pixels
    come back with the first and the third byte of each pixel exchanged
    and the second kept, so converting twice gives back the data; data
    whose size is no multiple of 3 make [std::swap] reach past the end
    of the vector, which is undefined. *)
Theorem ConvertFormat_channels (data : list Byte.byte) (width height : Z)
    (from_format to_format : string) :
  let swaps :=
    String.eqb from_format "bgr" && String.eqb to_format "rgb" in
  (swaps = false ->
   FrameUtils.ConvertFormat data width height from_format to_format
   = Value data)
  /\ (swaps = true ->
      (length data mod 3 = 0)%nat ->
      FrameUtils.ConvertFormat data width height from_format to_format
      = Value (exchanged data)
      /\ length (exchanged data) = length data
      /\ (forall k : nat,
            (3 * k + 2 < length data)%nat ->
            exchanged data !! (3 * k)%nat = data !! (3 * k + 2)%nat
            /\ exchanged data !! (3 * k + 1)%nat = data !! (3 * k + 1)%nat
            /\ exchanged data !! (3 * k + 2)%nat = data !! (3 * k)%nat)
      /\ FrameUtils.ConvertFormat (exchanged data) width height to_format
           from_format
         = Value (exchanged data)
      /\ FrameUtils.ConvertFormat (exchanged data) width height from_format
           to_format
         = Value data)
  /\ (swaps = true ->
      (length data mod 3 <> 0)%nat ->
      FrameUtils.ConvertFormat data width height from_format to_format
      = UndefinedBehaviour).
Proof.
  intros swaps. subst swaps.
  destruct (String.eqb_spec from_format "bgr") as [->|Hfrom];
    [destruct (String.eqb_spec to_format "rgb") as [->|Hto]|];
    cbn [andb].
  - split; [discriminate|]. split.
    + intros _ Hwhole.
      split; [apply ConvertFormat_whole; exact Hwhole|].
      split; [apply exchanged_length|].
      split; [intros k Hk; apply exchanged_lookup; exact Hk|].
      split; [reflexivity|].
      rewrite ConvertFormat_whole
        by (rewrite exchanged_length; exact Hwhole).
      rewrite exchanged_involutive. reflexivity.
    + intros _ Hragged. apply ConvertFormat_ragged. exact Hragged.
  - split; [|split; discriminate]. intros _. unfold FrameUtils.ConvertFormat.
    destruct (String.eqb "bgr" to_format); [reflexivity|].
    cbn [andb]. destruct (String.eqb_spec to_format "rgb");
      [contradiction|reflexivity].
  - split; [|split; discriminate]. intros _. unfold FrameUtils.ConvertFormat.
    destruct (String.eqb from_format to_format); [reflexivity|].
    destruct (String.eqb_spec from_format "bgr");
      [contradiction|reflexivity].
Qed.

(** ** Service: [StartStream] and [StopStream] *)



Lemma valid_config_default : valid_config CameraConfig.default.
Proof. unfold valid_config, INT_MAX. simpl. lia. Qed.

(** [StartCapture] on a [READY] engine whose thread can be created. *)
Lemma StartCapture_ready (env : Env) (cm : CameraManager) :
  state_ cm = READY -> is_capturing_ cm = false -> capture_thread_ cm = false ->
  thread_create env = ThreadStarted ->
  call (StartCapture env) cm
  = Returns true
      {| self := capturing (set_should_stop false cm);
         holds_config_mutex := false;
         events := [EvThreadStarted; EvStateChanged READY CAPTURING] |}.
Proof.
  intros Hst Hcap Hth Htc.
  destruct cm as [url ty cfg st stats err th stop cap cb att].
  destruct env as [fs now bi br tc r].
  simpl in Hst, Hcap, Hth, Htc. subst st cap th tc.
  vm_compute. reflexivity.
Qed.

(** The [try] block of [StartStream] when the engine comes up. *)
Lemma open_stream_success (env : ServiceEnv) (request : StreamRequest)
    (response : StreamResponse) (sv : VisionServiceImpl.t) :
  backend_succeeds (engine env)
    (new_CameraManager (engine env) (sreq_camera_url request)) ->
  thread_create (engine env) = ThreadStarted ->
  VisionServiceImpl.open_stream env request response sv
  = Some (Status_OK,
          mkStreamResponse VisionServiceConstants.STATUS_SUCCESS
            "Stream started successfully"
            (sreq_camera_id request ++ "_" ++ pretty (system_clock_ms env)),
          VisionServiceImpl.mk
             (<[sreq_camera_id request := session env request]>
                (VisionServiceImpl.active_streams_ sv))
             (VisionServiceImpl.service_start_time_ sv)
             (wrap64 (VisionServiceImpl.total_streams_started_ sv + 1))
             (VisionServiceImpl.total_frames_processed_ sv)
             (VisionServiceImpl.total_detections_ sv)
             (ServiceMetrics.IncrementStreamsStarted
                (VisionServiceImpl.metrics sv))).
Proof.
  intros Hback Htc. unfold VisionServiceImpl.open_stream, Initialize_default.
  unfold call at 1.
  rewrite Initialize_fresh;
    [|exact valid_config_default|exact Hback|reflexivity|reflexivity].
  simpl self.
  rewrite StartCapture_ready; try reflexivity; try exact Htc.
Qed.

(** An engine with a backend has a valid URL. *)
Lemma backend_succeeds_valid_url (env : ServiceEnv) (url : string) :
  backend_succeeds (engine env) (new_CameraManager (engine env) url) ->
  VisionServiceImpl.IsValidCameraUrl env url = true.
Proof.
  unfold backend_succeeds, VisionServiceImpl.IsValidCameraUrl, IsValidCameraUrl.
  simpl. destruct (String.eqb_spec url "") as [->|Hne].
  - simpl. contradiction.
  - destruct (DetectCameraType (fs (engine env)) url);
      try contradiction; reflexivity.
Qed.

(** X19.  A request with a new identifier, while fewer than ten sessions
    are open, for a camera whose backend initialises and whose worker
    thread starts, is answered [success] with the stream identifier
    [<camera id>_<milliseconds of the system clock>].  The registry
    grows by this one session and the two counters of started streams go
    up by 1.  [GetStreamStatus] then reports the session as [active],
    with no frame and no detection, and the time since its start as
    uptime. *)
Theorem StartStream_opens (env : ServiceEnv) (request : StreamRequest)
    (response : StreamResponse) (sv : VisionServiceImpl.t) (now : Z) :
  let id := sreq_camera_id request in
  id <> "" ->
  backend_succeeds (engine env)
    (new_CameraManager (engine env) (sreq_camera_url request)) ->
  thread_create (engine env) = ThreadStarted ->
  VisionServiceImpl.active_streams_ sv !! id = None ->
  (size (VisionServiceImpl.active_streams_ sv) < 10)%nat ->
  exists sv' stats,
    VisionServiceImpl.StartStream env request response sv
    = Some (Status_OK,
            mkStreamResponse "success" "Stream started successfully"
              (id ++ "_" ++ pretty (system_clock_ms env)),
            sv')
    /\ VisionServiceImpl.active_streams_ sv'
       = <[id := session env request]> (VisionServiceImpl.active_streams_ sv)
    /\ size (VisionServiceImpl.active_streams_ sv')
       = S (size (VisionServiceImpl.active_streams_ sv))
    /\ VisionServiceImpl.total_streams_started_ sv'
       = wrap64 (VisionServiceImpl.total_streams_started_ sv + 1)
    /\ ServiceMetrics.streams_started_ (VisionServiceImpl.metrics sv')
       = wrap64 (ServiceMetrics.streams_started_ (VisionServiceImpl.metrics sv)
                 + 1)
    /\ VisionServiceImpl.GetStreamStatus now (mkStatusRequest id)
         empty_StatusResponse sv'
       = (Status_OK,
          mkStatusResponse id "active" "Stream active" (Some stats), sv')
    /\ stat_frames_processed stats = 0
    /\ stat_detections_count stats = 0
    /\ stat_uptime_seconds stats
       = VisionServiceImpl.to_seconds (now - steady_now (engine env)).
Proof.
  intros id Hid Hback Htc Hfree Hroom. subst id.
  unfold VisionServiceImpl.StartStream, VisionServiceImpl.ValidateStreamRequest.
  destruct (String.eqb_spec (sreq_camera_id request) ""); [contradiction|].
  pose proof (backend_succeeds_valid_url _ _ Hback) as Hvalid.
  destruct (String.eqb_spec (sreq_camera_url request) "") as [Hurl|_].
  { rewrite Hurl in Hvalid. discriminate Hvalid. }
  rewrite Hvalid. simpl.
  rewrite (proj2 (admission_error_none _ _) (conj Hfree Hroom)).
  rewrite open_stream_success by assumption.
  eexists. eexists. split; [reflexivity|]. simpl.
  split; [reflexivity|].
  split; [apply map_size_insert_None; exact Hfree|].
  split; [reflexivity|]. split; [reflexivity|].
  unfold VisionServiceImpl.GetStreamStatus. simpl.
  rewrite lookup_insert_eq. simpl.
  split; [reflexivity|]. repeat split; reflexivity.
Qed.

Lemma StartStream_opens_witness :
  exists sv' stats,
    VisionServiceImpl.StartStream service_env (test_request "cam0")
      empty_StreamResponse fresh_service
    = Some (Status_OK,
            mkStreamResponse "success" "Stream started successfully"
              "cam0_1700000000000",
            sv')
    /\ VisionServiceImpl.GetStreamStatus 5000000000 (mkStatusRequest "cam0")
         empty_StatusResponse sv'
       = (Status_OK,
          mkStatusResponse "cam0" "active" "Stream active" (Some stats), sv')
    /\ stat_uptime_seconds stats = 4.
Proof.
  destruct (StartStream_opens service_env (test_request "cam0")
              empty_StreamResponse fresh_service 5000000000)
    as [sv' [stats (H1 & _ & _ & _ & _ & H6 & _ & _ & H9)]].
  - discriminate.
  - exact I.
  - reflexivity.
  - reflexivity.
  - vm_compute. lia.
  - exists sv', stats. split; [exact H1|]. split; [exact H6|].
    rewrite H9. reflexivity.
Defined.

(** An answer of [StartStream] that says [success] comes from the
    [try] block, with the session inserted. *)
Lemma StartStream_success_inv (env : ServiceEnv) (request : StreamRequest)
    (response : StreamResponse) (sv : VisionServiceImpl.t) status response'
    sv' :
  VisionServiceImpl.StartStream env request response sv
  = Some (status, response', sv') ->
  ok status = true ->
  sresp_status response' = "success" ->
  ok (VisionServiceImpl.ValidateStreamRequest env request) = true
  /\ VisionServiceImpl.admission_error (sreq_camera_id request) sv = None
  /\ exists st,
       VisionServiceImpl.active_streams_ sv'
       = <[sreq_camera_id request := st]> (VisionServiceImpl.active_streams_ sv)
       /\ StreamState.status st = "active"
       /\ exists cm, StreamState.camera_manager st = Some cm.
Proof.
  unfold VisionServiceImpl.StartStream. intros Hstart Hok Hsuccess.
  destruct (ok (VisionServiceImpl.ValidateStreamRequest env request))
    eqn:Hvalid; simpl in *.
  2:{ inversion Hstart; subst. congruence. }
  split; [reflexivity|].
  destruct (VisionServiceImpl.admission_error (sreq_camera_id request) sv)
    eqn:Hadm.
  { inversion Hstart; subst. discriminate Hsuccess. }
  split; [reflexivity|].
  unfold VisionServiceImpl.open_stream in Hstart.
  destruct (call (Initialize_default (engine env)) _) as [[|] s1| | |];
    try discriminate Hstart;
    [|inversion Hstart; subst; discriminate Hsuccess].
  destruct (call (StartCapture (engine env)) _) as [[|] s2| | |];
    try discriminate Hstart;
    [|inversion Hstart; subst; discriminate Hsuccess].
  inversion Hstart; subst. simpl.
  eexists. split; [reflexivity|]. split; [reflexivity|].
  eexists. reflexivity.
Qed.

(** X20.  Once [StartStream] has answered [success] for a camera
    identifier, a further valid request under the same identifier,
    whatever its URL, is answered with the status [OK] and the error
    [Stream already active for camera <id>], and changes nothing in the
    service. *)
Theorem StartStream_twice (env env' : ServiceEnv)
    (request request' : StreamRequest)
    (response response' answer : StreamResponse)
    (sv sv' : VisionServiceImpl.t) (status : Status) :
  VisionServiceImpl.StartStream env request response sv
  = Some (status, answer, sv') ->
  ok status = true ->
  sresp_status answer = "success" ->
  sreq_camera_id request' = sreq_camera_id request ->
  ok (VisionServiceImpl.ValidateStreamRequest env' request') = true ->
  VisionServiceImpl.StartStream env' request' response' sv'
  = Some (Status_OK,
          mkStreamResponse "error"
            ("Stream already active for camera " ++ sreq_camera_id request)
            (sresp_stream_id response'),
          sv').
Proof.
  intros Hstart Hok Hsuccess Hid Hvalid.
  destruct (StartStream_success_inv _ _ _ _ _ _ _ Hstart Hok Hsuccess)
    as (_ & _ & st & Hreg & _).
  unfold VisionServiceImpl.StartStream. rewrite Hvalid. simpl.
  unfold VisionServiceImpl.admission_error. rewrite Hid, Hreg, lookup_insert_eq.
  reflexivity.
Qed.

Lemma StartStream_twice_witness :
  VisionServiceImpl.StartStream service_env
    (mkStreamRequest "cam0" "/dev/video0") empty_StreamResponse
    one_stream_service
  = Some (Status_OK,
          mkStreamResponse "error" "Stream already active for camera cam0" "",
          one_stream_service).
Proof.
  apply (StartStream_twice service_env service_env (test_request "cam0")
           (mkStreamRequest "cam0" "/dev/video0") empty_StreamResponse
           empty_StreamResponse
           (mkStreamResponse "success" "Stream started successfully"
              "cam0_1700000000000")
           fresh_service one_stream_service Status_OK).
  - vm_compute. reflexivity.
  - reflexivity.
  - reflexivity.
  - reflexivity.
  - reflexivity.
Defined.

(** X21.  After [StartStream] has answered [success], [StopStream] for
    the same identifier answers [success] and gives back the registry as
    it was before the start, while the count of started streams stays.
    [GetStreamStatus] then reports [stopped], and a second [StopStream]
    is answered with the error [No active stream found for camera
    <id>]. *)
Theorem StartStream_StopStream_round_trip (env : ServiceEnv)
    (request : StreamRequest) (response answer : StreamResponse)
    (stop_response : StopResponse) (sv sv' : VisionServiceImpl.t)
    (status : Status) (now : Z) :
  let id := sreq_camera_id request in
  VisionServiceImpl.StartStream env request response sv
  = Some (status, answer, sv') ->
  ok status = true ->
  sresp_status answer = "success" ->
  exists sv'',
    VisionServiceImpl.StopStream (mkStopRequest id) stop_response sv'
    = Some (Status_OK,
            mkStopResponse "success" "Stream stopped successfully", sv'')
    /\ VisionServiceImpl.active_streams_ sv''
       = VisionServiceImpl.active_streams_ sv
    /\ (VisionServiceImpl.total_streams_started_ sv'',
        VisionServiceImpl.metrics sv'')
       = (VisionServiceImpl.total_streams_started_ sv',
          VisionServiceImpl.metrics sv')
    /\ VisionServiceImpl.GetStreamStatus now (mkStatusRequest id)
         empty_StatusResponse sv''
       = (Status_OK, mkStatusResponse id "stopped" "No active stream" None,
          sv'')
    /\ VisionServiceImpl.StopStream (mkStopRequest id) stop_response sv''
       = Some (Status_OK,
               mkStopResponse "error"
                 ("No active stream found for camera " ++ id),
               sv'').
Proof.
  intros id Hstart Hok Hsuccess. subst id.
  destruct (StartStream_success_inv _ _ _ _ _ _ _ Hstart Hok Hsuccess)
    as (Hvalid & Hadm & st & Hreg & Hstatus & cm & Hcm).
  apply admission_error_none in Hadm as [Hfree _].
  assert (Hid : String.eqb (sreq_camera_id request) "" = false).
  { unfold VisionServiceImpl.ValidateStreamRequest in Hvalid.
    destruct (String.eqb (sreq_camera_id request) ""); [discriminate|].
    reflexivity. }
  assert (Hstop :
    VisionServiceImpl.StopStream (mkStopRequest (sreq_camera_id request))
      stop_response sv'
    = Some (Status_OK,
            mkStopResponse "success" "Stream stopped successfully",
            VisionServiceImpl.set_active_streams
              (VisionServiceImpl.active_streams_ sv) sv')).
  { destruct (StopStream_answers (mkStopRequest (sreq_camera_id request))
                stop_response sv') as [[[status2 answer2] sv''] Hstop].
    rewrite Hstop. revert Hstop.
    unfold VisionServiceImpl.StopStream,
      VisionServiceImpl.ValidateStopRequest. simpl. rewrite Hid. simpl.
    rewrite Hreg, lookup_insert_eq. simpl. rewrite Hcm.
    destruct (call (StopCapture false) cm) as [b s| | |]; try discriminate.
    intros Hstop. inversion Hstop; subst. clear Hstop.
    rewrite insert_insert_eq, delete_insert_eq, delete_id by exact Hfree.
    reflexivity. }
  exists (VisionServiceImpl.set_active_streams
            (VisionServiceImpl.active_streams_ sv) sv').
  split; [exact Hstop|]. split; [reflexivity|]. split; [reflexivity|].
  unfold VisionServiceImpl.GetStreamStatus, VisionServiceImpl.StopStream,
    VisionServiceImpl.ValidateStopRequest. simpl.
  rewrite Hid, Hfree. simpl.
  split; reflexivity.
Qed.

Lemma StartStream_StopStream_round_trip_witness :
  exists sv'',
    VisionServiceImpl.StopStream (mkStopRequest "cam0") empty_StopResponse
      one_stream_service
    = Some (Status_OK,
            mkStopResponse "success" "Stream stopped successfully", sv'')
    /\ VisionServiceImpl.active_streams_ sv''
       = VisionServiceImpl.active_streams_ fresh_service
    /\ VisionServiceImpl.total_streams_started_ sv''
       = VisionServiceImpl.total_streams_started_ one_stream_service.
Proof.
  destruct (StartStream_StopStream_round_trip service_env
              (test_request "cam0") empty_StreamResponse
              (mkStreamResponse "success" "Stream started successfully"
                 "cam0_1700000000000")
              empty_StopResponse fresh_service one_stream_service Status_OK 0)
    as [sv'' (H1 & H2 & H3 & _)].
  - vm_compute. reflexivity.
  - reflexivity.
  - reflexivity.
  - exists sv''. split; [exact H1|]. split; [exact H2|].
    exact (f_equal fst H3).
Defined.

(** URLs that pass validation, but for which the engine has no
    backend. *)
Lemma DetectCameraType_http (fs : FileSystem) (rest : string) :
  DetectCameraType fs ("http://" ++ rest) = HTTP_STREAM
  /\ DetectCameraType fs ("https://" ++ rest) = HTTP_STREAM.
Proof.
  unfold DetectCameraType, CameraManagerConstants.RTSP_PREFIXES,
    CameraManagerConstants.HTTP_PREFIXES.
  cbn [existsb]. rewrite !found_at_start_prefix.
  split; destruct rest; vm_compute; reflexivity.
Qed.

(** [Initialize] on a new engine whose backend does not initialise. *)
Lemma Initialize_default_fails (env : Env) (url : string) :
  ~ backend_succeeds env (new_CameraManager env url) ->
  exists s,
    call (Initialize_default env) (new_CameraManager env url)
    = Returns false s
    /\ state_ (self s) = ERROR.
Proof.
  unfold backend_succeeds, new_CameraManager, Initialize_default, call,
    Initialize, InitializeBackend.
  cbn [camera_type_].
  destruct (DetectCameraType (fs env) url); intros Hback;
    try (exfalso; apply Hback; exact I).
  - eexists. split; vm_compute; reflexivity.
  - destruct (backend_init env FILE_VIDEO);
      try (exfalso; apply Hback; reflexivity);
      eexists; split; vm_compute; reflexivity.
  - destruct (backend_init env WEBCAM);
      try (exfalso; apply Hback; reflexivity);
      eexists; split; vm_compute; reflexivity.
  - destruct (backend_init env RTSP_STREAM);
      try (exfalso; apply Hback; reflexivity);
      eexists; split; vm_compute; reflexivity.
  - eexists. split; vm_compute; reflexivity.
Qed.

(** X22.  An admitted request whose engine cannot be brought up is
    answered with the status [OK] and an error, and leaves the service
    as it was: [Failed to initialize camera for <id>] when the backend
    of the URL does not initialise, which is the case of every [http://]
    and [https://] URL, since these pass validation but have no backend;
    and [Failed to start capture for <id>] when the creation of the
    worker thread throws. *)
Theorem StartStream_engine_failure (env : ServiceEnv)
    (request : StreamRequest) (response : StreamResponse)
    (sv : VisionServiceImpl.t) :
  let id := sreq_camera_id request in
  let url := sreq_camera_url request in
  let answer message :=
    Some (Status_OK,
          mkStreamResponse "error" (message ++ id) (sresp_stream_id response),
          sv) in
  id <> "" ->
  VisionServiceImpl.active_streams_ sv !! id = None ->
  (size (VisionServiceImpl.active_streams_ sv) < 10)%nat ->
  (VisionServiceImpl.IsValidCameraUrl env url = true ->
   ~ backend_succeeds (engine env) (new_CameraManager (engine env) url) ->
   VisionServiceImpl.StartStream env request response sv
   = answer "Failed to initialize camera for ")
  /\ (forall rest,
        url = "http://" ++ rest \/ url = "https://" ++ rest ->
        VisionServiceImpl.IsValidCameraUrl env url = true
        /\ VisionServiceImpl.StartStream env request response sv
           = answer "Failed to initialize camera for ")
  /\ (forall what,
        backend_succeeds (engine env) (new_CameraManager (engine env) url) ->
        thread_create (engine env) = ThreadCreateThrows what ->
        VisionServiceImpl.StartStream env request response sv
        = answer "Failed to start capture for ").
Proof.
  intros id url answer Hid Hfree Hroom. subst id url answer.
  assert (Hadmitted :
    VisionServiceImpl.IsValidCameraUrl env (sreq_camera_url request) = true ->
    VisionServiceImpl.StartStream env request response sv
    = VisionServiceImpl.open_stream env request response sv).
  { intros Hvalid.
    unfold VisionServiceImpl.StartStream,
      VisionServiceImpl.ValidateStreamRequest.
    destruct (String.eqb_spec (sreq_camera_id request) ""); [contradiction|].
    destruct (String.eqb_spec (sreq_camera_url request) "") as [Hurl|_].
    { unfold VisionServiceImpl.IsValidCameraUrl in Hvalid.
      rewrite Hurl in Hvalid.
      discriminate Hvalid. }
    rewrite Hvalid. simpl.
    rewrite (proj2 (admission_error_none _ _) (conj Hfree Hroom)).
    reflexivity. }
  assert (Hinit :
    VisionServiceImpl.IsValidCameraUrl env (sreq_camera_url request) = true ->
    ~ backend_succeeds (engine env)
        (new_CameraManager (engine env) (sreq_camera_url request)) ->
    VisionServiceImpl.StartStream env request response sv
    = Some (Status_OK,
            mkStreamResponse "error"
              ("Failed to initialize camera for " ++ sreq_camera_id request)
              (sresp_stream_id response), sv)).
  { intros Hvalid Hback. rewrite (Hadmitted Hvalid).
    unfold VisionServiceImpl.open_stream.
    destruct (Initialize_default_fails _ _ Hback) as [s [Hs _]].
    rewrite Hs. reflexivity. }
  split; [exact Hinit|]. split.
  - intros rest Hurl.
    assert (Hty : DetectCameraType (fs (engine env)) (sreq_camera_url request)
                  = HTTP_STREAM).
    { destruct (DetectCameraType_http (fs (engine env)) rest) as [H1 H2].
      destruct Hurl as [-> | ->]; assumption. }
    assert (Hvalid : VisionServiceImpl.IsValidCameraUrl env
                       (sreq_camera_url request) = true).
    { unfold VisionServiceImpl.IsValidCameraUrl, IsValidCameraUrl. rewrite Hty.
      destruct Hurl as [-> | ->]; reflexivity. }
    split; [exact Hvalid|]. apply Hinit; [exact Hvalid|].
    unfold backend_succeeds. simpl. rewrite Hty. tauto.
  - intros what Hback Htc.
    rewrite (Hadmitted (backend_succeeds_valid_url _ _ Hback)).
    unfold VisionServiceImpl.open_stream, Initialize_default. unfold call at 1.
    rewrite Initialize_fresh;
      [|exact valid_config_default|exact Hback|reflexivity|reflexivity].
    simpl self.
    destruct (engine env) as [fs now bi br tc r]. simpl in Htc. subst tc.
    destruct r; vm_compute; reflexivity.
Qed.

Lemma StartStream_engine_failure_witness :
  VisionServiceImpl.StartStream service_env
    (mkStreamRequest "door" "/dev/video0") empty_StreamResponse fresh_service
  = Some (Status_OK,
          mkStreamResponse "error" "Failed to initialize camera for door" "",
          fresh_service)
  /\ VisionServiceImpl.StartStream service_env
       (mkStreamRequest "door" "http://10.0.0.7/mjpeg") empty_StreamResponse
       fresh_service
     = Some (Status_OK,
             mkStreamResponse "error" "Failed to initialize camera for door"
               "",
             fresh_service).
Proof.
  split.
  - destruct (StartStream_engine_failure service_env
                (mkStreamRequest "door" "/dev/video0") empty_StreamResponse
                fresh_service) as [H _].
    + discriminate.
    + reflexivity.
    + vm_compute. lia.
    + apply H; [reflexivity|]. vm_compute. discriminate.
  - destruct (StartStream_engine_failure service_env
                (mkStreamRequest "door" "http://10.0.0.7/mjpeg")
                empty_StreamResponse fresh_service) as [_ [H _]].
    + discriminate.
    + reflexivity.
    + vm_compute. lia.
    + apply (H "10.0.0.7/mjpeg"). left. reflexivity.
Defined.

(** ** Service: the sessions of the running service *)

(** Every step of the service keeps the sessions as they were opened. *)
Lemma open_stream_sessions (env : ServiceEnv) (request : StreamRequest)
    (response : StreamResponse) (sv : VisionServiceImpl.t) status response'
    sv' :
  sessions_as_opened sv ->
  VisionServiceImpl.open_stream env request response sv
  = Some (status, response', sv') ->
  sessions_as_opened sv'.
Proof.
  intros Hsv Hopen. unfold VisionServiceImpl.open_stream in Hopen.
  destruct (call (Initialize_default (engine env)) _) as [[|] s1| | |] eqn:E1;
    try discriminate Hopen; [|inversion Hopen; subst; exact Hsv].
  destruct (call (StartCapture (engine env)) _) as [[|] s2| | |] eqn:E2;
    try discriminate Hopen; [|inversion Hopen; subst; exact Hsv].
  inversion Hopen; subst. clear Hopen.
  unfold sessions_as_opened. simpl.
  apply map_Forall_insert_2; [|exact Hsv].
  pose proof (keeps_Initialize _ _ _ _ _ E1) as W1.
  pose proof (keeps_StartCapture _ _ _ _ E2) as W2.
  simpl in W1, W2. rewrite W1 in W2. unfold wiring in W2. simpl in W2.
  inversion W2 as [[Hurl Hty Hcb]].
  repeat split. eexists. split; [reflexivity|]. simpl.
  split; congruence.
Qed.

Lemma StopStream_sessions (request : StopRequest) (response : StopResponse)
    (sv : VisionServiceImpl.t) status response' sv' :
  sessions_as_opened sv ->
  VisionServiceImpl.StopStream request response sv
  = Some (status, response', sv') ->
  sessions_as_opened sv'.
Proof.
  unfold VisionServiceImpl.StopStream. intros Hsv Hstop.
  destruct (negb (ok (VisionServiceImpl.ValidateStopRequest request)));
    [inversion Hstop; subst; exact Hsv|].
  destruct (VisionServiceImpl.active_streams_ sv !! preq_camera_id request)
    as [stream_state|] eqn:Hlook; [|inversion Hstop; subst; exact Hsv].
  match type of Hstop with
  | match ?stopped with _ => _ end = _ =>
      destruct stopped as [cm'|]; [|discriminate Hstop]
  end.
  inversion Hstop; subst. unfold sessions_as_opened. simpl.
  rewrite delete_insert_eq. apply map_Forall_delete. exact Hsv.
Qed.

Lemma worker_turn_sessions (env : Env) (fuel : nat) (camera_id : string)
    (sv sv' : VisionServiceImpl.t) :
  sessions_as_opened sv ->
  VisionServiceImpl.worker_turn env fuel camera_id sv = Some sv' ->
  sessions_as_opened sv'.
Proof.
  unfold VisionServiceImpl.worker_turn. intros Hsv Hturn.
  destruct (VisionServiceImpl.active_streams_ sv !! camera_id) as [st|]
    eqn:Hlook;
    [|discriminate Hturn].
  destruct (StreamState.camera_manager st) as [cm|] eqn:Hcm;
    [|discriminate Hturn].
  destruct (call (CaptureLoop_body env fuel) cm) as [b s| | |] eqn:E;
    try discriminate Hturn.
  inversion Hturn; subst. unfold sessions_as_opened. simpl.
  apply map_Forall_insert_2; [|exact Hsv].
  destruct (Hsv _ _ Hlook) as (H1 & H2 & H3 & H4 & H5 & cm0 & H6 & H7 & H8).
  rewrite Hcm in H6. inversion H6; subst cm0.
  pose proof (keeps_CaptureLoop_body _ _ _ _ _ E) as Hw. simpl in Hw.
  inversion Hw.
  repeat split; try assumption.
  eexists. split; [reflexivity|]. simpl. split; congruence.
Qed.

Lemma step_sessions (sys sys' : System) :
  sessions_as_opened (service sys) -> step sys sys' ->
  sessions_as_opened (service sys').
Proof.
  intros Hsv Hstep.
  destruct Hstep as [t env request response sys Hidle
                    |t env request response sys Hpc Hfree
                    |t env request response sys status response' sv' Hpc Hopen
                    |t request response sys status response' sv' Hidle Hfree
                       Hstop
                    |t now request response sys Hidle Hfree
                    |t now sys Hidle Hfree
                    |t stream sys Hidle
                    |env fuel camera_id sys sv' Hturn]; simpl.
  - destruct (ok _); exact Hsv.
  - destruct (VisionServiceImpl.admission_error _ _); exact Hsv.
  - exact (open_stream_sessions _ _ _ _ _ _ _ Hsv Hopen).
  - exact (StopStream_sessions _ _ _ _ _ _ Hsv Hstop).
  - rewrite GetStreamStatus_service. exact Hsv.
  - rewrite GetHealth_service. exact Hsv.
  - unfold sessions_as_opened. rewrite ProcessFrames_active_streams.
    exact Hsv.
  - exact (worker_turn_sessions _ _ _ _ _ Hsv Hturn).
Qed.

Lemma running_sessions (sys : System) :
  running sys -> sessions_as_opened (service sys).
Proof.
  induction 1 as [now metrics|sys sys' _ IH Hstep].
  - unfold sessions_as_opened. simpl. apply map_Forall_empty.
  - exact (step_sessions _ _ IH Hstep).
Qed.

(** X23.  In every state the running service can reach, every session
    of the registry is as [StartStream] opened it: registered under its
    own identifier, [active], both counters at 0, its frame processor
    never initialised, and its engine without a frame callback.  So no
    frame of a camera reaches a processor, and [GetStreamStatus] answers
    either [active] with 0 frames and 0 detections, or [stopped] for an
    identifier that is not registered. *)
Theorem sessions_never_process (sys : System) (now : Z)
    (request : StatusRequest) :
  running sys ->
  sessions_as_opened (service sys)
  /\ exists response,
       VisionServiceImpl.GetStreamStatus now request empty_StatusResponse
         (service sys)
       = (Status_OK, response, service sys)
       /\ tresp_camera_id response = treq_camera_id request
       /\ match tresp_stats response with
          | Some stats =>
              tresp_status response = "active"
              /\ stat_frames_processed stats = 0
              /\ stat_detections_count stats = 0
          | None =>
              tresp_status response = "stopped"
              /\ VisionServiceImpl.active_streams_ (service sys)
                 !! treq_camera_id request
                 = None
          end.
Proof.
  intros Hrun. apply running_sessions in Hrun.
  split; [exact Hrun|].
  unfold VisionServiceImpl.GetStreamStatus.
  destruct (VisionServiceImpl.active_streams_ (service sys)
            !! treq_camera_id request)
    as [st|] eqn:Hlook.
  - destruct (Hrun _ _ Hlook) as (H1 & H2 & H3 & H4 & _).
    eexists. split; [reflexivity|]. simpl. repeat split; assumption.
  - eexists. split; [reflexivity|]. simpl. repeat split.
Qed.

Lemma sessions_never_process_witness :
  exists response,
    VisionServiceImpl.GetStreamStatus 5000000000 (mkStatusRequest "cam3")
      empty_StatusResponse (service full_system)
    = (Status_OK, response, service full_system)
    /\ tresp_camera_id response = "cam3".
Proof.
  destruct (sessions_never_process full_system 5000000000
              (mkStatusRequest "cam3") running_full_system)
    as [_ [response (H1 & H2 & _)]].
  exists response. split; [exact H1|exact H2].
Defined.

(** X24.  In every state the running service can reach, [GetHealth]
    answers [healthy] while fewer than nine sessions are open and
    [degraded], with [Approaching maximum concurrent streams], from nine
    on; the branch for streams in the error state is never taken.  It
    reports the number of sessions, the seconds since the service was
    constructed and the version, and changes nothing. *)
Theorem GetHealth_running (sys : System) (now : Z) :
  running sys ->
  let n := size (VisionServiceImpl.active_streams_ (service sys)) in
  VisionServiceImpl.GetHealth now (service sys)
  = (Status_OK,
     mkHealthResponse
       (if (n <? 9)%nat then "healthy" else "degraded")
       (if (n <? 9)%nat then "Service is healthy"
        else "Approaching maximum concurrent streams")
       (Z.of_nat n)
       (VisionServiceImpl.to_seconds
          (now - VisionServiceImpl.service_start_time_ (service sys)))
       "1.0.0-phase2.1",
     service sys).
Proof.
  intros Hrun n.
  pose proof (running_invariant _ Hrun) as [Hsize _].
  pose proof (running_sessions _ Hrun) as Hsessions.
  unfold VisionServiceImpl.GetHealth.
  rewrite bool_decide_eq_false_2.
  2:{ intros [id [st [Hlook Hstatus]]].
      destruct (Hsessions _ _ Hlook) as (_ & Hactive & _).
      simpl in Hstatus. rewrite Hactive in Hstatus. discriminate Hstatus. }
  clear Hsessions Hrun. subst n.
  set (n := size (VisionServiceImpl.active_streams_ (service sys))) in *.
  clearbody n.
  do 11 (destruct n as [|n]; [reflexivity|]).
  exfalso. lia.
Qed.

Lemma GetHealth_running_witness :
  VisionServiceImpl.GetHealth 5000000000 (service full_system)
  = (Status_OK,
     mkHealthResponse
       (if (size (VisionServiceImpl.active_streams_ (service full_system))
            <? 9)%nat
        then "healthy" else "degraded")
       (if (size (VisionServiceImpl.active_streams_ (service full_system))
            <? 9)%nat
        then "Service is healthy"
        else "Approaching maximum concurrent streams")
       (Z.of_nat
          (size (VisionServiceImpl.active_streams_ (service full_system))))
       (VisionServiceImpl.to_seconds
          (5000000000
           - VisionServiceImpl.service_start_time_ (service full_system)))
       "1.0.0-phase2.1",
     service full_system).
Proof.
  exact (GetHealth_running full_system 5000000000 running_full_system).
Defined.

(** X25.  [ProcessFrames] answers the requests of a stream in order,
    each with the simulated response (its own camera identifier and
    timestamp, 10 ms, no detection), up to the first response that
    cannot be written, and counts one frame per response written, in the
    service and in the metrics; nothing else in the service changes.
    The camera identifier need not belong to an open session. *)
Theorem ProcessFrames_answers (stream : list (FrameRequest * bool))
    (sv : VisionServiceImpl.t) :
  0 <= VisionServiceImpl.total_frames_processed_ sv ->
  0 <= ServiceMetrics.frames_processed_ (VisionServiceImpl.metrics sv) ->
  VisionServiceImpl.total_frames_processed_ sv + Z.of_nat (length stream)
  < 2 ^ 63 ->
  ServiceMetrics.frames_processed_ (VisionServiceImpl.metrics sv)
  + Z.of_nat (length stream)
  < 2 ^ 63 ->
  let responses := fst (VisionServiceImpl.ProcessFrames stream sv) in
  let sv' := snd (VisionServiceImpl.ProcessFrames stream sv) in
  responses = List.map simulated_response (answered stream)
  /\ VisionServiceImpl.total_frames_processed_ sv'
     = VisionServiceImpl.total_frames_processed_ sv
       + Z.of_nat (length responses)
  /\ ServiceMetrics.frames_processed_ (VisionServiceImpl.metrics sv')
     = ServiceMetrics.frames_processed_ (VisionServiceImpl.metrics sv)
       + Z.of_nat (length responses)
  /\ (VisionServiceImpl.active_streams_ sv',
      VisionServiceImpl.total_streams_started_ sv',
      VisionServiceImpl.total_detections_ sv',
      VisionServiceImpl.service_start_time_ sv')
     = (VisionServiceImpl.active_streams_ sv,
        VisionServiceImpl.total_streams_started_ sv,
        VisionServiceImpl.total_detections_ sv,
        VisionServiceImpl.service_start_time_ sv)
  /\ (Forall (fun turn => snd turn = true) stream ->
      List.map (fun r => (fresp_camera_id r, fresp_timestamp r)) responses
      = List.map (fun turn => (freq_camera_id (fst turn),
                               freq_timestamp (fst turn))) stream).
Proof.
  revert sv. induction stream as [|[request written] rest IH];
    intros sv H1 H2 H3 H4; simpl.
  - repeat split; simpl; lia.
  - destruct written; simpl.
    2:{ split; [reflexivity|]. split; [lia|]. split; [lia|].
        split; [reflexivity|]. intros H. inversion H. discriminate. }
    simpl length in H3, H4.
    match goal with
    | |- context [VisionServiceImpl.ProcessFrames rest ?sv1] =>
        specialize (IH sv1); destruct (VisionServiceImpl.ProcessFrames rest sv1)
          as [responses sv'] eqn:E
    end.
    simpl in IH. rewrite !wrap64_id in IH by lia.
    destruct IH as (I1 & I2 & I3 & I4 & I5); try lia.
    assert (Hl : length responses = length (answered rest))
      by (rewrite I1; apply length_map).
    simpl. rewrite I2, I3, Hl. inversion I4.
    split; [rewrite I1; reflexivity|].
    split; [lia|]. split; [lia|]. split; [reflexivity|].
    intros H. inversion H; subst. simpl. f_equal.
    apply I5. assumption.
Qed.

Lemma ProcessFrames_answers_witness :
  fst (VisionServiceImpl.ProcessFrames frame_stream fresh_service)
  = [simulated_response (mkFrameRequest "cam0" 10);
     simulated_response (mkFrameRequest "cam1" 20)]
  /\ VisionServiceImpl.total_frames_processed_
       (snd (VisionServiceImpl.ProcessFrames frame_stream fresh_service)) = 2.
Proof.
  destruct (ProcessFrames_answers frame_stream fresh_service)
    as (H1 & H2 & _).
  - simpl. lia.
  - simpl. lia.
  - simpl. lia.
  - simpl. lia.
  - split; [exact H1|]. rewrite H2, H1. reflexivity.
Defined.

(** ** The arguments of [main] *)

(** The port part of the address that [--port] leaves. *)
Lemma string_find_colon (value : string) :
  string_find ("0.0.0.0:" ++ value) ":" = Some 7%nat.
Proof. destruct value; vm_compute; reflexivity. Qed.

Lemma substr_from_port (value : string) :
  substr_from ("0.0.0.0:" ++ value) 7 = ":" ++ value.
Proof.
  unfold substr_from.
  change ("0.0.0.0:" ++ value) with ("0.0.0.0" ++ (":" ++ value)).
  rewrite string_length_app.
  replace (String.length "0.0.0.0" + String.length (":" ++ value) - 7)%nat
    with (String.length (":" ++ value)) by (simpl; lia).
  apply (substring_drop_app "0.0.0.0" (":" ++ value)).
Qed.

Lemma parse_arguments_port (value : string) (rest : list string)
    (server_address : string) :
  parse_arguments ("--port" :: value :: rest) server_address
  = parse_arguments rest ("0.0.0.0:" ++ value).
Proof. reflexivity. Qed.

Lemma parse_arguments_host (host : string) (rest : list string)
    (server_address : string) :
  parse_arguments ("--host" :: host :: rest) server_address
  = parse_arguments rest
      (host ++ match string_find server_address ":" with
               | Some colon_pos => substr_from server_address colon_pos
               | None => ":50051"
               end).
Proof. reflexivity. Qed.

(** X26.  The address [main] listens on.  Without arguments it is
    [0.0.0.0:50051]; [--port] sets the port and resets the host to
    [0.0.0.0]; [--host] sets the host and keeps the port.  So
    [--port p --host h] listens on [h:p], but [--host h --port p] on
    [0.0.0.0:p].  [--help] ends the run with status 0; an option takes
    the argument behind it as its value whatever it is, so [--port
    --help] makes [--help] the port; and [--port] as the last argument
    is passed over. *)
Theorem main_arguments_order (host port : string) (rest : list string) :
  main_arguments [] = ParsedAddress "0.0.0.0:50051"
  /\ main_arguments ["--port"; port] = ParsedAddress ("0.0.0.0:" ++ port)
  /\ main_arguments ["--host"; host] = ParsedAddress (host ++ ":50051")
  /\ main_arguments ["--port"; port; "--host"; host]
     = ParsedAddress (host ++ ":" ++ port)
  /\ main_arguments ["--host"; host; "--port"; port]
     = ParsedAddress ("0.0.0.0:" ++ port)
  /\ main_arguments ("--help" :: rest) = ParsedExit 0
  /\ main_arguments ("--port" :: "--help" :: rest)
     = parse_arguments rest "0.0.0.0:--help"
  /\ main_arguments ["--port"] = ParsedAddress "0.0.0.0:50051".
Proof.
  unfold main_arguments.
  split; [reflexivity|]. split; [reflexivity|]. split; [reflexivity|].
  split.
  { rewrite parse_arguments_port, parse_arguments_host.
    rewrite string_find_colon, substr_from_port. reflexivity. }
  repeat split; reflexivity.
Qed.

(** ** Byte buffers and images *)

Lemma store_pixel_app (pre post : list Byte.byte)
    (o0 o1 o2 b0 b1 b2 : Byte.byte) (idx : Z) :
  idx = Z.of_nat (length pre) ->
  idx + 2 < 2 ^ 64 ->
  store_pixel idx b0 b1 b2 (pre ++ o0 :: o1 :: o2 :: post)%list
  = Value (pre ++ b0 :: b1 :: b2 :: post)%list.
Proof.
  intros Hidx Hsmall. unfold store_pixel.
  rewrite (store_app pre _ o0 b0 idx Hidx). cbn [mbind Result_bind].
  unfold to_size_t. rewrite !Z.mod_small by lia.
  change (pre ++ b0 :: o1 :: o2 :: post)%list
    with (pre ++ [b0] ++ o1 :: o2 :: post)%list.
  rewrite app_assoc.
  rewrite (store_app (pre ++ [b0]) _ o1 b1 (idx + 1))
    by (rewrite length_app; simpl; lia).
  cbn [mbind Result_bind].
  rewrite <- app_assoc. simpl app.
  change (pre ++ b0 :: b1 :: o2 :: post)%list
    with (pre ++ [b0; b1] ++ o2 :: post)%list.
  rewrite app_assoc.
  rewrite (store_app (pre ++ [b0; b1]) _ o2 b2 (idx + 2))
    by (rewrite length_app; simpl; lia).
  rewrite <- app_assoc. reflexivity.
Qed.

(** A loop that rewrites a buffer cell by cell, each turn the next [k]
    bytes, has rewritten the cells of its range when it ends; the size
    of the buffer stays [total]. *)
Lemma for_each_fill (k total : nat) (cell : Z -> list Byte.byte)
    (body : Z -> list Byte.byte -> Result (list Byte.byte))
    (pos : Z -> nat) :
  forall (n : nat) (x0 : Z) (pre olds post : list Byte.byte),
    (forall x, x0 <= x < x0 + Z.of_nat n ->
       length (cell x) = k /\ pos (x + 1) = (pos x + k)%nat) ->
    (forall x pre old post,
       x0 <= x < x0 + Z.of_nat n ->
       length pre = pos x -> length old = k ->
       length (pre ++ old ++ post)%list = total ->
       body x (pre ++ old ++ post)%list
       = Value (pre ++ cell x ++ post)%list) ->
    length pre = pos x0 ->
    length olds = (n * k)%nat ->
    length (pre ++ olds ++ post)%list = total ->
    for_each (seqZ x0 (Z.of_nat n)) body (pre ++ olds ++ post)%list
    = Value (pre ++ flat_map cell (seqZ x0 (Z.of_nat n)) ++ post)%list.
Proof.
  induction n as [|n IH];
    intros x0 pre olds post Hcell Hbody Hpre Holds Htotal.
  - destruct olds; [|discriminate Holds]. reflexivity.
  - rewrite seqZ_S. cbn [for_each flat_map].
    rewrite <- (take_drop k olds), <- app_assoc in Htotal |- *.
    assert (Hk : length (take k olds) = k)
      by (rewrite length_take; simpl in Holds; lia).
    rewrite (Hbody x0 pre (take k olds) (drop k olds ++ post)%list);
      [|lia|exact Hpre|exact Hk|exact Htotal].
    cbn [mbind Result_bind].
    destruct (Hcell x0 ltac:(lia)) as [Hlen Hpos].
    rewrite (app_assoc pre (cell x0)).
    rewrite (IH (x0 + 1) (pre ++ cell x0)%list (drop k olds) post).
    + rewrite <- !app_assoc. reflexivity.
    + intros x Hx. apply Hcell. lia.
    + intros x pre' old post' Hx. apply Hbody. lia.
    + rewrite length_app, Hlen, Hpre, Hpos. reflexivity.
    + rewrite length_drop. simpl in Holds. lia.
    + rewrite !length_app in Htotal |- *. rewrite Hlen. lia.
Qed.

(** Cells of one size, one after the other. *)
Lemma flat_map_length_cells {A} (f : A -> list Byte.byte) (c : nat)
    (l : list A) :
  (forall a, In a l -> length (f a) = c) ->
  length (flat_map f l) = (length l * c)%nat.
Proof.
  induction l as [|a l IH]; intros Hc; simpl; [reflexivity|].
  rewrite length_app, (Hc a) by (left; reflexivity).
  rewrite IH; [reflexivity|]. intros a' Ha'. apply Hc. right. exact Ha'.
Qed.

Lemma In_seqZ (m n x : Z) : In x (seqZ m n) <-> m <= x < m + n.
Proof. rewrite <- list_elem_of_In. apply elem_of_seqZ. Qed.

Lemma flat_map_seqZ_lookup (f : Z -> list Byte.byte) (c : nat) :
  forall (n : nat) (a : Z) (k j : nat),
    (forall x, a <= x < a + Z.of_nat n -> length (f x) = c) ->
    (k < n)%nat -> (j < c)%nat ->
    flat_map f (seqZ a (Z.of_nat n)) !! (k * c + j)%nat
    = f (a + Z.of_nat k) !! j.
Proof.
  induction n as [|n IH]; intros a k j Hc Hk Hj; [lia|].
  rewrite seqZ_S. cbn [flat_map].
  destruct k as [|k].
  - rewrite lookup_app_l by (rewrite Hc; lia).
    simpl. rewrite Z.add_0_r. reflexivity.
  - rewrite lookup_app_r by (rewrite Hc; lia).
    rewrite Hc by lia.
    replace (S k * c + j - c)%nat with (k * c + j)%nat by lia.
    rewrite IH; [|intros x Hx; apply Hc; lia|lia|lia].
    f_equal. f_equal. lia.
Qed.

(** The size of an image, and the bytes of its pixels. *)
Lemma image_length (width height : Z) (pixel : Z -> Z -> list Byte.byte)
    (c : nat) :
  0 <= width -> 0 <= height ->
  (forall x y, 0 <= x < width -> 0 <= y < height ->
     length (pixel x y) = c) ->
  Z.of_nat (length (image width height pixel)) = width * height * Z.of_nat c.
Proof.
  intros Hw Hh Hc. unfold image.
  rewrite (flat_map_length_cells _ (Z.to_nat width * c)).
  - rewrite length_seqZ. lia.
  - intros y Hy. apply In_seqZ in Hy.
    rewrite (flat_map_length_cells _ c).
    + rewrite length_seqZ. reflexivity.
    + intros x Hx. apply In_seqZ in Hx. apply Hc; lia.
Qed.

Lemma image_lookup (width height : Z) (pixel : Z -> Z -> list Byte.byte)
    (c : nat) (x y : Z) (j : nat) :
  (forall x y, 0 <= x < width -> 0 <= y < height ->
     length (pixel x y) = c) ->
  0 <= x < width -> 0 <= y < height -> (j < c)%nat ->
  image width height pixel
    !! Z.to_nat ((y * width + x) * Z.of_nat c + Z.of_nat j)
  = pixel x y !! j.
Proof.
  intros Hc Hx Hy Hj. unfold image.
  assert (Hrow : forall y', 0 <= y' < 0 + Z.of_nat (Z.to_nat height) ->
            length (flat_map (fun x => pixel x y') (seqZ 0 width))
            = (Z.to_nat width * c)%nat).
  { intros y' Hy'. rewrite (flat_map_length_cells _ c).
    - rewrite length_seqZ. reflexivity.
    - intros x' Hx'. apply In_seqZ in Hx'. apply Hc; lia. }
  replace (Z.to_nat ((y * width + x) * Z.of_nat c + Z.of_nat j))
    with (Z.to_nat y * (Z.to_nat width * c)
          + (Z.to_nat x * c + j))%nat by nia.
  rewrite <- (Z2Nat.id height) at 1 by lia.
  rewrite (flat_map_seqZ_lookup _ (Z.to_nat width * c) (Z.to_nat height) 0
             (Z.to_nat y) (Z.to_nat x * c + j) Hrow) by nia.
  rewrite Z.add_0_l, Z2Nat.id by lia.
  rewrite <- (Z2Nat.id width) at 1 by lia.
  rewrite (flat_map_seqZ_lookup (fun x => pixel x y) c (Z.to_nat width) 0
             (Z.to_nat x) j) by (try (intros x' Hx'; apply Hc); lia).
  rewrite Z.add_0_l, Z2Nat.id by lia. reflexivity.
Qed.

Lemma flat_map_const {A} (p : list Byte.byte) (l : list A) :
  flat_map (fun _ => p) l = concat (repeat p (length l)).
Proof.
  induction l as [|a l IH]; simpl; [reflexivity|]. rewrite IH. reflexivity.
Qed.

Lemma concat_repeat_mul (p : list Byte.byte) (n m : nat) :
  concat (repeat (concat (repeat p n)) m) = concat (repeat p (m * n)).
Proof.
  induction m as [|m IH]; simpl; [reflexivity|].
  rewrite IH, repeat_app, concat_app. reflexivity.
Qed.

(** An image of one colour is its pixel, repeated. *)
Lemma image_const (width height : Z) (p : list Byte.byte) :
  0 <= width -> 0 <= height ->
  image width height (fun _ _ => p)
  = flat_map (fun _ => p) (seqZ 0 (width * height)).
Proof.
  intros Hw Hh. unfold image.
  rewrite (flat_map_const p (seqZ 0 (width * height))).
  rewrite (flat_map_const p (seqZ 0 width)).
  rewrite (flat_map_const _ (seqZ 0 height)).
  rewrite concat_repeat_mul, !length_seqZ.
  f_equal. f_equal. nia.
Qed.

(** Two nested loops, over the rows and over the columns of a row, that
    write the pixels of an image one after the other. *)
Lemma for_each_image (c : nat) (pixel : Z -> Z -> list Byte.byte)
    (body : Z -> Z -> list Byte.byte -> Result (list Byte.byte))
    (width height : Z) :
  0 <= width -> 0 <= height ->
  (forall x y, 0 <= x < width -> 0 <= y < height ->
     length (pixel x y) = c) ->
  (forall x y pre old post,
     0 <= x < width -> 0 <= y < height ->
     Z.of_nat (length pre) = (y * width + x) * Z.of_nat c ->
     length old = c ->
     Z.of_nat (length (pre ++ old ++ post)%list)
     = width * height * Z.of_nat c ->
     body x y (pre ++ old ++ post)%list
     = Value (pre ++ pixel x y ++ post)%list) ->
  for_each (seqZ 0 height)
           (fun y => for_each (seqZ 0 width) (fun x => body x y))
           (repeat Byte.x00 (Z.to_nat (width * height * Z.of_nat c)))
  = Value (image width height pixel).
Proof.
  intros Hw Hh Hc Hbody.
  pose proof (for_each_fill (Z.to_nat width * c)
                (Z.to_nat (width * height * Z.of_nat c))
                (fun y => flat_map (fun x => pixel x y) (seqZ 0 width))
                (fun y => for_each (seqZ 0 width) (fun x => body x y))
                (fun y => Z.to_nat (y * width * Z.of_nat c))
                (Z.to_nat height) 0 []
                (repeat Byte.x00 (Z.to_nat (width * height * Z.of_nat c)))
                []) as H.
  rewrite !app_nil_r, Z2Nat.id in H by exact Hh. simpl app in H.
  apply H; clear H.
  - intros y Hy. split; [|nia].
    rewrite (flat_map_length_cells _ c).
    + rewrite length_seqZ. reflexivity.
    + intros x Hx. apply In_seqZ in Hx. apply Hc; lia.
  - intros y pre old post Hy Hpre Hold Htotal.
    pose proof (for_each_fill c
                  (Z.to_nat (width * height * Z.of_nat c))
                  (fun x => pixel x y) (fun x => body x y)
                  (fun x => Z.to_nat ((y * width + x) * Z.of_nat c))
                  (Z.to_nat width) 0 pre old post) as H.
    rewrite Z2Nat.id in H by exact Hw.
    apply H; clear H.
    + intros x Hx. split; [apply Hc; lia|nia].
    + intros x pre' old' post' Hx Hpre' Hold' Htotal'.
      apply Hbody; [lia|lia| |exact Hold'|].
      * rewrite Hpre'. rewrite Z2Nat.id; nia.
      * rewrite Htotal'. rewrite Z2Nat.id; nia.
    + rewrite Hpre. f_equal. lia.
    + exact Hold.
    + exact Htotal.
  - reflexivity.
  - rewrite repeat_length. nia.
  - rewrite repeat_length. reflexivity.
Qed.

(** ** Test frames: [CreateColorFrame] and [CreateTestFrame] *)

(** [resize] of an empty vector. *)
Lemma resize_empty (n : Z) :
  n <= VECTOR_MAX_SIZE ->
  resize n [] = Value (repeat Byte.x00 (Z.to_nat n)).
Proof.
  intros Hn. unfold resize.
  replace (n >? VECTOR_MAX_SIZE) with false
    by (symmetry; apply not_true_is_false; intros H;
        apply Z.gtb_lt in H; lia).
  rewrite firstn_nil, Nat.sub_0_r. reflexivity.
Qed.

Lemma resize_throws (n : Z) (data : list Byte.byte) :
  VECTOR_MAX_SIZE < n -> resize n data = Exception "std::length_error".
Proof.
  intros Hn. unfold resize.
  replace (n >? VECTOR_MAX_SIZE) with true
    by (symmetry; apply Z.gtb_lt; lia).
  reflexivity.
Qed.

(** The three sizes that [CalculateFrameSize] knows, for dimensions
    whose product, taken three times, is an [int]. *)
Lemma CalculateFrameSize_sizes (width height : Z) :
  is_int (width * height * 3) ->
  FrameUtils.CalculateFrameSize width height "bgr"
  = to_size_t (width * height * 3)
  /\ FrameUtils.CalculateFrameSize width height "rgb"
     = to_size_t (width * height * 3)
  /\ FrameUtils.CalculateFrameSize width height "gray"
     = to_size_t (width * height)
  /\ FrameUtils.CalculateFrameSize width height "jpeg"
     = to_size_t (Z.quot (width * height * 3) 2)
  /\ FrameUtils.CalculateFrameSize width height "png"
     = to_size_t (Z.quot (width * height * 3) 2).
Proof.
  intros H3.
  assert (H1 : is_int (width * height))
    by (unfold is_int, INT_MIN, INT_MAX in *; lia).
  unfold FrameUtils.CalculateFrameSize. simpl.
  rewrite !(wrap32_id (width * height)) by exact H1.
  rewrite !wrap32_id by exact H3.
  repeat split; reflexivity.
Qed.

(** Conversion to [size_t] of a value in range, and of a negative
    value. *)
Lemma to_size_t_id (z : Z) : 0 <= z < 2 ^ 64 -> to_size_t z = z.
Proof. intros H. unfold to_size_t. apply Z.mod_small. exact H. Qed.

Lemma to_size_t_negative (z : Z) :
  - 2 ^ 63 <= z < 0 -> VECTOR_MAX_SIZE < to_size_t z.
Proof.
  intros H. unfold to_size_t, VECTOR_MAX_SIZE.
  replace z with (z + 2 ^ 64 + (-1) * 2 ^ 64) by lia.
  rewrite Z.mod_add by lia. rewrite Z.mod_small; lia.
Qed.

(** The loop of [CreateColorFrame] over a buffer of [m] pixels. *)
Lemma fill_pixels (m : nat) (b0 b1 b2 : Byte.byte) :
  Z.of_nat (3 * m) + 2 < 2 ^ 64 ->
  for_each (every_third (Z.of_nat (length (repeat Byte.x00 (3 * m)))))
           (fun i data => store_pixel i b0 b1 b2 data)
           (repeat Byte.x00 (3 * m))
  = Value (flat_map (fun _ => [b0; b1; b2]) (seqZ 0 (Z.of_nat m))).
Proof.
  intros Hsmall.
  rewrite repeat_length, every_third_whole, for_each_map.
  pose proof (for_each_fill 3 (3 * m) (fun _ => [b0; b1; b2])
                (fun k data => store_pixel (3 * k) b0 b1 b2 data)
                (fun k => Z.to_nat (3 * k)) m 0 []
                (repeat Byte.x00 (3 * m)) []) as H.
  rewrite !app_nil_r in H. simpl app in H. apply H; clear H.
  - intros x Hx. split; [reflexivity|lia].
  - intros x pre old post Hx Hpre Hold _.
    destruct old as [|o0 [|o1 [|o2 [|]]]]; try discriminate Hold.
    apply store_pixel_app; lia.
  - reflexivity.
  - rewrite repeat_length. lia.
  - rewrite repeat_length. reflexivity.
Qed.

Lemma exchanged_flat_map {A} (a b c : Byte.byte) (l : list A) :
  exchanged (flat_map (fun _ => [a; b; c]) l)
  = flat_map (fun _ => [c; b; a]) l.
Proof.
  induction l as [|x l IH]; simpl; [reflexivity|]. rewrite IH. reflexivity.
Qed.

(** The engine accepts an image of positive dimensions whose size is at
    least half the number of its pixels. *)
Lemma CameraManager_ValidateFrame_size (data : list Byte.byte)
    (width height : Z) (format : string) (now : Z) :
  0 < width -> 0 < height -> width * height < 2 ^ 64 ->
  data <> [] ->
  width * height <= 2 * Z.of_nat (length data) + 1 ->
  CameraManager_ValidateFrame (Frame.mk data width height format now)
  = true.
Proof.
  intros Hw Hh Hsmall Hdata Hsize. unfold CameraManager_ValidateFrame.
  cbn [Frame.data Frame.width Frame.height].
  destruct data as [|v data]; [contradiction|].
  replace (width <=? 0) with false by (symmetry; apply Z.leb_gt; lia).
  replace (height <=? 0) with false by (symmetry; apply Z.leb_gt; lia).
  cbn [orb]. apply negb_true_iff, Z.ltb_ge.
  rewrite !to_size_t_id by nia. rewrite Z.mod_small by nia.
  assert (width * height / 2 < Z.of_nat (length (v :: data)) + 1)
    by (apply Z.div_lt_upper_bound; lia).
  lia.
Qed.

(** [std::fill] on a buffer of zeros. *)
Lemma map_const_repeat (v x : Byte.byte) (n : nat) :
  List.map (fun _ => v) (repeat x n) = concat (repeat [v] n).
Proof.
  induction n as [|n IH]; simpl; [reflexivity|]. rewrite IH. reflexivity.
Qed.

(** The buffer of an image of one colour, as the two loops of
    [CreateColorFrame] and [std::fill] leave it. *)
Lemma fill_image (width height : Z) (b0 b1 b2 : Byte.byte) :
  0 <= width -> 0 <= height -> width * height * 3 <= INT_MAX ->
  let data := repeat Byte.x00 (Z.to_nat (width * height * 3)) in
  for_each (every_third (Z.of_nat (length data)))
           (fun i data => store_pixel i b0 b1 b2 data) data
  = Value (image width height (fun _ _ => [b0; b1; b2])).
Proof.
  intros Hw Hh Hsize data. subst data.
  replace (Z.to_nat (width * height * 3))
    with (3 * Z.to_nat (width * height))%nat by nia.
  rewrite fill_pixels by (unfold INT_MAX in Hsize; nia).
  rewrite Z2Nat.id by nia. rewrite image_const by assumption. reflexivity.
Qed.

Lemma fill_gray (width height : Z) (gray : Byte.byte) :
  0 <= width -> 0 <= height ->
  List.map (fun _ => gray) (repeat Byte.x00 (Z.to_nat (width * height)))
  = image width height (fun _ _ => [gray]).
Proof.
  intros Hw Hh. rewrite map_const_repeat, image_const by assumption.
  rewrite flat_map_const, length_seqZ. reflexivity.
Qed.

(** The formats that [IsValidFormat] accepts, and what
    [CalculateFrameSize] and the tests on the format make of any
    other. *)
Lemma IsValidFormat_formats (format : string) :
  FrameUtils.IsValidFormat format = true ->
  format = "bgr" \/ format = "rgb" \/ format = "gray" \/ format = "jpeg"
  \/ format = "png".
Proof.
  unfold FrameUtils.IsValidFormat,
    FrameProcessorConstants.SUPPORTED_FORMATS. cbn [existsb].
  intros H.
  repeat (apply orb_true_iff in H as [H|H];
          [apply String.eqb_eq in H; tauto|]).
  discriminate H.
Qed.

Lemma CalculateFrameSize_other (width height : Z) (format : string) :
  FrameUtils.IsValidFormat format = false ->
  FrameUtils.CalculateFrameSize width height format = 0
  /\ String.eqb format "bgr" = false /\ String.eqb format "rgb" = false
  /\ String.eqb format "gray" = false.
Proof.
  unfold FrameUtils.IsValidFormat,
    FrameProcessorConstants.SUPPORTED_FORMATS. cbn [existsb].
  intros H.
  repeat (apply orb_false_iff in H as [? H]).
  unfold FrameUtils.CalculateFrameSize.
  repeat match goal with E : String.eqb _ _ = false |- _ =>
                           rewrite E; clear E end.
  repeat split; reflexivity.
Qed.

(** The engine accepts an image of positive dimensions, and a buffer
    of zeros of the size of a compressed frame. *)
Lemma image_valid (width height : Z) (pixel : Z -> Z -> list Byte.byte)
    (c : nat) (format : string) (now : Z) :
  0 < width -> 0 < height -> width * height < 2 ^ 64 ->
  (forall x y : Z, 0 <= x < width -> 0 <= y < height ->
     length (pixel x y) = c) ->
  (0 < c)%nat ->
  CameraManager_ValidateFrame
    (Frame.mk (image width height pixel) width height format now)
  = true.
Proof.
  intros Hw Hh Hsmall Hc Hpos.
  pose proof (image_length width height pixel c ltac:(lia) ltac:(lia) Hc)
    as Hlen.
  apply CameraManager_ValidateFrame_size; try lia; try nia.
  intros Hnil. rewrite Hnil in Hlen. simpl in Hlen. nia.
Qed.

Lemma zeros_valid (width height : Z) (format : string) (now : Z) :
  0 < width -> 0 < height -> width * height < 2 ^ 64 ->
  CameraManager_ValidateFrame
    (Frame.mk (repeat Byte.x00 (Z.to_nat (width * height * 3 / 2)))
       width height format now)
  = true.
Proof.
  intros Hw Hh Hsmall.
  assert (1 <= width * height * 3 / 2)
    by (apply Z.div_le_lower_bound; nia).
  assert (width * height <= 2 * (width * height * 3 / 2) + 1).
  { pose proof (Z.div_mod (width * height * 3) 2 ltac:(lia)).
    pose proof (Z.mod_pos_bound (width * height * 3) 2 ltac:(lia)).
    nia. }
  apply CameraManager_ValidateFrame_size; try lia.
  - intros Hnil. apply (f_equal (@length _)) in Hnil.
    rewrite repeat_length in Hnil. simpl in Hnil. lia.
  - rewrite repeat_length. lia.
Qed.

(** X27.  For dimensions that are not negative and a size that is an
    [int], [CreateColorFrame] makes a frame of [width * height] pixels:
    each pixel is (b, g, r) for the format [bgr] and (r, g, b) for
    [rgb], so [ConvertFormat] takes the data of the one to those of the
    other; for [gray] each pixel is the one byte of the weighted sum.
    For [jpeg] and [png] the colour is ignored and the data are
    [width * height * 3 / 2] zeros; for a format that is not supported
    the data are empty.  The capture engine accepts every frame made
    with positive dimensions in a supported format. *)
Theorem CreateColorFrame_pixels (now width height : Z) (r g b : Byte.byte) :
  0 <= width -> 0 <= height -> width * height * 3 <= INT_MAX ->
  let made format data :=
    CreateColorFrame now width height r g b format
    = Value (Frame.mk data width height format now) in
  made "bgr" (image width height (fun _ _ => [b; g; r]))
  /\ made "rgb" (image width height (fun _ _ => [r; g; b]))
  /\ FrameUtils.ConvertFormat (image width height (fun _ _ => [b; g; r]))
       width height "bgr" "rgb"
     = Value (image width height (fun _ _ => [r; g; b]))
  /\ (forall gray,
        gray_of r g b = Value gray ->
        made "gray" (image width height (fun _ _ => [gray])))
  /\ made "jpeg" (repeat Byte.x00 (Z.to_nat (width * height * 3 / 2)))
  /\ made "png" (repeat Byte.x00 (Z.to_nat (width * height * 3 / 2)))
  /\ (forall format,
        FrameUtils.IsValidFormat format = false -> made format [])
  /\ (0 < width -> 0 < height ->
      forall format frame,
        FrameUtils.IsValidFormat format = true ->
        CreateColorFrame now width height r g b format = Value frame ->
        CameraManager_ValidateFrame frame = true).
Proof.
  intros Hw Hh Hsize made. subst made. cbv beta.
  assert (Hint : is_int (width * height * 3))
    by (unfold is_int, INT_MIN, INT_MAX in *; nia).
  destruct (CalculateFrameSize_sizes width height Hint)
    as (Sbgr & Srgb & Sgray & Sjpeg & Spng).
  assert (Hquot : Z.quot (width * height * 3) 2 = width * height * 3 / 2)
    by (apply Z.quot_div_nonneg; nia).
  assert (Hhalf : 0 <= width * height * 3 / 2 <= width * height * 3)
    by (split; [apply Z.div_pos; nia
               |apply Z.div_le_upper_bound; nia]).
  unfold INT_MAX in Hsize.
  assert (Hbgr :
    CreateColorFrame now width height r g b "bgr"
    = Value (Frame.mk (image width height (fun _ _ => [b; g; r])) width
               height "bgr" now)).
  { unfold CreateColorFrame. rewrite Sbgr, to_size_t_id by nia.
    rewrite resize_empty by (unfold VECTOR_MAX_SIZE; nia).
    cbn [mbind Result_bind String.eqb Ascii.eqb Bool.eqb].
    rewrite fill_image by assumption. reflexivity. }
  assert (Hrgb :
    CreateColorFrame now width height r g b "rgb"
    = Value (Frame.mk (image width height (fun _ _ => [r; g; b])) width
               height "rgb" now)).
  { unfold CreateColorFrame. rewrite Srgb, to_size_t_id by nia.
    rewrite resize_empty by (unfold VECTOR_MAX_SIZE; nia).
    cbn [mbind Result_bind String.eqb Ascii.eqb Bool.eqb].
    rewrite fill_image by assumption. reflexivity. }
  assert (Hgray : forall gray,
    gray_of r g b = Value gray ->
    CreateColorFrame now width height r g b "gray"
    = Value (Frame.mk (image width height (fun _ _ => [gray])) width
               height "gray" now)).
  { intros gray Hg. unfold CreateColorFrame.
    rewrite Sgray, to_size_t_id by nia.
    rewrite resize_empty by (unfold VECTOR_MAX_SIZE; nia).
    cbn [mbind Result_bind String.eqb Ascii.eqb Bool.eqb].
    rewrite Hg. cbn [mbind Result_bind].
    rewrite fill_gray by assumption. reflexivity. }
  assert (Hjpeg :
    CreateColorFrame now width height r g b "jpeg"
    = Value (Frame.mk (repeat Byte.x00 (Z.to_nat (width * height * 3 / 2)))
               width height "jpeg" now)).
  { unfold CreateColorFrame. rewrite Sjpeg, Hquot, to_size_t_id by lia.
    rewrite resize_empty by (unfold VECTOR_MAX_SIZE; lia). reflexivity. }
  assert (Hpng :
    CreateColorFrame now width height r g b "png"
    = Value (Frame.mk (repeat Byte.x00 (Z.to_nat (width * height * 3 / 2)))
               width height "png" now)).
  { unfold CreateColorFrame. rewrite Spng, Hquot, to_size_t_id by lia.
    rewrite resize_empty by (unfold VECTOR_MAX_SIZE; lia). reflexivity. }
  split; [exact Hbgr|]. split; [exact Hrgb|]. split.
  { rewrite !image_const by assumption.
    rewrite ConvertFormat_whole.
    - rewrite exchanged_flat_map. reflexivity.
    - rewrite (flat_map_length_cells _ 3) by reflexivity.
      apply Nat.Div0.mod_mul. }
  split; [exact Hgray|]. split; [exact Hjpeg|]. split; [exact Hpng|]. split.
  { intros format Hother.
    destruct (CalculateFrameSize_other width height format Hother)
      as (S0 & E1 & E2 & E3).
    unfold CreateColorFrame. rewrite S0, E1, E2, E3. reflexivity. }
  intros Pw Ph format frame Hvalid Hmade.
  destruct (IsValidFormat_formats format Hvalid)
    as [->|[->|[->|[->| ->]]]].
  - rewrite Hbgr in Hmade. inversion Hmade.
    apply (image_valid _ _ _ 3%nat); try reflexivity; nia.
  - rewrite Hrgb in Hmade. inversion Hmade.
    apply (image_valid _ _ _ 3%nat); try reflexivity; nia.
  - destruct (gray_of r g b) as [gray| |] eqn:Hg.
    + rewrite (Hgray gray eq_refl) in Hmade. inversion Hmade.
      apply (image_valid _ _ _ 1%nat); try reflexivity; nia.
    + exfalso. revert Hmade. unfold CreateColorFrame.
      rewrite Sgray, to_size_t_id by nia.
      rewrite resize_empty by (unfold VECTOR_MAX_SIZE; nia).
      cbn [mbind Result_bind String.eqb Ascii.eqb Bool.eqb].
      rewrite Hg. discriminate.
    + exfalso. revert Hmade. unfold CreateColorFrame.
      rewrite Sgray, to_size_t_id by nia.
      rewrite resize_empty by (unfold VECTOR_MAX_SIZE; nia).
      cbn [mbind Result_bind String.eqb Ascii.eqb Bool.eqb].
      rewrite Hg. discriminate.
  - rewrite Hjpeg in Hmade. inversion Hmade. apply zeros_valid; nia.
  - rewrite Hpng in Hmade. inversion Hmade. apply zeros_valid; nia.
Qed.

Lemma CreateColorFrame_pixels_witness :
  CreateColorFrame 0 2 2 Byte.x0a Byte.x14 Byte.x1e "bgr"
  = Value (Frame.mk
             (image 2 2 (fun _ _ => [Byte.x1e; Byte.x14; Byte.x0a]))
             2 2 "bgr" 0)
  /\ FrameUtils.ConvertFormat
       (image 2 2 (fun _ _ => [Byte.x1e; Byte.x14; Byte.x0a])) 2 2
       "bgr" "rgb"
     = Value (image 2 2 (fun _ _ => [Byte.x0a; Byte.x14; Byte.x1e])).
Proof.
  destruct (CreateColorFrame_pixels 0 2 2 Byte.x0a Byte.x14 Byte.x1e)
    as (H1 & _ & H3 & _).
  - lia.
  - lia.
  - unfold INT_MAX. lia.
  - split; [exact H1|exact H3].
Defined.

(** [static_cast<uint8_t>] reduces modulo 256. *)
Lemma uint8_mod (z : Z) : uint8 (z mod 256) = uint8 z.
Proof. unfold uint8. rewrite Z.mod_mod by lia. reflexivity. Qed.

(** The loops of [CreateTestFrame] over a buffer of the size of the
    frame. *)
Lemma CreateTestFrame_color_loop (width height : Z) :
  0 <= width -> 0 <= height -> width * height * 3 <= INT_MAX ->
  width * 255 <= INT_MAX -> height * 255 <= INT_MAX ->
  for_each (seqZ 0 height)
    (fun y =>
       for_each (seqZ 0 width)
         (fun x data =>
            let idx :=
              to_size_t (wrap32 (wrap32 (wrap32 (y * width) + x) * 3)) in
            if to_size_t (idx + 2) <? Z.of_nat (length data) then
              store_pixel idx
                (uint8 (Z.quot (wrap32 (x * 255)) width))
                (uint8 (Z.quot (wrap32 (y * 255)) height))
                (uint8 128) data
            else Value data))
    (repeat Byte.x00 (Z.to_nat (width * height * 3)))
  = Value (image width height
             (fun x y => [uint8 (x * 255 / width);
                          uint8 (y * 255 / height); uint8 128])).
Proof.
  intros Hw Hh Hsize Hw255 Hh255. unfold INT_MAX in *.
  apply (for_each_image 3
           (fun x y => [uint8 (x * 255 / width); uint8 (y * 255 / height);
                        uint8 128])
           (fun x y data =>
              let idx :=
                to_size_t (wrap32 (wrap32 (wrap32 (y * width) + x) * 3)) in
              if to_size_t (idx + 2) <? Z.of_nat (length data) then
                store_pixel idx
                  (uint8 (Z.quot (wrap32 (x * 255)) width))
                  (uint8 (Z.quot (wrap32 (y * 255)) height))
                  (uint8 128) data
              else Value data)
           width height Hw Hh).
  - reflexivity.
  - intros x y pre old post Hx Hy Hpre Hold Htotal.
    destruct old as [|o0 [|o1 [|o2 [|]]]]; try discriminate Hold.
    simpl app in *. cbv zeta.
    rewrite (wrap32_id (y * width))
      by (unfold is_int, INT_MIN, INT_MAX; nia).
    rewrite (wrap32_id (y * width + x))
      by (unfold is_int, INT_MIN, INT_MAX; nia).
    rewrite (wrap32_id ((y * width + x) * 3))
      by (unfold is_int, INT_MIN, INT_MAX; nia).
    rewrite (wrap32_id (x * 255))
      by (unfold is_int, INT_MIN, INT_MAX; nia).
    rewrite (wrap32_id (y * 255))
      by (unfold is_int, INT_MIN, INT_MAX; nia).
    rewrite (to_size_t_id ((y * width + x) * 3)) by nia.
    rewrite (to_size_t_id ((y * width + x) * 3 + 2)) by nia.
    rewrite Htotal.
    replace ((y * width + x) * 3 + 2 <? width * height * Z.of_nat 3) with true
      by (symmetry; apply Z.ltb_lt; nia).
    rewrite (Z.quot_div_nonneg (x * 255) width) by lia.
    rewrite (Z.quot_div_nonneg (y * 255) height) by lia.
    apply store_pixel_app; [lia|nia].
Qed.

Lemma CreateTestFrame_gray_loop (width height : Z) :
  0 <= width -> 0 <= height -> width * height <= INT_MAX ->
  width + height <= INT_MAX ->
  for_each (seqZ 0 height)
    (fun y =>
       for_each (seqZ 0 width)
         (fun x data =>
            let idx := to_size_t (wrap32 (wrap32 (y * width) + x)) in
            if idx <? Z.of_nat (length data) then
              store idx (uint8 (Z.rem (wrap32 (x + y)) 256)) data
            else Value data))
    (repeat Byte.x00 (Z.to_nat (width * height)))
  = Value (image width height (fun x y => [uint8 (x + y)])).
Proof.
  intros Hw Hh Hsize Hsum. unfold INT_MAX in *.
  replace (width * height) with (width * height * Z.of_nat 1) at 1 by lia.
  apply (for_each_image 1 (fun x y => [uint8 (x + y)])
           (fun x y data =>
              let idx := to_size_t (wrap32 (wrap32 (y * width) + x)) in
              if idx <? Z.of_nat (length data) then
                store idx (uint8 (Z.rem (wrap32 (x + y)) 256)) data
              else Value data)
           width height Hw Hh).
  - reflexivity.
  - intros x y pre old post Hx Hy Hpre Hold Htotal.
    destruct old as [|o0 [|]]; try discriminate Hold.
    simpl app in *. cbv zeta.
    rewrite (wrap32_id (y * width))
      by (unfold is_int, INT_MIN, INT_MAX; nia).
    rewrite (wrap32_id (y * width + x))
      by (unfold is_int, INT_MIN, INT_MAX; nia).
    rewrite (wrap32_id (x + y))
      by (unfold is_int, INT_MIN, INT_MAX; nia).
    rewrite (to_size_t_id (y * width + x)) by nia.
    rewrite Htotal.
    replace (y * width + x <? width * height * Z.of_nat 1) with true
      by (symmetry; apply Z.ltb_lt; nia).
    rewrite Z.rem_mod_nonneg, uint8_mod by lia.
    apply store_app. lia.
Qed.

(** X28.  For dimensions that are not negative, with [width * height *
    3], [width * 255] and [height * 255] in [int], [CreateTestFrame]
    makes the same gradient for [bgr] and for [rgb]: the pixel in column
    [x] of row [y] has the bytes [x * 255 / width], [y * 255 / height]
    and 128, the first two between 0 and 254.  For [gray] the pixel is
    [(x + y) mod 256]; for [jpeg] and [png] the data are zeros, for a
    format that is not supported they are empty.  The capture engine
    accepts every test frame of positive dimensions in a supported
    format. *)
Theorem CreateTestFrame_pixels (now width height : Z) :
  0 <= width -> 0 <= height -> width * height * 3 <= INT_MAX ->
  width * 255 <= INT_MAX -> height * 255 <= INT_MAX ->
  let made format data :=
    CreateTestFrame now width height format
    = Value (Frame.mk data width height format now) in
  let gradient :=
    image width height
      (fun x y => [uint8 (x * 255 / width); uint8 (y * 255 / height);
                   uint8 128]) in
  made "bgr" gradient
  /\ made "rgb" gradient
  /\ made "gray" (image width height (fun x y => [uint8 (x + y)]))
  /\ made "jpeg" (repeat Byte.x00 (Z.to_nat (width * height * 3 / 2)))
  /\ made "png" (repeat Byte.x00 (Z.to_nat (width * height * 3 / 2)))
  /\ (forall format,
        FrameUtils.IsValidFormat format = false -> made format [])
  /\ (forall x y,
        0 <= x < width -> 0 <= y < height ->
        gradient !! Z.to_nat ((y * width + x) * 3)
        = Some (uint8 (x * 255 / width))
        /\ gradient !! Z.to_nat ((y * width + x) * 3 + 1)
           = Some (uint8 (y * 255 / height))
        /\ gradient !! Z.to_nat ((y * width + x) * 3 + 2)
           = Some (uint8 128)
        /\ 0 <= x * 255 / width <= 254
        /\ 0 <= y * 255 / height <= 254)
  /\ (0 < width -> 0 < height ->
      forall format frame,
        FrameUtils.IsValidFormat format = true ->
        CreateTestFrame now width height format = Value frame ->
        CameraManager_ValidateFrame frame = true).
Proof.
  intros Hw Hh Hsize Hw255 Hh255 made gradient. subst made gradient.
  cbv beta.
  assert (Hint : is_int (width * height * 3))
    by (unfold is_int, INT_MIN, INT_MAX in *; nia).
  destruct (CalculateFrameSize_sizes width height Hint)
    as (Sbgr & Srgb & Sgray & Sjpeg & Spng).
  assert (Hquot : Z.quot (width * height * 3) 2 = width * height * 3 / 2)
    by (apply Z.quot_div_nonneg; nia).
  assert (Hhalf : 0 <= width * height * 3 / 2 <= width * height * 3)
    by (split; [apply Z.div_pos; nia
               |apply Z.div_le_upper_bound; nia]).
  assert (Hbgr :
    CreateTestFrame now width height "bgr"
    = Value (Frame.mk
               (image width height
                  (fun x y => [uint8 (x * 255 / width);
                               uint8 (y * 255 / height); uint8 128]))
               width height "bgr" now)).
  { unfold CreateTestFrame.
    rewrite Sbgr, to_size_t_id by (unfold INT_MAX in *; nia).
    rewrite resize_empty by (unfold VECTOR_MAX_SIZE, INT_MAX in *; nia).
    cbn [mbind Result_bind String.eqb Ascii.eqb Bool.eqb orb].
    rewrite CreateTestFrame_color_loop by assumption. reflexivity. }
  assert (Hrgb :
    CreateTestFrame now width height "rgb"
    = Value (Frame.mk
               (image width height
                  (fun x y => [uint8 (x * 255 / width);
                               uint8 (y * 255 / height); uint8 128]))
               width height "rgb" now)).
  { unfold CreateTestFrame.
    rewrite Srgb, to_size_t_id by (unfold INT_MAX in *; nia).
    rewrite resize_empty by (unfold VECTOR_MAX_SIZE, INT_MAX in *; nia).
    cbn [mbind Result_bind String.eqb Ascii.eqb Bool.eqb orb].
    rewrite CreateTestFrame_color_loop by assumption. reflexivity. }
  assert (Hgray :
    CreateTestFrame now width height "gray"
    = Value (Frame.mk (image width height (fun x y => [uint8 (x + y)]))
               width height "gray" now)).
  { unfold CreateTestFrame.
    rewrite Sgray, to_size_t_id by (unfold INT_MAX in *; nia).
    rewrite resize_empty by (unfold VECTOR_MAX_SIZE, INT_MAX in *; nia).
    cbn [mbind Result_bind String.eqb Ascii.eqb Bool.eqb orb].
    rewrite CreateTestFrame_gray_loop
      by (unfold INT_MAX in *; try assumption; nia).
    reflexivity. }
  assert (Hjpeg :
    CreateTestFrame now width height "jpeg"
    = Value (Frame.mk (repeat Byte.x00 (Z.to_nat (width * height * 3 / 2)))
               width height "jpeg" now)).
  { unfold CreateTestFrame.
    rewrite Sjpeg, Hquot, to_size_t_id by (unfold INT_MAX in *; lia).
    rewrite resize_empty by (unfold VECTOR_MAX_SIZE, INT_MAX in *; lia).
    reflexivity. }
  assert (Hpng :
    CreateTestFrame now width height "png"
    = Value (Frame.mk (repeat Byte.x00 (Z.to_nat (width * height * 3 / 2)))
               width height "png" now)).
  { unfold CreateTestFrame.
    rewrite Spng, Hquot, to_size_t_id by (unfold INT_MAX in *; lia).
    rewrite resize_empty by (unfold VECTOR_MAX_SIZE, INT_MAX in *; lia).
    reflexivity. }
  split; [exact Hbgr|]. split; [exact Hrgb|]. split; [exact Hgray|].
  split; [exact Hjpeg|]. split; [exact Hpng|]. split.
  { intros format Hother.
    destruct (CalculateFrameSize_other width height format Hother)
      as (S0 & E1 & E2 & E3).
    unfold CreateTestFrame. rewrite S0, E1, E2, E3. reflexivity. }
  split.
  { intros x y Hx Hy.
    pose proof (image_lookup width height
                  (fun x y => [uint8 (x * 255 / width);
                               uint8 (y * 255 / height); uint8 128])
                  3 x y) as Hlook.
    change (Z.of_nat 3) with 3 in Hlook.
    split; [|split; [|split; [|split]]].
    - specialize (Hlook 0%nat). rewrite Z.add_0_r in Hlook.
      apply Hlook; try reflexivity; lia.
    - apply (Hlook 1%nat); try reflexivity; lia.
    - apply (Hlook 2%nat); try reflexivity; lia.
    - split; [apply Z.div_pos; lia|].
      assert (x * 255 / width < 255)
        by (apply Z.div_lt_upper_bound; lia). lia.
    - split; [apply Z.div_pos; lia|].
      assert (y * 255 / height < 255)
        by (apply Z.div_lt_upper_bound; lia). lia. }
  intros Pw Ph format frame Hvalid Hmade. unfold INT_MAX in *.
  destruct (IsValidFormat_formats format Hvalid)
    as [->|[->|[->|[->| ->]]]].
  - rewrite Hbgr in Hmade. inversion Hmade.
    apply (image_valid _ _ _ 3%nat); try reflexivity; nia.
  - rewrite Hrgb in Hmade. inversion Hmade.
    apply (image_valid _ _ _ 3%nat); try reflexivity; nia.
  - rewrite Hgray in Hmade. inversion Hmade.
    apply (image_valid _ _ _ 1%nat); try reflexivity; nia.
  - rewrite Hjpeg in Hmade. inversion Hmade. apply zeros_valid; nia.
  - rewrite Hpng in Hmade. inversion Hmade. apply zeros_valid; nia.
Qed.

Lemma CreateTestFrame_pixels_witness :
  CreateTestFrame 0 4 2 "gray"
  = Value (Frame.mk (image 4 2 (fun x y => [uint8 (x + y)])) 4 2 "gray" 0).
Proof.
  destruct (CreateTestFrame_pixels 0 4 2) as (_ & _ & H3 & _).
  - lia.
  - lia.
  - unfold INT_MAX. lia.
  - unfold INT_MAX. lia.
  - unfold INT_MAX. lia.
  - exact H3.
Defined.

(** ** Test patterns: colour bars and checkerboard *)

(** The bar of a column is one of the eight of the table. *)
Lemma bar_of_range (width x : Z) :
  0 <= width -> 0 <= x -> 0 <= bar_of width x <= 7.
Proof.
  intros Hw Hx. unfold bar_of.
  assert (0 <= x / Z.max 1 (width / 8)) by (apply Z.div_pos; lia).
  lia.
Qed.

Lemma bar_pixel_length (width x : Z) :
  0 <= width -> 0 <= x -> length (bar_pixel width x) = 3%nat.
Proof.
  intros Hw Hx. unfold bar_pixel.
  pose proof (bar_of_range width x Hw Hx) as Hb.
  assert (Hcases : bar_of width x = 0 \/ bar_of width x = 1
                   \/ bar_of width x = 2 \/ bar_of width x = 3
                   \/ bar_of width x = 4 \/ bar_of width x = 5
                   \/ bar_of width x = 6 \/ bar_of width x = 7) by lia.
  repeat (destruct Hcases as [->|Hcases]; [reflexivity|]).
  rewrite Hcases. reflexivity.
Qed.

(** The index of a pixel and the size of the frame, when no product
    wraps in [size_t]. *)
Lemma pixel_index_in_range (g : TestPatternGenerator.t) (x y : Z) :
  0 <= x < TestPatternGenerator.width_ g ->
  0 <= y -> TestPatternGenerator.width_ g <= INT_MAX -> y <= INT_MAX ->
  TestPatternGenerator.pixel_index g x y
  = (y * TestPatternGenerator.width_ g + x) * 3.
Proof.
  intros Hx Hy Hw Hy'. unfold TestPatternGenerator.pixel_index, INT_MAX in *.
  rewrite (to_size_t_id y) by lia.
  rewrite (to_size_t_id x) by lia.
  rewrite (to_size_t_id (TestPatternGenerator.width_ g)) by lia.
  rewrite (to_size_t_id (y * TestPatternGenerator.width_ g)) by nia.
  rewrite (to_size_t_id (y * TestPatternGenerator.width_ g + x)) by nia.
  apply to_size_t_id. nia.
Qed.

Lemma frame_size_in_range (g : TestPatternGenerator.t) :
  0 <= TestPatternGenerator.width_ g <= INT_MAX ->
  0 <= TestPatternGenerator.height_ g <= INT_MAX ->
  TestPatternGenerator.frame_size g
  = TestPatternGenerator.width_ g * TestPatternGenerator.height_ g * 3.
Proof.
  intros Hw Hh. unfold TestPatternGenerator.frame_size, INT_MAX in *.
  rewrite (to_size_t_id (TestPatternGenerator.width_ g)) by lia.
  rewrite (to_size_t_id (TestPatternGenerator.height_ g)) by lia.
  rewrite (to_size_t_id (TestPatternGenerator.width_ g
                         * TestPatternGenerator.height_ g)) by nia.
  apply to_size_t_id. nia.
Qed.

(** The loops of [GenerateColorBars] and of [GenerateCheckerboard]. *)
Lemma GenerateColorBars_loop (g : TestPatternGenerator.t) :
  let width := TestPatternGenerator.width_ g in
  let height := TestPatternGenerator.height_ g in
  0 <= width <= INT_MAX -> 0 <= height <= INT_MAX ->
  for_each (seqZ 0 height)
    (fun y =>
       for_each (seqZ 0 width)
         (fun x data =>
            let bar := Z.quot x (Z.max 1 (Z.quot width 8)) in
            let bar := if bar >=? 8 then 7 else bar in
            match TestPatternGenerator.colors !! Z.to_nat bar with
            | Some (c0, c1, c2) =>
                if 0 <=? bar then
                  store_pixel (TestPatternGenerator.pixel_index g x y)
                              (uint8 c0) (uint8 c1) (uint8 c2) data
                else UndefinedBehaviour
            | None => UndefinedBehaviour
            end))
    (repeat Byte.x00 (Z.to_nat (width * height * 3)))
  = Value (image width height (fun x _ => bar_pixel width x)).
Proof.
  intros width height Hw Hh.
  apply (for_each_image 3 (fun x _ => bar_pixel width x)
           (fun x y data =>
              let bar := Z.quot x (Z.max 1 (Z.quot width 8)) in
              let bar := if bar >=? 8 then 7 else bar in
              match TestPatternGenerator.colors !! Z.to_nat bar with
              | Some (c0, c1, c2) =>
                  if 0 <=? bar then
                    store_pixel (TestPatternGenerator.pixel_index g x y)
                                (uint8 c0) (uint8 c1) (uint8 c2) data
                  else UndefinedBehaviour
              | None => UndefinedBehaviour
              end)
           width height ltac:(lia) ltac:(lia)).
  - intros x y Hx Hy. apply bar_pixel_length; lia.
  - intros x y pre old post Hx Hy Hpre Hold Htotal.
    destruct old as [|o0 [|o1 [|o2 [|]]]]; try discriminate Hold.
    simpl app in *. cbv zeta.
    rewrite (Z.quot_div_nonneg width 8) by lia.
    rewrite (Z.quot_div_nonneg x) by lia.
    replace (if x / Z.max 1 (width / 8) >=? 8 then 7
             else x / Z.max 1 (width / 8))
      with (bar_of width x)
      by (unfold bar_of;
          destruct (Z.geb_spec (x / Z.max 1 (width / 8)) 8); lia).
    rewrite pixel_index_in_range by (fold width; unfold INT_MAX in *; lia).
    fold width. unfold bar_pixel.
    pose proof (bar_of_range width x ltac:(lia) ltac:(lia)) as Hb.
    assert (Hcases : bar_of width x = 0 \/ bar_of width x = 1
                     \/ bar_of width x = 2 \/ bar_of width x = 3
                     \/ bar_of width x = 4 \/ bar_of width x = 5
                     \/ bar_of width x = 6 \/ bar_of width x = 7) by lia.
    unfold INT_MAX in *.
    repeat (destruct Hcases as [->|Hcases];
            [apply store_pixel_app; [lia|nia]|]).
    rewrite Hcases. apply store_pixel_app; [lia|nia].
Qed.

Lemma GenerateCheckerboard_loop (g : TestPatternGenerator.t) :
  let width := TestPatternGenerator.width_ g in
  let height := TestPatternGenerator.height_ g in
  0 <= width <= INT_MAX -> 0 <= height <= INT_MAX ->
  for_each (seqZ 0 height)
    (fun y =>
       for_each (seqZ 0 width)
         (fun x data =>
            let is_white :=
              Z.rem (wrap32 (Z.quot x 32 + Z.quot y 32)) 2 =? 0 in
            let color := uint8 (if is_white then 255 else 0) in
            store_pixel (TestPatternGenerator.pixel_index g x y) color
                        color color data))
    (repeat Byte.x00 (Z.to_nat (width * height * 3)))
  = Value (image width height check_pixel).
Proof.
  intros width height Hw Hh.
  apply (for_each_image 3 check_pixel
           (fun x y data =>
              let is_white :=
                Z.rem (wrap32 (Z.quot x 32 + Z.quot y 32)) 2 =? 0 in
              let color := uint8 (if is_white then 255 else 0) in
              store_pixel (TestPatternGenerator.pixel_index g x y) color
                          color color data)
           width height ltac:(lia) ltac:(lia)).
  - reflexivity.
  - intros x y pre old post Hx Hy Hpre Hold Htotal.
    destruct old as [|o0 [|o1 [|o2 [|]]]]; try discriminate Hold.
    simpl app in *. cbv zeta. unfold INT_MAX in *.
    rewrite (Z.quot_div_nonneg x), (Z.quot_div_nonneg y) by lia.
    assert (0 <= x / 32 <= x) by (split; [apply Z.div_pos; lia|
      apply Z.div_le_upper_bound; lia]).
    assert (0 <= y / 32 <= y) by (split; [apply Z.div_pos; lia|
      apply Z.div_le_upper_bound; lia]).
    assert (x / 32 < 2 ^ 27) by (apply Z.div_lt_upper_bound; lia).
    assert (y / 32 < 2 ^ 27) by (apply Z.div_lt_upper_bound; lia).
    rewrite wrap32_id by (unfold is_int, INT_MIN, INT_MAX; lia).
    rewrite Z.rem_mod_nonneg by lia.
    rewrite pixel_index_in_range by (fold width; unfold INT_MAX; lia).
    fold width. unfold check_pixel.
    destruct ((x / 32 + y / 32) mod 2 =? 0);
      apply store_pixel_app; first [lia|nia].
Qed.

Lemma bar_of_even_bars (width x : Z) :
  0 <= x < width -> width mod 8 = 0 -> bar_of width x = x / (width / 8).
Proof.
  intros Hx H8. unfold bar_of.
  pose proof (Z.div_mod width 8 ltac:(lia)) as Hdiv.
  rewrite H8, Z.add_0_r in Hdiv.
  assert (0 < width / 8) by lia.
  rewrite Z.max_r by lia. apply Z.min_r.
  assert (x / (width / 8) < 8) by (apply Z.div_lt_upper_bound; lia).
  lia.
Qed.

(** X29.  For a generator whose dimensions are not negative,
    [GenerateColorBars] and [GenerateCheckerboard] make [bgr] frames of
    [width * height] pixels when the [width * height * 3] bytes fit a
    vector, and throw [std::length_error] otherwise.  The pixel in
    column [x] has the colour of bar [min 7 (x / max 1 (width / 8))] of
    the table, whatever its row: the first bar is white, and for a
    width that is a multiple of 8 the eight bars are equally wide.  The
    checkerboard is white where [x / 32 + y / 32] is even and black
    elsewhere.  The capture engine accepts both frames when the
    dimensions are positive. *)
Theorem TestPatternGenerator_patterns (now : Z)
    (g : TestPatternGenerator.t) :
  let width := TestPatternGenerator.width_ g in
  let height := TestPatternGenerator.height_ g in
  let bars := image width height (fun x _ => bar_pixel width x) in
  let board := image width height check_pixel in
  0 <= width <= INT_MAX -> 0 <= height <= INT_MAX ->
  (width * height * 3 <= VECTOR_MAX_SIZE ->
   TestPatternGenerator.GenerateColorBars now g
   = Value (Frame.mk bars width height "bgr" now)
   /\ TestPatternGenerator.GenerateCheckerboard now g
      = Value (Frame.mk board width height "bgr" now)
   /\ (0 < width -> 0 < height ->
       CameraManager_ValidateFrame (Frame.mk bars width height "bgr" now)
       = true
       /\ CameraManager_ValidateFrame
            (Frame.mk board width height "bgr" now) = true))
  /\ (VECTOR_MAX_SIZE < width * height * 3 ->
      TestPatternGenerator.GenerateColorBars now g
      = Exception "std::length_error"
      /\ TestPatternGenerator.GenerateCheckerboard now g
         = Exception "std::length_error")
  /\ (forall x y (j : nat),
        0 <= x < width -> 0 <= y < height -> (j < 3)%nat ->
        bars !! Z.to_nat ((y * width + x) * 3 + Z.of_nat j)
        = bar_pixel width x !! j
        /\ board !! Z.to_nat ((y * width + x) * 3 + Z.of_nat j)
           = check_pixel x y !! j)
  /\ (forall x,
        0 <= x < width ->
        0 <= bar_of width x <= 7
        /\ (width mod 8 = 0 -> bar_of width x = x / (width / 8))
        /\ (x < Z.max 1 (width / 8) ->
            bar_pixel width x = [Byte.xff; Byte.xff; Byte.xff])).
Proof.
  intros width height bars board Hw Hh.
  pose proof (frame_size_in_range g Hw Hh) as Hsize.
  pose proof (GenerateColorBars_loop g Hw Hh) as Hbars_loop.
  pose proof (GenerateCheckerboard_loop g Hw Hh) as Hboard_loop.
  subst bars board width height. cbv zeta in Hbars_loop, Hboard_loop.
  split; [|split; [|split]].
  - intros Hfits.
    split; [|split].
    + unfold TestPatternGenerator.GenerateColorBars.
      rewrite Hsize, resize_empty by exact Hfits.
      cbn [mbind Result_bind]. cbv zeta.
      rewrite Hbars_loop. reflexivity.
    + unfold TestPatternGenerator.GenerateCheckerboard.
      rewrite Hsize, resize_empty by exact Hfits.
      cbn [mbind Result_bind]. cbv zeta.
      rewrite Hboard_loop. reflexivity.
    + intros Pw Ph. unfold INT_MAX in *. split.
      * apply (image_valid _ _ _ 3%nat); try nia.
        intros x y Hx _. apply bar_pixel_length; lia.
      * apply (image_valid _ _ _ 3%nat); try nia. reflexivity.
  - intros Hbig.
    unfold TestPatternGenerator.GenerateColorBars,
      TestPatternGenerator.GenerateCheckerboard.
    rewrite Hsize, resize_throws by exact Hbig. split; reflexivity.
  - intros x y j Hx Hy Hj. split.
    + apply (image_lookup _ _
               (fun x _ => bar_pixel (TestPatternGenerator.width_ g) x) 3);
        try assumption.
      intros x' y' Hx' _. apply bar_pixel_length; lia.
    + apply (image_lookup _ _ check_pixel 3); try assumption.
      reflexivity.
  - intros x Hx.
    split; [apply bar_of_range; lia|].
    split; [apply bar_of_even_bars; exact Hx|].
    intros Hfirst. unfold bar_pixel, bar_of.
    rewrite Z.div_small by lia. reflexivity.
Qed.

Lemma TestPatternGenerator_patterns_witness :
  TestPatternGenerator.GenerateCheckerboard 5 small_generator
  = Value (Frame.mk
             (image (TestPatternGenerator.width_ small_generator)
                    (TestPatternGenerator.height_ small_generator)
                    check_pixel)
             (TestPatternGenerator.width_ small_generator)
             (TestPatternGenerator.height_ small_generator) "bgr" 5).
Proof.
  destruct (TestPatternGenerator_patterns 5 small_generator)
    as (H1 & _).
  - unfold INT_MAX. simpl. lia.
  - unfold INT_MAX. simpl. lia.
  - destruct H1 as (_ & H2 & _).
    + unfold VECTOR_MAX_SIZE. simpl. lia.
    + exact H2.
Defined.

(** ** Test frames: sizes without pixels *)

(** Half of a negative [int], truncated, is negative. *)
Lemma quot_2_negative (a : Z) :
  - 2 ^ 63 <= a -> a <= -2 -> - 2 ^ 63 <= Z.quot a 2 < 0.
Proof.
  intros Hlow Ha.
  replace a with (- (- a)) by lia.
  rewrite Z.quot_opp_l by lia.
  rewrite Z.quot_div_nonneg by lia.
  assert (1 <= - a / 2) by (apply Z.div_le_lower_bound; lia).
  assert (- a / 2 <= - a) by (apply Z.div_le_upper_bound; lia).
  lia.
Qed.

(** X30.  For a format that is not supported, [CreateTestFrame] and
    [CreateColorFrame] return a frame without data, whatever the
    dimensions, which the capture engine rejects.  For a supported
    format and dimensions whose product is negative, the size is
    converted to a [size_t] beyond [max_size()], and both throw
    [std::length_error] from [resize]. *)
Theorem frames_without_pixels (now width height : Z) (r g b : Byte.byte)
    (format : string) :
  (FrameUtils.IsValidFormat format = false ->
   CreateTestFrame now width height format
   = Value (Frame.mk [] width height format now)
   /\ CreateColorFrame now width height r g b format
      = Value (Frame.mk [] width height format now)
   /\ CameraManager_ValidateFrame (Frame.mk [] width height format now)
      = false)
  /\ (FrameUtils.IsValidFormat format = true ->
      is_int (width * height * 3) -> width * height < 0 ->
      CreateTestFrame now width height format
      = Exception "std::length_error"
      /\ CreateColorFrame now width height r g b format
         = Exception "std::length_error").
Proof.
  split.
  - intros Hother.
    destruct (CalculateFrameSize_other width height format Hother)
      as (S0 & E1 & E2 & E3).
    unfold CreateTestFrame, CreateColorFrame.
    rewrite S0, E1, E2, E3. repeat split; reflexivity.
  - intros Hvalid Hint Hneg.
    destruct (CalculateFrameSize_sizes width height Hint)
      as (Sbgr & Srgb & Sgray & Sjpeg & Spng).
    unfold is_int, INT_MIN, INT_MAX in Hint.
    pose proof (quot_2_negative (width * height * 3) ltac:(lia) ltac:(lia))
      as Hquot.
    unfold CreateTestFrame, CreateColorFrame.
    destruct (IsValidFormat_formats format Hvalid)
      as [->|[->|[->|[->| ->]]]].
    + rewrite Sbgr, resize_throws by (apply to_size_t_negative; lia).
      split; reflexivity.
    + rewrite Srgb, resize_throws by (apply to_size_t_negative; lia).
      split; reflexivity.
    + rewrite Sgray, resize_throws by (apply to_size_t_negative; lia).
      split; reflexivity.
    + rewrite Sjpeg, resize_throws by (apply to_size_t_negative; lia).
      split; reflexivity.
    + rewrite Spng, resize_throws by (apply to_size_t_negative; lia).
      split; reflexivity.
Qed.
